(** * The live-event stream client of the admin dashboard

    A shallow embedding of

    - the dashboard slice   ([features/dashboardSlice.ts], kept as
      [src/unnamed/part_007]),
    - the WebSocket hook    [src/frontend/src/hooks/useWebSocket.ts]
      (module [UseWebSocket]),
    - the second WebSocket hook of the repository, the one with back-off,
      attempt ceiling and authentication close codes, kept as
      [src/unnamed/part_008] (module [UseWebSocket008]),

    together with the part of the browser both hooks talk to: WebSocket
    objects, timers, [JSON.parse], [crypto.randomUUID] and the clock.

    Around them, what the hooks read and what reads their results:

    - the authentication slice ([features/authSlice.ts], kept as
      [src/unnamed/part_006], module [AuthSlice]) with [localStorage],
    - the list of the activity feed ([src/unnamed/part_009], module
      [ActivityFeed]),
    - the text helpers [truncate], [maskEmail] and [maskIP] of
      [src/frontend/src/utils/helpers.ts] (module [Helpers]). *)

From Stdlib Require Import ZArith String Ascii List Bool Lia SpecFloat.
From stdpp Require Import base tactics list.
Import ListNotations.

Local Open Scope string_scope.
Local Open Scope list_scope.

(** ** JavaScript values *)

Module JS.

(** What [JSON.parse] can return.  A number is an IEEE 754 binary64 value;
    an object keeps its members as an association list, the first entry of a
    key being the one a property read sees. *)
#[local] Unset Elimination Schemes.
Inductive JSON : Type :=
| JNull
| JBool (b : bool)
| JNumber (x : spec_float)
| JString (s : string)
| JArray (items : list JSON)
| JObject (members : list (string * JSON)).
#[local] Set Elimination Schemes.

(** A JavaScript value as far as the hooks meet one: [None] is [undefined]. *)
Definition Value : Type := option JSON.

Definition undefined : Value := None.
Definition null : Value := Some JNull.
Definition str (s : string) : Value := Some (JString s).

(** ToBoolean. *)
Definition number_truthy (x : spec_float) : bool :=
  match x with
  | S754_zero _ | S754_nan => false
  | S754_infinity _ | S754_finite _ _ _ => true
  end.

Definition string_truthy (s : string) : bool :=
  match s with
  | EmptyString => false
  | String _ _ => true
  end.

Definition truthy (v : Value) : bool :=
  match v with
  | None => false
  | Some JNull => false
  | Some (JBool b) => b
  | Some (JNumber x) => number_truthy x
  | Some (JString s) => string_truthy s
  | Some (JArray _) => true
  | Some (JObject _) => true
  end.

(** [a || b]. *)
Definition or_else (a b : Value) : Value := if truthy a then a else b.

(** [v === 'lit'] for a string literal. *)
Definition is_string (v : Value) (lit : string) : bool :=
  match v with
  | Some (JString s) => String.eqb s lit
  | _ => false
  end.

Fixpoint assoc (k : string) (members : list (string * JSON)) : Value :=
  match members with
  | [] => None
  | (k', v) :: rest => if String.eqb k k' then Some v else assoc k rest
  end.

(** Errors a handler can meet. *)
Inductive Error : Type :=
| SyntaxError
| TypeError
| InvalidStateError.

(** [v.k] for the property names the hooks read ([type], [payload],
    [timestamp], [id], [action], [severity], [actor_id], [target], [message],
    [metadata]): none of them is defined on the prototype of a primitive, an
    array or a plain object, so only an own member of an object is found;
    reading a property of [null] or [undefined] throws. *)
Definition get (v : Value) (k : string) : Error + Value :=
  match v with
  | None | Some JNull => inl TypeError
  | Some (JObject members) => inr (assoc k members)
  | Some _ => inr undefined
  end.

End JS.

Export JS.

(** ** The dashboard slice ([src/unnamed/part_007]) *)

Module DashboardSlice.

(** [DashboardEvent] of [services/dashboardApi.ts].  The hook fills the
    fields from parsed JSON without a run-time check, so each one holds a
    JavaScript value. *)
Record DashboardEvent : Type := {
  id : Value;
  type : Value;
  action : Value;
  severity : Value;
  actor_id : Value;
  target : Value;
  message : Value;
  timestamp : Value;
  metadata : Value
}.

(** ['1h' | '6h' | '24h' | '7d'] *)
Inductive TimeRange : Type := Range1h | Range6h | Range24h | Range7d.

(** ['info' | 'warning' | 'error' | 'success']; [ErrorKind] is ['error']. *)
Inductive NotificationType : Type := Info | Warning | ErrorKind | Success.

Record Notification : Type := {
  n_id : string;
  n_type : NotificationType;
  n_message : Value;
  n_timestamp : string
}.

(** The payload of [addNotification]. *)
Record NotificationPayload : Type := {
  p_type : NotificationType;
  p_message : Value
}.

Record DashboardState : Type := {
  selectedTimeRange : TimeRange;
  sidebarCollapsed : bool;
  liveEventsEnabled : bool;
  recentEvents : list DashboardEvent;
  notifications : list Notification
}.

Definition initialState : DashboardState :=
  {| selectedTimeRange := Range24h;
     sidebarCollapsed := false;
     liveEventsEnabled := true;
     recentEvents := [];
     notifications := [] |}.

Definition setTimeRange (r : TimeRange) (state : DashboardState) : DashboardState :=
  {| selectedTimeRange := r;
     sidebarCollapsed := sidebarCollapsed state;
     liveEventsEnabled := liveEventsEnabled state;
     recentEvents := recentEvents state;
     notifications := notifications state |}.

Definition toggleSidebar (state : DashboardState) : DashboardState :=
  {| selectedTimeRange := selectedTimeRange state;
     sidebarCollapsed := negb (sidebarCollapsed state);
     liveEventsEnabled := liveEventsEnabled state;
     recentEvents := recentEvents state;
     notifications := notifications state |}.

Definition toggleLiveEvents (state : DashboardState) : DashboardState :=
  {| selectedTimeRange := selectedTimeRange state;
     sidebarCollapsed := sidebarCollapsed state;
     liveEventsEnabled := negb (liveEventsEnabled state);
     recentEvents := recentEvents state;
     notifications := notifications state |}.

(** [state.recentEvents = [action.payload, ...state.recentEvents.slice(0, 99)]] *)
Definition addEvent (payload : DashboardEvent) (state : DashboardState) : DashboardState :=
  {| selectedTimeRange := selectedTimeRange state;
     sidebarCollapsed := sidebarCollapsed state;
     liveEventsEnabled := liveEventsEnabled state;
     recentEvents := payload :: take 99 (recentEvents state);
     notifications := notifications state |}.

Definition clearEvents (state : DashboardState) : DashboardState :=
  {| selectedTimeRange := selectedTimeRange state;
     sidebarCollapsed := sidebarCollapsed state;
     liveEventsEnabled := liveEventsEnabled state;
     recentEvents := [];
     notifications := notifications state |}.

(** [state.notifications.push({ id: crypto.randomUUID(), ...action.payload,
    timestamp: new Date().toISOString() })]; the identifier and the time are
    what the two calls returned. *)
Definition addNotification (uuid now : string) (payload : NotificationPayload)
    (state : DashboardState) : DashboardState :=
  {| selectedTimeRange := selectedTimeRange state;
     sidebarCollapsed := sidebarCollapsed state;
     liveEventsEnabled := liveEventsEnabled state;
     recentEvents := recentEvents state;
     notifications :=
       notifications state ++
       [ {| n_id := uuid;
            n_type := p_type payload;
            n_message := p_message payload;
            n_timestamp := now |} ] |}.

(** [state.notifications.filter((n) => n.id !== action.payload)] *)
Definition removeNotification (payload : string) (state : DashboardState) : DashboardState :=
  {| selectedTimeRange := selectedTimeRange state;
     sidebarCollapsed := sidebarCollapsed state;
     liveEventsEnabled := liveEventsEnabled state;
     recentEvents := recentEvents state;
     notifications :=
       List.filter (fun n => negb (String.eqb (n_id n) payload)) (notifications state) |}.

Definition clearNotifications (state : DashboardState) : DashboardState :=
  {| selectedTimeRange := selectedTimeRange state;
     sidebarCollapsed := sidebarCollapsed state;
     liveEventsEnabled := liveEventsEnabled state;
     recentEvents := recentEvents state;
     notifications := [] |}.

(** Dispatching [addEvent] once per element of [evs], first element first. *)
Definition addEvents (evs : list DashboardEvent) (state : DashboardState) : DashboardState :=
  fold_left (fun st e => addEvent e st) evs state.

End DashboardSlice.

Export DashboardSlice.

(** ** The browser: sockets, timers, the store and the platform calls *)

Module Browser.

(** A computation over a state [S] that returns an [A] or throws. *)
Definition M (S A : Type) : Type := S -> (Error + A) * S.

Definition ret {S A : Type} (a : A) : M S A := fun s => (inr a, s).

Definition throw {S A : Type} (e : Error) : M S A := fun s => (inl e, s).

Definition bind {S A B : Type} (m : M S A) (k : A -> M S B) : M S B :=
  fun s =>
    match m s with
    | (inl e, s') => (inl e, s')
    | (inr a, s') => k a s'
    end.

(** [try { body } catch (err) { handler }] *)
Definition try_catch {S A : Type} (body : M S A) (handler : Error -> M S A) : M S A :=
  fun s =>
    match body s with
    | (inl e, s') => handler e s'
    | (inr a, s') => (inr a, s')
    end.

Definition gets {S A : Type} (f : S -> A) : M S A := fun s => (inr (f s), s).

Definition modify {S : Type} (f : S -> S) : M S unit := fun s => (inr tt, f s).

(** A value or exception that does not depend on the state. *)
Definition lift_result {S A : Type} (r : Error + A) : M S A := fun s => (r, s).

(** The state a handler leaves behind; an exception it lets escape is
    reported by the browser and changes nothing further. *)
Definition exec {S A : Type} (m : M S A) (s : S) : S := snd (m s).

Definition throws {S A : Type} (m : M S A) (s : S) : bool :=
  match fst (m s) with inl _ => true | inr _ => false end.

Declare Scope js_scope.
Delimit Scope js_scope with js.
Notation "x <- m ;; k" := (bind m (fun x => k))
  (at level 100, m at next level, right associativity) : js_scope.
Notation "m ;;; k" := (bind m (fun _ => k))
  (at level 100, right associativity) : js_scope.

(** What the component reads at render time: [state.auth.token],
    [state.auth.isAuthenticated] and the hook's argument.  The closures the
    hook creates ([connect], the socket handlers, the timer callbacks) keep
    the values of the render that created them. *)
Record Props : Type := {
  token : option string;
  isAuthenticated : bool;
  enabled : bool
}.

(** [!!token] *)
Definition token_truthy (p : Props) : bool :=
  match token p with
  | Some t => string_truthy t
  | None => false
  end.

Definition token_text (p : Props) : string :=
  match token p with
  | Some t => t
  | None => "null"
  end.

Definition option_string_eqb (a b : option string) : bool :=
  match a, b with
  | Some x, Some y => String.eqb x y
  | None, None => true
  | _, _ => false
  end.

Inductive ReadyState : Type := CONNECTING | OPEN | CLOSING | CLOSED.

(** A WebSocket object.  A handler slot holds the closure assigned to it
    ([None] is [null]); [sent] lists the frames handed to the network. *)
Record WebSocket : Type := {
  url : string;
  readyState : ReadyState;
  onopen : option Props;
  onmessage : option Props;
  onclose : option Props;
  onerror : option Props;
  sent : list string
}.

(** A [window.setTimeout] entry: it runs the callback of closure [callback]
    once, unless cleared before. *)
Record Timeout : Type := {
  delay : Z;
  callback : Props;
  pending : bool
}.

Record Interval : Type := {
  period : Z;
  active : bool
}.

(** The calls whose results the hooks do not determine.  [JSON_parse]
    returns [None] where [JSON.parse] throws a [SyntaxError]; [randomUUID]
    and [toISOString] give the result of the n-th call; [url_ok] tells
    whether [new WebSocket(url)] accepts the URL (it throws a [SyntaxError]
    otherwise). *)
Record Platform : Type := {
  JSON_parse : string -> option JSON;
  randomUUID : nat -> string;
  toISOString : nat -> string;
  url_ok : string -> bool;
  location_protocol : string;
  location_host : string;
  VITE_API_WS_URL : option string
}.

Record Env : Type := {
  sockets : list WebSocket;
  timeouts : list Timeout;
  intervals : list Interval;
  store : DashboardState;
  calls : nat
}.

Definition initialEnv : Env :=
  {| sockets := []; timeouts := []; intervals := [];
     store := initialState; calls := 0 |}.

Definition set_sockets (f : list WebSocket -> list WebSocket) (e : Env) : Env :=
  {| sockets := f (sockets e); timeouts := timeouts e; intervals := intervals e;
     store := store e; calls := calls e |}.

Definition set_timeouts (f : list Timeout -> list Timeout) (e : Env) : Env :=
  {| sockets := sockets e; timeouts := f (timeouts e); intervals := intervals e;
     store := store e; calls := calls e |}.

Definition set_intervals (f : list Interval -> list Interval) (e : Env) : Env :=
  {| sockets := sockets e; timeouts := timeouts e; intervals := f (intervals e);
     store := store e; calls := calls e |}.

Definition set_store (f : DashboardState -> DashboardState) (e : Env) : Env :=
  {| sockets := sockets e; timeouts := timeouts e; intervals := intervals e;
     store := f (store e); calls := calls e |}.

Definition tick (e : Env) : Env :=
  {| sockets := sockets e; timeouts := timeouts e; intervals := intervals e;
     store := store e; calls := S (calls e) |}.

Arguments set_sockets _ e /.
Arguments set_timeouts _ e /.
Arguments set_intervals _ e /.
Arguments set_store _ e /.
Arguments tick e /.

Definition set_readyState (r : ReadyState) (w : WebSocket) : WebSocket :=
  {| url := url w; readyState := r; onopen := onopen w; onmessage := onmessage w;
     onclose := onclose w; onerror := onerror w; sent := sent w |}.

Definition set_onopen (h : option Props) (w : WebSocket) : WebSocket :=
  {| url := url w; readyState := readyState w; onopen := h; onmessage := onmessage w;
     onclose := onclose w; onerror := onerror w; sent := sent w |}.

Definition set_onmessage (h : option Props) (w : WebSocket) : WebSocket :=
  {| url := url w; readyState := readyState w; onopen := onopen w; onmessage := h;
     onclose := onclose w; onerror := onerror w; sent := sent w |}.

Definition set_onclose (h : option Props) (w : WebSocket) : WebSocket :=
  {| url := url w; readyState := readyState w; onopen := onopen w; onmessage := onmessage w;
     onclose := h; onerror := onerror w; sent := sent w |}.

Definition set_onerror (h : option Props) (w : WebSocket) : WebSocket :=
  {| url := url w; readyState := readyState w; onopen := onopen w; onmessage := onmessage w;
     onclose := onclose w; onerror := h; sent := sent w |}.

Definition push_sent (data : string) (w : WebSocket) : WebSocket :=
  {| url := url w; readyState := readyState w; onopen := onopen w; onmessage := onmessage w;
     onclose := onclose w; onerror := onerror w; sent := sent w ++ [data] |}.

Definition set_pending (b : bool) (t : Timeout) : Timeout :=
  {| delay := delay t; callback := callback t; pending := b |}.

Definition set_active (b : bool) (i : Interval) : Interval :=
  {| period := period i; active := b |}.

Arguments set_readyState _ w /.
Arguments set_onopen _ w /.
Arguments set_onmessage _ w /.
Arguments set_onclose _ w /.
Arguments set_onerror _ w /.
Arguments push_sent _ w /.
Arguments set_pending _ t /.
Arguments set_active _ i /.

(** A transport is live while it is connecting or open. *)
Definition live (w : WebSocket) : bool :=
  match readyState w with
  | CONNECTING | OPEN => true
  | CLOSING | CLOSED => false
  end.

Definition readyState_is (r : ReadyState) (w : WebSocket) : bool :=
  match r, readyState w with
  | CONNECTING, CONNECTING | OPEN, OPEN | CLOSING, CLOSING | CLOSED, CLOSED => true
  | _, _ => false
  end.

(** [new WebSocket(url)]: a socket in state CONNECTING without handlers; its
    handle is its index in [sockets]. *)
Definition new_WebSocket (P : Platform) (u : string) : M Env nat :=
  fun e =>
    if url_ok P u then
      (inr (length (sockets e)),
       set_sockets (fun l => l ++ [ {| url := u; readyState := CONNECTING;
                                       onopen := None; onmessage := None;
                                       onclose := None; onerror := None;
                                       sent := [] |} ]) e)
    else (inl SyntaxError, e).

(** [ws.close()], also with a valid code and reason: starts the closing
    handshake of a connecting or open socket and does nothing otherwise. *)
Definition ws_close_socket (w : WebSocket) : WebSocket :=
  if live w then set_readyState CLOSING w else w.

Definition ws_close (ws : nat) : M Env unit :=
  modify (set_sockets (alter ws_close_socket ws)).

(** [ws.send(data)]: throws while connecting, hands the frame to the network
    when open, and drops it when closing or closed. *)
Definition ws_send (ws : nat) (data : string) : M Env unit :=
  fun e =>
    match sockets e !! ws with
    | Some w =>
        match readyState w with
        | CONNECTING => (inl InvalidStateError, e)
        | OPEN => (inr tt, set_sockets (alter (push_sent data) ws) e)
        | CLOSING | CLOSED => (inr tt, e)
        end
    | None => (inr tt, e)
    end.

Definition ws_alter (f : WebSocket -> WebSocket) (ws : nat) : M Env unit :=
  modify (set_sockets (alter f ws)).

(** [window.setTimeout(callback, delay)] *)
Definition setTimeout (cb : Props) (d : Z) : M Env nat :=
  fun e =>
    (inr (length (timeouts e)),
     set_timeouts (fun l => l ++ [ {| delay := d; callback := cb; pending := true |} ]) e).

Definition clearTimeout (t : nat) : M Env unit :=
  modify (set_timeouts (alter (set_pending false) t)).

Definition setInterval (d : Z) : M Env nat :=
  fun e =>
    (inr (length (intervals e)),
     set_intervals (fun l => l ++ [ {| period := d; active := true |} ]) e).

Definition clearInterval (i : nat) : M Env unit :=
  modify (set_intervals (alter (set_active false) i)).

(** [crypto.randomUUID()] *)
Definition crypto_randomUUID (P : Platform) : M Env string :=
  fun e => (inr (randomUUID P (calls e)), tick e).

(** [dispatch(addEvent(ev))] *)
Definition dispatch_addEvent (ev : DashboardEvent) : M Env unit :=
  modify (set_store (addEvent ev)).

(** [dispatch(addNotification(payload))]; the reducer asks for an identifier
    and the time. *)
Definition dispatch_addNotification (P : Platform) (payload : NotificationPayload) : M Env unit :=
  fun e =>
    (inr tt,
     tick (set_store (addNotification (randomUUID P (calls e))
                                      (toISOString P (calls e)) payload) e)).

End Browser.

Export Browser.

(** ** The body of [ws.onmessage]

    Lines 36-75 of [frontend/src/hooks/useWebSocket.ts] and lines 126-166 of
    [part_008] are the same statements (the text of the console message
    apart, which is not modelled); [ws] is the socket the handler was
    attached to. *)

Module OnMessage.

Local Open Scope js_scope.

Section Body.

Variable P : Platform.

(** [const data = JSON.parse(event.data)] *)
Definition parse (data : string) : M Env Value :=
  match JSON_parse P data with
  | Some j => ret (Some j)
  | None => throw SyntaxError
  end.

Definition prop (v : Value) (k : string) : M Env Value := lift_result (get v k).

(** The object literal of lines 51-61; [crypto.randomUUID()] is called only
    when [data.payload.id] is falsy. *)
Definition build_event (data payload : Value) : M Env DashboardEvent :=
  ty <- prop data "type" ;;
  pid <- prop payload "id" ;;
  ev_id <- (if truthy pid then ret pid
            else (u <- crypto_randomUUID P ;; ret (str u))) ;;
  paction <- prop payload "action" ;;
  pseverity <- prop payload "severity" ;;
  pactor <- prop payload "actor_id" ;;
  ptarget <- prop payload "target" ;;
  pmessage <- prop payload "message" ;;
  ts <- prop data "timestamp" ;;
  pmetadata <- prop payload "metadata" ;;
  ret {| id := ev_id;
         type := ty;
         action := or_else paction ty;
         severity := or_else pseverity (str "info");
         actor_id := or_else pactor (str EmptyString);
         target := or_else ptarget null;
         message := or_else pmessage ty;
         timestamp := ts;
         metadata := or_else pmetadata null |}.

(** Lines 65-71: the notification for a high or critical event. *)
Definition notify_severity (ev : DashboardEvent) : M Env unit :=
  if is_string (severity ev) "high" || is_string (severity ev) "critical" then
    dispatch_addNotification P
      {| p_type := if is_string (severity ev) "critical" then ErrorKind else Warning;
         p_message := message ev |}
  else ret tt.

(** The statements inside [try]. *)
Definition try_block (ws : nat) (frame : string) : M Env unit :=
  data <- parse frame ;;
  ty <- prop data "type" ;;
  if is_string ty "heartbeat" then ws_send ws "ping"
  else if is_string ty "connected" || is_string ty "pong" then ret tt
  else if truthy ty then
    (payload <- prop data "payload" ;;
     if truthy payload then
       (ev <- build_event data payload ;;
        dispatch_addEvent ev ;;;
        notify_severity ev)
     else ret tt)
  else ret tt.

(** [try { ... } catch (err) { console.error(...) }] *)
Definition onmessage_body (ws : nat) (frame : string) : M Env unit :=
  try_catch (try_block ws frame) (fun _ => ret tt).

(** *** The handler read as a classifier

    What the handler does with a frame, named as the specification names
    it: the heartbeat branch, the branch that ignores [connected] and
    [pong], the branch that builds an event ([generated] tells whether the
    identifier came from [crypto.randomUUID()], whose n-th result is used),
    and everything that ends without an effect, by an exception caught or
    by a test that fails. *)
Inductive Classification : Type :=
| Heartbeat
| ConnectionAck
| DomainEvent (ev : DashboardEvent) (generated : bool)
| Unparseable.

Definition field (v : Value) (k : string) : Value :=
  match get v k with
  | inr x => x
  | inl _ => undefined
  end.

Definition event_of (n : nat) (data payload : Value) : DashboardEvent :=
  {| id := if truthy (field payload "id") then field payload "id"
           else str (randomUUID P n);
     type := field data "type";
     action := or_else (field payload "action") (field data "type");
     severity := or_else (field payload "severity") (str "info");
     actor_id := or_else (field payload "actor_id") (str EmptyString);
     target := or_else (field payload "target") null;
     message := or_else (field payload "message") (field data "type");
     timestamp := field data "timestamp";
     metadata := or_else (field payload "metadata") null |}.

Definition normalize (n : nat) (frame : string) : Classification :=
  match JSON_parse P frame with
  | None => Unparseable
  | Some j =>
      match get (Some j) "type" with
      | inl _ => Unparseable
      | inr ty =>
          if is_string ty "heartbeat" then Heartbeat
          else if is_string ty "connected" || is_string ty "pong" then ConnectionAck
          else if truthy ty && truthy (field (Some j) "payload") then
            DomainEvent (event_of n (Some j) (field (Some j) "payload"))
                        (negb (truthy (field (field (Some j) "payload") "id")))
          else Unparseable
      end
  end.

(** The effect of each class. *)
Definition perform (ws : nat) (c : Classification) : M Env unit :=
  match c with
  | Heartbeat => try_catch (ws_send ws "ping") (fun _ => ret tt)
  | ConnectionAck => ret tt
  | DomainEvent ev generated =>
      (if generated then modify tick else ret tt) ;;;
      dispatch_addEvent ev ;;;
      notify_severity ev
  | Unparseable => ret tt
  end.

End Body.

End OnMessage.

Export OnMessage.

(** ** [frontend/src/hooks/useWebSocket.ts] *)

Module UseWebSocket.

Local Open Scope js_scope.

(** The refs of the hook, the interval owned by the keep-alive effect, the
    props of the last render ([None] once unmounted) and the browser. *)
Record State : Type := {
  wsRef : option nat;
  reconnectTimeoutRef : option nat;
  pingInterval : option nat;
  props : option Props;
  env : Env
}.

Definition initial : State :=
  {| wsRef := None; reconnectTimeoutRef := None; pingInterval := None;
     props := None; env := initialEnv |}.

Definition set_wsRef (v : option nat) (st : State) : State :=
  {| wsRef := v; reconnectTimeoutRef := reconnectTimeoutRef st;
     pingInterval := pingInterval st; props := props st; env := env st |}.

Definition set_reconnectTimeoutRef (v : option nat) (st : State) : State :=
  {| wsRef := wsRef st; reconnectTimeoutRef := v;
     pingInterval := pingInterval st; props := props st; env := env st |}.

Definition set_pingInterval (v : option nat) (st : State) : State :=
  {| wsRef := wsRef st; reconnectTimeoutRef := reconnectTimeoutRef st;
     pingInterval := v; props := props st; env := env st |}.

Definition set_props (v : option Props) (st : State) : State :=
  {| wsRef := wsRef st; reconnectTimeoutRef := reconnectTimeoutRef st;
     pingInterval := pingInterval st; props := v; env := env st |}.

Definition set_env (e : Env) (st : State) : State :=
  {| wsRef := wsRef st; reconnectTimeoutRef := reconnectTimeoutRef st;
     pingInterval := pingInterval st; props := props st; env := e |}.

Arguments set_wsRef _ st /.
Arguments set_reconnectTimeoutRef _ st /.
Arguments set_pingInterval _ st /.
Arguments set_props _ st /.
Arguments set_env _ st /.

(** A browser call made from the hook. *)
Definition lift {A : Type} (m : M Env A) : M State A :=
  fun st => let (r, e) := m (env st) in (r, set_env e st).

Definition when_some {S : Type} (o : option nat) (f : nat -> M S unit) : M S unit :=
  match o with
  | Some x => f x
  | None => ret tt
  end.

Section Hook.

Variable P : Platform.

(** Lines 20-21. *)
Definition wsUrl (p : Props) : string :=
  let protocol :=
    if String.eqb (location_protocol P) "https:" then "wss:" else "ws:" in
  (protocol ++ "//" ++ location_host P
     ++ "/api/admin/dashboard/ws/events?token=" ++ token_text p)%string.

(** Lines 12-98. *)
Definition connect (p : Props) : M State unit :=
  if negb (token_truthy p) || negb (enabled p) then ret tt
  else
    (cur <- gets wsRef ;;
     when_some cur (fun ws => lift (ws_close ws)) ;;;
     try_catch
       (ws <- lift (new_WebSocket P (wsUrl p)) ;;
        modify (set_wsRef (Some ws)) ;;;
        lift (ws_alter (set_onopen (Some p)) ws) ;;;
        lift (ws_alter (set_onmessage (Some p)) ws) ;;;
        lift (ws_alter (set_onclose (Some p)) ws) ;;;
        lift (ws_alter (set_onerror (Some p)) ws))
       (fun _ => ret tt)).

(** Lines 27-33. *)
Definition ws_onopen : M State unit :=
  lift (dispatch_addNotification P
          {| p_type := Success; p_message := str "Live events connected" |}).

(** Lines 35-76. *)
Definition ws_onmessage (ws : nat) (frame : string) : M State unit :=
  lift (onmessage_body P ws frame).

(** Lines 78-89; [p] is the render whose [connect] attached the handler. *)
Definition ws_onclose (p : Props) (code : Z) (wasClean : bool) : M State unit :=
  modify (set_wsRef None) ;;;
  if enabled p && negb wasClean then
    (t <- lift (setTimeout p 5000) ;;
     modify (set_reconnectTimeoutRef (Some t)))
  else ret tt.

(** Lines 91-93: the handler only logs. *)
Definition ws_onerror : M State unit := ret tt.

(** Lines 101-114: the effect and its clean-up.  A timer handle is never 0
    in a browser, so a stored handle is truthy. *)
Definition effect_connect (p : Props) : M State unit :=
  if enabled p then connect p else ret tt.

Definition cleanup_connect : M State unit :=
  t <- gets reconnectTimeoutRef ;;
  when_some t (fun i => lift (clearTimeout i)) ;;;
  cur <- gets wsRef ;;
  when_some cur (fun ws => lift (ws_close ws)).

(** Lines 117-127: the keep-alive effect, its clean-up and its callback. *)
Definition effect_ping (p : Props) : M State unit :=
  if negb (enabled p) then ret tt
  else (i <- lift (setInterval 25000) ;; modify (set_pingInterval (Some i))).

Definition cleanup_ping : M State unit :=
  i <- gets pingInterval ;;
  when_some i (fun i => lift (clearInterval i)) ;;;
  modify (set_pingInterval None).

Definition socket_state (st : State) (ws : nat) : option ReadyState :=
  readyState <$> sockets (env st) !! ws.

Definition ping_callback : M State unit :=
  cur <- gets wsRef ;;
  when_some cur (fun ws =>
    st <- gets (fun st => socket_state st ws) ;;
    match st with
    | Some OPEN => lift (ws_send ws "ping")
    | _ => ret tt
    end).

(** What can happen to a mounted hook: React renders it again or unmounts
    it, a timer or the interval fires, the browser reports on a socket. *)
Inductive Event : Type :=
| Rerender (p : Props)
| Unmount
| TimeoutFires (t : nat)
| IntervalFires (i : nat)
| Opened (ws : nat)
| Message (ws : nat) (frame : string)
| Errored (ws : nat)
| Closed (ws : nat) (code : Z) (wasClean : bool).

Definition mount (p : Props) : State :=
  exec (effect_connect p ;;; effect_ping p) (set_props (Some p) initial).

(** [connect] is a new function when [token] or [enabled] changed, so the
    first effect runs again then; the second one when [enabled] changed.
    React runs the clean-ups before the effects. *)
Definition rerender (p p' : Props) : M State unit :=
  let c2 := negb (Bool.eqb (enabled p) (enabled p')) in
  let c1 := negb (option_string_eqb (token p) (token p')) || c2 in
  (if c1 then cleanup_connect else ret tt) ;;;
  (if c2 then cleanup_ping else ret tt) ;;;
  (if c1 then effect_connect p' else ret tt) ;;;
  (if c2 then effect_ping p' else ret tt).

Definition step (ev : Event) (st : State) : State :=
  match ev with
  | Rerender p' =>
      match props st with
      | Some p => exec (rerender p p') (set_props (Some p') st)
      | None => st
      end
  | Unmount =>
      match props st with
      | Some _ => exec (cleanup_connect ;;; cleanup_ping) (set_props None st)
      | None => st
      end
  | TimeoutFires t =>
      match timeouts (env st) !! t with
      | Some tm =>
          if pending tm then
            exec (lift (modify (set_timeouts (alter (set_pending false) t))) ;;;
                  connect (callback tm)) st
          else st
      | None => st
      end
  | IntervalFires i =>
      match intervals (env st) !! i with
      | Some iv => if active iv then exec ping_callback st else st
      | None => st
      end
  | Opened ws =>
      match sockets (env st) !! ws with
      | Some w =>
          if readyState_is CONNECTING w then
            exec (lift (ws_alter (set_readyState OPEN) ws) ;;;
                  match onopen w with Some _ => ws_onopen | None => ret tt end) st
          else st
      | None => st
      end
  | Message ws frame =>
      match sockets (env st) !! ws with
      | Some w =>
          if readyState_is OPEN w then
            match onmessage w with
            | Some _ => exec (ws_onmessage ws frame) st
            | None => st
            end
          else st
      | None => st
      end
  | Errored ws =>
      match sockets (env st) !! ws with
      | Some w =>
          match onerror w with
          | Some _ => exec ws_onerror st
          | None => st
          end
      | None => st
      end
  | Closed ws code wasClean =>
      match sockets (env st) !! ws with
      | Some w =>
          if readyState_is CLOSED w then st
          else
            exec (lift (ws_alter (set_readyState CLOSED) ws) ;;;
                  match onclose w with
                  | Some p => ws_onclose p code wasClean
                  | None => ret tt
                  end) st
      | None => st
      end
  end.

Definition run (evs : list Event) (st : State) : State :=
  fold_left (fun s ev => step ev s) evs st.

End Hook.

End UseWebSocket.

(** ** The hook of [src/unnamed/part_008] *)

Module UseWebSocket008.

Local Open Scope js_scope.

(** Lines 10-13. *)
Definition MAX_RECONNECT_ATTEMPTS : nat := 5.
Definition INITIAL_RECONNECT_DELAY_MS : Z := 1000.
Definition MAX_RECONNECT_DELAY_MS : Z := 30000.
Definition PING_INTERVAL_MS : Z := 25000.

(** What the clean-up function returned by the main effect does: clear the
    100 ms timer (first [return]) or unmount and [cleanup()] (second). *)
Inductive MainCleanup : Type :=
| ClearConnectDelay (t : nat)
| FullCleanup.

Record State : Type := {
  wsRef : option nat;
  reconnectTimeoutRef : option nat;
  reconnectAttemptsRef : nat;
  isConnectingRef : bool;
  isMountedRef : bool;
  pingIntervalRef : option nat;
  mainCleanup : option MainCleanup;
  props : option Props;
  env : Env
}.

Definition initial : State :=
  {| wsRef := None; reconnectTimeoutRef := None; reconnectAttemptsRef := 0;
     isConnectingRef := false; isMountedRef := false; pingIntervalRef := None;
     mainCleanup := None; props := None; env := initialEnv |}.

Definition set_wsRef (v : option nat) (st : State) : State :=
  {| wsRef := v; reconnectTimeoutRef := reconnectTimeoutRef st;
     reconnectAttemptsRef := reconnectAttemptsRef st;
     isConnectingRef := isConnectingRef st; isMountedRef := isMountedRef st;
     pingIntervalRef := pingIntervalRef st; mainCleanup := mainCleanup st;
     props := props st; env := env st |}.

Definition set_reconnectTimeoutRef (v : option nat) (st : State) : State :=
  {| wsRef := wsRef st; reconnectTimeoutRef := v;
     reconnectAttemptsRef := reconnectAttemptsRef st;
     isConnectingRef := isConnectingRef st; isMountedRef := isMountedRef st;
     pingIntervalRef := pingIntervalRef st; mainCleanup := mainCleanup st;
     props := props st; env := env st |}.

Definition set_reconnectAttemptsRef (v : nat) (st : State) : State :=
  {| wsRef := wsRef st; reconnectTimeoutRef := reconnectTimeoutRef st;
     reconnectAttemptsRef := v;
     isConnectingRef := isConnectingRef st; isMountedRef := isMountedRef st;
     pingIntervalRef := pingIntervalRef st; mainCleanup := mainCleanup st;
     props := props st; env := env st |}.

Definition set_isConnectingRef (v : bool) (st : State) : State :=
  {| wsRef := wsRef st; reconnectTimeoutRef := reconnectTimeoutRef st;
     reconnectAttemptsRef := reconnectAttemptsRef st;
     isConnectingRef := v; isMountedRef := isMountedRef st;
     pingIntervalRef := pingIntervalRef st; mainCleanup := mainCleanup st;
     props := props st; env := env st |}.

Definition set_isMountedRef (v : bool) (st : State) : State :=
  {| wsRef := wsRef st; reconnectTimeoutRef := reconnectTimeoutRef st;
     reconnectAttemptsRef := reconnectAttemptsRef st;
     isConnectingRef := isConnectingRef st; isMountedRef := v;
     pingIntervalRef := pingIntervalRef st; mainCleanup := mainCleanup st;
     props := props st; env := env st |}.

Definition set_pingIntervalRef (v : option nat) (st : State) : State :=
  {| wsRef := wsRef st; reconnectTimeoutRef := reconnectTimeoutRef st;
     reconnectAttemptsRef := reconnectAttemptsRef st;
     isConnectingRef := isConnectingRef st; isMountedRef := isMountedRef st;
     pingIntervalRef := v; mainCleanup := mainCleanup st;
     props := props st; env := env st |}.

Definition set_mainCleanup (v : option MainCleanup) (st : State) : State :=
  {| wsRef := wsRef st; reconnectTimeoutRef := reconnectTimeoutRef st;
     reconnectAttemptsRef := reconnectAttemptsRef st;
     isConnectingRef := isConnectingRef st; isMountedRef := isMountedRef st;
     pingIntervalRef := pingIntervalRef st; mainCleanup := v;
     props := props st; env := env st |}.

Definition set_props (v : option Props) (st : State) : State :=
  {| wsRef := wsRef st; reconnectTimeoutRef := reconnectTimeoutRef st;
     reconnectAttemptsRef := reconnectAttemptsRef st;
     isConnectingRef := isConnectingRef st; isMountedRef := isMountedRef st;
     pingIntervalRef := pingIntervalRef st; mainCleanup := mainCleanup st;
     props := v; env := env st |}.

Definition set_env (e : Env) (st : State) : State :=
  {| wsRef := wsRef st; reconnectTimeoutRef := reconnectTimeoutRef st;
     reconnectAttemptsRef := reconnectAttemptsRef st;
     isConnectingRef := isConnectingRef st; isMountedRef := isMountedRef st;
     pingIntervalRef := pingIntervalRef st; mainCleanup := mainCleanup st;
     props := props st; env := e |}.

Arguments set_wsRef _ st /.
Arguments set_reconnectTimeoutRef _ st /.
Arguments set_reconnectAttemptsRef _ st /.
Arguments set_isConnectingRef _ st /.
Arguments set_isMountedRef _ st /.
Arguments set_pingIntervalRef _ st /.
Arguments set_mainCleanup _ st /.
Arguments set_props _ st /.
Arguments set_env _ st /.

Definition lift {A : Type} (m : M Env A) : M State A :=
  fun st => let (r, e) := m (env st) in (r, set_env e st).

Definition when_some {S : Type} (o : option nat) (f : nat -> M S unit) : M S unit :=
  match o with
  | Some x => f x
  | None => ret tt
  end.

(** [wsRef.current?.readyState] *)
Definition current_readyState (st : State) : option ReadyState :=
  match wsRef st with
  | Some ws => readyState <$> sockets (env st) !! ws
  | None => None
  end.

(** Lines 28-34, as a function of the value of [reconnectAttemptsRef]. *)
Definition reconnect_delay (attempts : nat) : Z :=
  Z.min (INITIAL_RECONNECT_DELAY_MS * 2 ^ Z.of_nat attempts) MAX_RECONNECT_DELAY_MS.

Definition getReconnectDelay : M State Z :=
  a <- gets reconnectAttemptsRef ;; ret (reconnect_delay a).

(** The close codes of line 182. *)
Definition auth_failure_code (code : Z) : bool :=
  (code =? 1008)%Z || (code =? 4001)%Z || (code =? 4003)%Z || (code =? 4401)%Z.

(** [s.replace(/([^:]\/)\/+/, '$1/')]: the first place where a character
    other than a colon is followed by two or more slashes; the run of
    slashes is replaced by two. *)
Fixpoint skip_slashes (s : string) : string :=
  match s with
  | String "/"%char r => skip_slashes r
  | _ => s
  end.

Fixpoint replace_slashes (s : string) : string :=
  match s with
  | EmptyString => EmptyString
  | String c rest =>
      match rest with
      | String "/"%char (String "/"%char r) =>
          if Ascii.eqb c ":"%char then String c (replace_slashes rest)
          else String c (String "/"%char (String "/"%char (skip_slashes r)))
      | _ => String c (replace_slashes rest)
      end
  end.

Section Hook.

Variable P : Platform.

(** Line 7. *)
Definition WS_BASE_URL : string :=
  match VITE_API_WS_URL P with
  | Some (String c s) => String c s
  | _ => if String.eqb (location_protocol P) "https:" then "wss://localhost:8000"
         else "ws://localhost:8000"
  end.

(** Lines 89-91. *)
Definition wsUrl (p : Props) : string :=
  replace_slashes
    (WS_BASE_URL ++ "/api/admin/dashboard/ws/events?token=" ++ token_text p)%string.

(** Lines 37-59. *)
Definition cleanup : M State unit :=
  t <- gets reconnectTimeoutRef ;;
  when_some t (fun i => lift (clearTimeout i) ;;;
                        modify (set_reconnectTimeoutRef None)) ;;;
  i <- gets pingIntervalRef ;;
  when_some i (fun i => lift (clearInterval i) ;;;
                        modify (set_pingIntervalRef None)) ;;;
  cur <- gets wsRef ;;
  when_some cur (fun ws =>
    lift (ws_alter (set_onclose None) ws) ;;;
    lift (ws_alter (set_onerror None) ws) ;;;
    lift (ws_alter (set_onmessage None) ws) ;;;
    lift (ws_alter (set_onopen None) ws) ;;;
    rs <- gets current_readyState ;;
    match rs with
    | Some OPEN | Some CONNECTING => lift (ws_close ws)
    | _ => ret tt
    end ;;;
    modify (set_wsRef None)) ;;;
  modify (set_isConnectingRef false).

(** Lines 61-211. *)
Definition connect (p : Props) : M State unit :=
  mounted <- gets isMountedRef ;;
  if negb mounted then ret tt
  else if negb (token_truthy p) || negb (isAuthenticated p) || negb (enabled p)
  then ret tt
  else
    (connecting <- gets isConnectingRef ;;
     if connecting then ret tt
     else
       (rs <- gets current_readyState ;;
        match rs with
        | Some OPEN => ret tt
        | Some CONNECTING => ret tt
        | _ =>
            attempts <- gets reconnectAttemptsRef ;;
            if Nat.leb MAX_RECONNECT_ATTEMPTS attempts then
              lift (dispatch_addNotification P
                      {| p_type := Warning;
                         p_message :=
                           str "Live events disconnected. Refresh page to reconnect." |})
            else
              (modify (set_isConnectingRef true) ;;;
               cur <- gets wsRef ;;
               when_some cur (fun ws =>
                 lift (ws_alter (set_onclose None) ws) ;;;
                 lift (ws_close ws) ;;;
                 modify (set_wsRef None)) ;;;
               try_catch
                 (ws <- lift (new_WebSocket P (wsUrl p)) ;;
                  modify (set_wsRef (Some ws)) ;;;
                  lift (ws_alter (set_onopen (Some p)) ws) ;;;
                  lift (ws_alter (set_onmessage (Some p)) ws) ;;;
                  lift (ws_alter (set_onclose (Some p)) ws) ;;;
                  lift (ws_alter (set_onerror (Some p)) ws))
                 (fun _ => modify (set_isConnectingRef false)))
        end)).

(** Lines 97-121. *)
Definition ws_onopen (ws : nat) : M State unit :=
  mounted <- gets isMountedRef ;;
  if negb mounted then lift (ws_close ws)
  else
    (modify (set_isConnectingRef false) ;;;
     modify (set_reconnectAttemptsRef 0) ;;;
     lift (dispatch_addNotification P
             {| p_type := Success; p_message := str "Live events connected" |}) ;;;
     i <- gets pingIntervalRef ;;
     when_some i (fun i => lift (clearInterval i)) ;;;
     j <- lift (setInterval PING_INTERVAL_MS) ;;
     modify (set_pingIntervalRef (Some j))).

(** Lines 123-167. *)
Definition ws_onmessage (ws : nat) (frame : string) : M State unit :=
  mounted <- gets isMountedRef ;;
  if negb mounted then ret tt
  else lift (onmessage_body P ws frame).

(** Lines 169-199; [p] is the render whose [connect] attached the handler. *)
Definition ws_onclose (p : Props) (code : Z) (wasClean : bool) : M State unit :=
  mounted <- gets isMountedRef ;;
  if negb mounted then ret tt
  else
    (modify (set_isConnectingRef false) ;;;
     modify (set_wsRef None) ;;;
     i <- gets pingIntervalRef ;;
     when_some i (fun i => lift (clearInterval i) ;;;
                           modify (set_pingIntervalRef None)) ;;;
     if wasClean || auth_failure_code code then ret tt
     else
       (mounted' <- gets isMountedRef ;;
        if enabled p && mounted' then
          (a <- gets reconnectAttemptsRef ;;
           modify (set_reconnectAttemptsRef (S a)) ;;;
           d <- getReconnectDelay ;;
           t <- lift (setTimeout p d) ;;
           modify (set_reconnectTimeoutRef (Some t)))
        else ret tt)).

(** Lines 201-205. *)
Definition ws_onerror : M State unit := modify (set_isConnectingRef false).

(** The callback of both timers (lines 193-197 and 220-224). *)
Definition timer_callback (p : Props) : M State unit :=
  mounted <- gets isMountedRef ;;
  if mounted then connect p else ret tt.

(** Lines 116-120. *)
Definition ping_callback : M State unit :=
  rs <- gets current_readyState ;;
  cur <- gets wsRef ;;
  match rs, cur with
  | Some OPEN, Some ws => lift (ws_send ws "ping")
  | _, _ => ret tt
  end.

(** Lines 214-235: the main effect and the clean-up it returns. *)
Definition main_effect (p : Props) : M State unit :=
  modify (set_isMountedRef true) ;;;
  if enabled p && isAuthenticated p && token_truthy p then
    (t <- lift (setTimeout p 100) ;;
     modify (set_mainCleanup (Some (ClearConnectDelay t))))
  else modify (set_mainCleanup (Some FullCleanup)).

Definition unmount_cleanup : M State unit :=
  modify (set_isMountedRef false) ;;; cleanup.

Definition main_cleanup : M State unit :=
  c <- gets mainCleanup ;;
  match c with
  | Some (ClearConnectDelay t) => lift (clearTimeout t)
  | Some FullCleanup => unmount_cleanup
  | None => ret tt
  end.

Inductive Event : Type :=
| Rerender (p : Props)
| Unmount
| TimeoutFires (t : nat)
| IntervalFires (i : nat)
| Opened (ws : nat)
| Message (ws : nat) (frame : string)
| Errored (ws : nat)
| Closed (ws : nat) (code : Z) (wasClean : bool).

Definition mount (p : Props) : State :=
  exec (main_effect p) (set_props (Some p) initial).

Definition same_props (p p' : Props) : bool :=
  option_string_eqb (token p) (token p')
  && Bool.eqb (isAuthenticated p) (isAuthenticated p')
  && Bool.eqb (enabled p) (enabled p').

(** The dependencies of the main effect change with any of the three
    props; the second effect (lines 238-243) only has a clean-up, run on
    unmount after the one of the main effect. *)
Definition step (ev : Event) (st : State) : State :=
  match ev with
  | Rerender p' =>
      match props st with
      | Some p =>
          if same_props p p' then st
          else exec (main_cleanup ;;; main_effect p') (set_props (Some p') st)
      | None => st
      end
  | Unmount =>
      match props st with
      | Some _ => exec (main_cleanup ;;; unmount_cleanup) (set_props None st)
      | None => st
      end
  | TimeoutFires t =>
      match timeouts (env st) !! t with
      | Some tm =>
          if pending tm then
            exec (lift (modify (set_timeouts (alter (set_pending false) t))) ;;;
                  timer_callback (callback tm)) st
          else st
      | None => st
      end
  | IntervalFires i =>
      match intervals (env st) !! i with
      | Some iv => if active iv then exec ping_callback st else st
      | None => st
      end
  | Opened ws =>
      match sockets (env st) !! ws with
      | Some w =>
          if readyState_is CONNECTING w then
            exec (lift (ws_alter (set_readyState OPEN) ws) ;;;
                  match onopen w with Some _ => ws_onopen ws | None => ret tt end) st
          else st
      | None => st
      end
  | Message ws frame =>
      match sockets (env st) !! ws with
      | Some w =>
          if readyState_is OPEN w then
            match onmessage w with
            | Some _ => exec (ws_onmessage ws frame) st
            | None => st
            end
          else st
      | None => st
      end
  | Errored ws =>
      match sockets (env st) !! ws with
      | Some w =>
          match onerror w with
          | Some _ => exec ws_onerror st
          | None => st
          end
      | None => st
      end
  | Closed ws code wasClean =>
      match sockets (env st) !! ws with
      | Some w =>
          if readyState_is CLOSED w then st
          else
            exec (lift (ws_alter (set_readyState CLOSED) ws) ;;;
                  match onclose w with
                  | Some p => ws_onclose p code wasClean
                  | None => ret tt
                  end) st
      | None => st
      end
  end.

Definition run (evs : list Event) (st : State) : State :=
  fold_left (fun s ev => step ev s) evs st.

End Hook.

End UseWebSocket008.

(** ** A platform to run the hooks on

    The hooks are modelled over any [Platform].  This one is used for the
    examples: its [JSON_parse] reads the JSON texts without fractions,
    exponents and escape sequences and rejects every other text, it numbers
    the identifiers and the times, and its [url_ok] rejects a URL with a
    fragment or a space. *)

Module Demo.

Definition dquote : ascii := "034"%char.

(** A text written with apostrophes in place of double quotes. *)
Fixpoint text (s : string) : string :=
  match s with
  | EmptyString => EmptyString
  | String c r => String (if Ascii.eqb c "'"%char then dquote else c) (text r)
  end.

Definition is_ws (c : ascii) : bool :=
  (Ascii.eqb c " " || Ascii.eqb c "009" || Ascii.eqb c "010" || Ascii.eqb c "013")%char.

Fixpoint skip_ws (s : string) : string :=
  match s with
  | String c r => if is_ws c then skip_ws r else s
  | EmptyString => s
  end.

Definition digit_of (c : ascii) : option N :=
  let n := N_of_ascii c in
  if (48 <=? n)%N && (n <=? 57)%N then Some (n - 48)%N else None.

(** The digits at the head of [s], their value and the rest. *)
Fixpoint digits (s : string) (acc : N) (seen : nat) : N * nat * string :=
  match s with
  | String c r =>
      match digit_of c with
      | Some d => digits r (acc * 10 + d)%N (S seen)
      | None => (acc, seen, s)
      end
  | EmptyString => (acc, seen, s)
  end.

Definition integer_value (negative : bool) (n : N) : spec_float :=
  match n with
  | N0 => S754_zero negative
  | Npos m => S754_finite negative m 0
  end.

(** An optional minus sign and a decimal integer without a superfluous
    leading zero, not followed by a fraction or an exponent. *)
Definition number (s : string) : option (JSON * string) :=
  let '(negative, body) :=
    match s with
    | String "-"%char r => (true, r)
    | _ => (false, s)
    end in
  let '(n, seen, rest) := digits body 0%N 0 in
  let leading_zero :=
    match body with
    | String "0"%char _ => Nat.ltb 1 seen
    | _ => false
    end in
  let continues :=
    match rest with
    | String c _ => (Ascii.eqb c "." || Ascii.eqb c "e" || Ascii.eqb c "E")%char
    | EmptyString => false
    end in
  if Nat.eqb seen 0 || leading_zero || continues then None
  else Some (JNumber (integer_value negative n), rest).

(** The characters up to the closing quote; a backslash or a control
    character ends the attempt. *)
Fixpoint string_body (s : string) : option (string * string) :=
  match s with
  | EmptyString => None
  | String c r =>
      if Ascii.eqb c dquote then Some (EmptyString, r)
      else if Ascii.eqb c "\"%char || (N_of_ascii c <? 32)%N then None
      else match string_body r with
           | Some (body, rest) => Some (String c body, rest)
           | None => None
           end
  end.

Definition literal (word : string) (v : JSON) (s : string) : option (JSON * string) :=
  if String.prefix word s
  then Some (v, String.substring (String.length word)
                                 (String.length s - String.length word) s)
  else None.

(** [key] gets the value [v]; an earlier member of that name is replaced. *)
Definition put (key : string) (v : JSON) (acc : list (string * JSON))
    : list (string * JSON) :=
  List.filter (fun kv => negb (String.eqb (fst kv) key)) acc ++ [(key, v)].

(** One value at the head of [s] and the text after it. *)
Fixpoint value (fuel : nat) (s : string) {struct fuel} : option (JSON * string) :=
  match fuel with
  | 0 => None
  | S fuel' =>
      match skip_ws s with
      | String "n"%char _ => literal "null" JNull (skip_ws s)
      | String "t"%char _ => literal "true" (JBool true) (skip_ws s)
      | String "f"%char _ => literal "false" (JBool false) (skip_ws s)
      | String "034"%char r =>
          match string_body r with
          | Some (body, rest) => Some (JString body, rest)
          | None => None
          end
      | String "["%char r =>
          match skip_ws r with
          | String "]"%char rest => Some (JArray [], rest)
          | _ => match elements fuel' r [] with
                 | Some (items, rest) => Some (JArray items, rest)
                 | None => None
                 end
          end
      | String "{"%char r =>
          match skip_ws r with
          | String "}"%char rest => Some (JObject [], rest)
          | _ => match members fuel' r [] with
                 | Some (ms, rest) => Some (JObject ms, rest)
                 | None => None
                 end
          end
      | other => number other
      end
  end
with elements (fuel : nat) (s : string) (acc : list JSON) {struct fuel}
    : option (list JSON * string) :=
  match fuel with
  | 0 => None
  | S fuel' =>
      match value fuel' s with
      | Some (v, rest) =>
          match skip_ws rest with
          | String ","%char rest' => elements fuel' rest' (acc ++ [v])
          | String "]"%char rest' => Some (acc ++ [v], rest')
          | _ => None
          end
      | None => None
      end
  end
with members (fuel : nat) (s : string) (acc : list (string * JSON)) {struct fuel}
    : option (list (string * JSON) * string) :=
  match fuel with
  | 0 => None
  | S fuel' =>
      match skip_ws s with
      | String "034"%char r =>
          match string_body r with
          | Some (key, rest) =>
              match skip_ws rest with
              | String ":"%char rest' =>
                  match value fuel' rest' with
                  | Some (v, rest'') =>
                      match skip_ws rest'' with
                      | String ","%char rest3 => members fuel' rest3 (put key v acc)
                      | String "}"%char rest3 => Some (put key v acc, rest3)
                      | _ => None
                      end
                  | None => None
                  end
              | _ => None
              end
          | None => None
          end
      | _ => None
      end
  end.

Definition JSON_parse (s : string) : option JSON :=
  match value (2 * String.length s + 2) s with
  | Some (v, rest) =>
      match skip_ws rest with
      | EmptyString => Some v
      | _ => None
      end
  | None => None
  end.

Fixpoint tally (n : nat) : string :=
  match n with
  | 0 => EmptyString
  | S m => String "i"%char (tally m)
  end.

Fixpoint has_char (c : ascii) (s : string) : bool :=
  match s with
  | EmptyString => false
  | String d r => Ascii.eqb c d || has_char c r
  end.

Definition platform : Platform :=
  {| Browser.JSON_parse := JSON_parse;
     randomUUID := fun n => ("uuid-" ++ tally n)%string;
     toISOString := fun n => ("time-" ++ tally n)%string;
     url_ok := fun u => negb (has_char "#"%char u || has_char " "%char u);
     location_protocol := "http:";
     location_host := "localhost:3000";
     VITE_API_WS_URL := None |}.

(** A signed-in render with the feed enabled. *)
Definition signed_in (t : string) : Props :=
  {| token := Some t; isAuthenticated := true; enabled := true |}.

End Demo.

(** * The vocabulary of the properties

    Names for the states and observations the theorems speak about. *)

(** Only [recentEvents] may differ between the two states. *)
Definition touches_only_recentEvents (st st' : DashboardState) : Prop :=
  selectedTimeRange st' = selectedTimeRange st /\
  sidebarCollapsed st' = sidebarCollapsed st /\
  liveEventsEnabled st' = liveEventsEnabled st /\
  notifications st' = notifications st.

(** Only [notifications] may differ between the two states. *)
Definition touches_only_notifications (st st' : DashboardState) : Prop :=
  selectedTimeRange st' = selectedTimeRange st /\
  sidebarCollapsed st' = sidebarCollapsed st /\
  liveEventsEnabled st' = liveEventsEnabled st /\
  recentEvents st' = recentEvents st.

(** The event number [n] of the examples. *)
Definition sample_event (n : nat) : DashboardEvent :=
  {| id := str (Demo.tally n); type := str "login"; action := str "login";
     severity := str "info"; actor_id := str EmptyString; target := null;
     message := str "login"; timestamp := null; metadata := null |}.

Definition heartbeat_frame : string := Demo.text "{'type':'heartbeat'}".


Definition risk_alert_frame (sev : string) : string :=
  Demo.text ("{'type':'risk_alert','payload':{'message':'m','severity':'"
             ++ sev ++ "'},'timestamp':'T'}")%string.



(** The browser after one [ping] went out on socket [ws]. *)
Definition ping_sent (ws : nat) (e : Env) : Env :=
  set_sockets (alter (push_sent "ping") ws) e.


(** A value that is neither [undefined] nor [null]. *)
Definition populated (v : Value) : bool :=
  match v with
  | None | Some JNull => false
  | Some _ => true
  end.

(** A frame without a [timestamp] member. *)
Definition untimed_frame : string :=
  Demo.text "{'type':'user_action','payload':{'actor_id':'u1'}}".

Definition untimed_event (uuid : string) : DashboardEvent :=
  {| id := str uuid; type := str "user_action"; action := str "user_action";
     severity := str "info"; actor_id := str "u1"; target := null;
     message := str "user_action"; timestamp := undefined; metadata := null |}.

(** [shouldRetry] of the specification, read off line 182. *)
Definition shouldRetry (code : Z) (wasClean : bool) : bool :=
  negb (wasClean || UseWebSocket008.auth_failure_code code).

(** The state in which [onclose] of a mounted hook leaves the refs before
    it looks at the close event: no current socket, not connecting, the
    keep-alive interval cleared. *)
Definition settled_after_close (st : UseWebSocket008.State) : UseWebSocket008.State :=
  {| UseWebSocket008.wsRef := None;
     UseWebSocket008.reconnectTimeoutRef := UseWebSocket008.reconnectTimeoutRef st;
     UseWebSocket008.reconnectAttemptsRef := UseWebSocket008.reconnectAttemptsRef st;
     UseWebSocket008.isConnectingRef := false;
     UseWebSocket008.isMountedRef := UseWebSocket008.isMountedRef st;
     UseWebSocket008.pingIntervalRef := None;
     UseWebSocket008.mainCleanup := UseWebSocket008.mainCleanup st;
     UseWebSocket008.props := UseWebSocket008.props st;
     UseWebSocket008.env :=
       match UseWebSocket008.pingIntervalRef st with
       | Some i => set_intervals (alter (set_active false) i) (UseWebSocket008.env st)
       | None => UseWebSocket008.env st
       end |}.

(** The same with one more attempt counted and one reconnect timer set, of
    the delay computed from the new count. *)
Definition retry_scheduled (p : Props) (st : UseWebSocket008.State) : UseWebSocket008.State :=
  let st0 := settled_after_close st in
  {| UseWebSocket008.wsRef := None;
     UseWebSocket008.reconnectTimeoutRef :=
       Some (length (timeouts (UseWebSocket008.env st0)));
     UseWebSocket008.reconnectAttemptsRef := S (UseWebSocket008.reconnectAttemptsRef st);
     UseWebSocket008.isConnectingRef := false;
     UseWebSocket008.isMountedRef := UseWebSocket008.isMountedRef st;
     UseWebSocket008.pingIntervalRef := None;
     UseWebSocket008.mainCleanup := UseWebSocket008.mainCleanup st;
     UseWebSocket008.props := UseWebSocket008.props st;
     UseWebSocket008.env :=
       set_timeouts
         (fun l => l ++ [ {| delay := UseWebSocket008.reconnect_delay
                                        (S (UseWebSocket008.reconnectAttemptsRef st));
                             callback := p; pending := true |} ])
         (UseWebSocket008.env st0) |}.

Definition plain_after_close (st : UseWebSocket.State) : UseWebSocket.State :=
  UseWebSocket.set_wsRef None st.

Definition plain_retry_scheduled (p : Props) (st : UseWebSocket.State) : UseWebSocket.State :=
  {| UseWebSocket.wsRef := None;
     UseWebSocket.reconnectTimeoutRef := Some (length (timeouts (UseWebSocket.env st)));
     UseWebSocket.pingInterval := UseWebSocket.pingInterval st;
     UseWebSocket.props := UseWebSocket.props st;
     UseWebSocket.env :=
       set_timeouts (fun l => l ++ [ {| delay := 5000; callback := p; pending := true |} ])
                    (UseWebSocket.env st) |}.

(** What [connect] of [frontend/src/hooks/useWebSocket.ts] leaves when
    [new WebSocket] throws: the socket held in [wsRef] was closed, nothing
    else happened. *)
Definition plain_construction_failed (st : UseWebSocket.State) : UseWebSocket.State :=
  match UseWebSocket.wsRef st with
  | Some ws =>
      UseWebSocket.set_env
        (set_sockets (alter ws_close_socket ws) (UseWebSocket.env st)) st
  | None => st
  end.

(** The same for part_008: the old socket lost its close handler and was
    closed, [wsRef] is empty and [isConnectingRef] is false again. *)
Definition construction_failed (st : UseWebSocket008.State) : UseWebSocket008.State :=
  {| UseWebSocket008.wsRef := None;
     UseWebSocket008.reconnectTimeoutRef := UseWebSocket008.reconnectTimeoutRef st;
     UseWebSocket008.reconnectAttemptsRef := UseWebSocket008.reconnectAttemptsRef st;
     UseWebSocket008.isConnectingRef := false;
     UseWebSocket008.isMountedRef := UseWebSocket008.isMountedRef st;
     UseWebSocket008.pingIntervalRef := UseWebSocket008.pingIntervalRef st;
     UseWebSocket008.mainCleanup := UseWebSocket008.mainCleanup st;
     UseWebSocket008.props := UseWebSocket008.props st;
     UseWebSocket008.env :=
       match UseWebSocket008.wsRef st with
       | Some ws =>
           set_sockets (fun l => alter ws_close_socket ws (alter (set_onclose None) ws l))
                       (UseWebSocket008.env st)
       | None => UseWebSocket008.env st
       end |}.

(** The guards of [connect] in part_008 (lines 63-77) all pass. *)
Definition may_connect (p : Props) (st : UseWebSocket008.State) : Prop :=
  UseWebSocket008.isMountedRef st = true /\
  token_truthy p = true /\ isAuthenticated p = true /\ enabled p = true /\
  UseWebSocket008.isConnectingRef st = false /\
  UseWebSocket008.current_readyState st <> Some OPEN /\
  UseWebSocket008.current_readyState st <> Some CONNECTING /\
  UseWebSocket008.reconnectAttemptsRef st < UseWebSocket008.MAX_RECONNECT_ATTEMPTS.

(** A socket the hook still has to answer for: not closed yet, and either
    live or with a close handler attached. *)
Definition busy (w : WebSocket) : bool :=
  negb (readyState_is CLOSED w) && (live w || bool_decide (is_Some (onclose w))).

(** Every such socket is the one held in [wsRef]. *)
Definition Owned (cur : option nat) (l : list WebSocket) : Prop :=
  forall ws w, l !! ws = Some w -> busy w = true -> cur = Some ws.

Definition Idle (l : list WebSocket) : Prop :=
  forall ws w, l !! ws = Some w -> busy w = false.

(** At most one socket is connecting or open. *)
Definition at_most_one_live (l : list WebSocket) : Prop :=
  forall ws1 ws2 w1 w2,
    l !! ws1 = Some w1 -> l !! ws2 = Some w2 ->
    live w1 = true -> live w2 = true -> ws1 = ws2.

(** The sockets after the one held in [cur] lost its close handler and was
    closed (lines 82-86). *)
Definition detach (cur : option nat) (l : list WebSocket) : list WebSocket :=
  match cur with
  | Some ws => alter ws_close_socket ws (alter (set_onclose None) ws l)
  | None => l
  end.

Definition Inv008 (st : UseWebSocket008.State) : Prop :=
  Owned (UseWebSocket008.wsRef st) (sockets (UseWebSocket008.env st)).

(** Every close handler was attached by an enabled render. *)
Definition Handlers (l : list WebSocket) : Prop :=
  forall ws w p, l !! ws = Some w -> onclose w = Some p -> enabled p = true.

(** What holds of the hook of part_008 in every state it reaches: the busy
    sockets are the one in [wsRef], an unmounted hook holds no socket, and
    the close handlers come from enabled renders. *)
Definition Good008 (st : UseWebSocket008.State) : Prop :=
  Inv008 st /\
  (UseWebSocket008.isMountedRef st = false -> UseWebSocket008.wsRef st = None) /\
  Handlers (sockets (UseWebSocket008.env st)).

Definition reachable008 (P : Platform) (st : UseWebSocket008.State) : Prop :=
  exists p evs, st = UseWebSocket008.run P evs (UseWebSocket008.mount p).

Definition reachable (P : Platform) (st : UseWebSocket.State) : Prop :=
  exists p evs, st = UseWebSocket.run P evs (UseWebSocket.mount P p).

(** Socket [ws] of the browser state [e] after the browser closed it. *)
Definition closed_socket (ws : nat) (e : Env) : Env :=
  set_sockets (alter (set_readyState CLOSED) ws) e.

(** The socket [new WebSocket(u)] returns, with the four handlers of the
    render [p] attached. *)
Definition fresh_socket (u : string) (p : Props) : WebSocket :=
  {| url := u; readyState := CONNECTING;
     onopen := Some p; onmessage := Some p; onclose := Some p; onerror := Some p;
     sent := [] |}.

Definition exactly_one_live (l : list WebSocket) : Prop :=
  exists ws w,
    l !! ws = Some w /\ live w = true /\
    forall ws' w', l !! ws' = Some w' -> live w' = true -> ws' = ws.

(** What [connect] of part_008 leaves when it creates a socket. *)
Definition connected (P : Platform) (p : Props) (st : UseWebSocket008.State)
    : UseWebSocket008.State :=
  let l := detach (UseWebSocket008.wsRef st) (sockets (UseWebSocket008.env st)) in
  {| UseWebSocket008.wsRef := Some (length l);
     UseWebSocket008.reconnectTimeoutRef := UseWebSocket008.reconnectTimeoutRef st;
     UseWebSocket008.reconnectAttemptsRef := UseWebSocket008.reconnectAttemptsRef st;
     UseWebSocket008.isConnectingRef := true;
     UseWebSocket008.isMountedRef := UseWebSocket008.isMountedRef st;
     UseWebSocket008.pingIntervalRef := UseWebSocket008.pingIntervalRef st;
     UseWebSocket008.mainCleanup := UseWebSocket008.mainCleanup st;
     UseWebSocket008.props := UseWebSocket008.props st;
     UseWebSocket008.env :=
       set_sockets (fun _ => l ++ [fresh_socket (UseWebSocket008.wsUrl P p) p])
                   (UseWebSocket008.env st) |}.

(** What [connect] of [frontend/src/hooks/useWebSocket.ts] leaves when it
    creates a socket: the one held in [wsRef] was closed first. *)
Definition plain_connected (P : Platform) (p : Props) (st : UseWebSocket.State)
    : UseWebSocket.State :=
  let l := match UseWebSocket.wsRef st with
           | Some ws => alter ws_close_socket ws (sockets (UseWebSocket.env st))
           | None => sockets (UseWebSocket.env st)
           end in
  {| UseWebSocket.wsRef := Some (length l);
     UseWebSocket.reconnectTimeoutRef := UseWebSocket.reconnectTimeoutRef st;
     UseWebSocket.pingInterval := UseWebSocket.pingInterval st;
     UseWebSocket.props := UseWebSocket.props st;
     UseWebSocket.env :=
       set_sockets (fun _ => l ++ [fresh_socket (UseWebSocket.wsUrl P p) p])
                   (UseWebSocket.env st) |}.

Definition give_up_message : string :=
  "Live events disconnected. Refresh page to reconnect.".

(** The browser after [connect] of part_008 gave up: one warning more. *)
Definition gave_up (P : Platform) (e : Env) : Env :=
  tick (set_store
          (addNotification (randomUUID P (calls e)) (toISOString P (calls e))
             {| p_type := Warning; p_message := str give_up_message |}) e).



(** The events that come from timers and sockets, not from React. *)
Definition from_browser (ev : UseWebSocket008.Event) : bool :=
  match ev with
  | UseWebSocket008.Rerender _ | UseWebSocket008.Unmount => false
  | _ => true
  end.

(** The hook of part_008 after four abnormal closures in a row, each
    followed by its reconnect: the fifth socket is connecting. *)
Definition four_failures : UseWebSocket008.State :=
  UseWebSocket008.run Demo.platform
    [UseWebSocket008.TimeoutFires 0;
     UseWebSocket008.Closed 0 1006 false; UseWebSocket008.TimeoutFires 1;
     UseWebSocket008.Closed 1 1006 false; UseWebSocket008.TimeoutFires 2;
     UseWebSocket008.Closed 2 1006 false; UseWebSocket008.TimeoutFires 3;
     UseWebSocket008.Closed 3 1006 false; UseWebSocket008.TimeoutFires 4]
    (UseWebSocket008.mount (Demo.signed_in "tok")).

(** ** The vocabulary of the further properties *)

(** Socket [w] with its four handler slots emptied (lines 48-51 of
    part_008). *)
Definition silenced (w : WebSocket) : WebSocket :=
  {| url := url w; readyState := readyState w;
     onopen := None; onmessage := None; onclose := None; onerror := None;
     sent := sent w |}.

(** What [cleanup] of part_008 leaves: the reconnect timer and the
    keep-alive interval held in the refs are cleared, the socket held in
    [wsRef] has lost its handlers and was closed, and the three refs are
    empty. *)
Definition cleaned (st : UseWebSocket008.State) : UseWebSocket008.State :=
  let e := UseWebSocket008.env st in
  {| UseWebSocket008.wsRef := None;
     UseWebSocket008.reconnectTimeoutRef := None;
     UseWebSocket008.reconnectAttemptsRef := UseWebSocket008.reconnectAttemptsRef st;
     UseWebSocket008.isConnectingRef := false;
     UseWebSocket008.isMountedRef := UseWebSocket008.isMountedRef st;
     UseWebSocket008.pingIntervalRef := None;
     UseWebSocket008.mainCleanup := UseWebSocket008.mainCleanup st;
     UseWebSocket008.props := UseWebSocket008.props st;
     UseWebSocket008.env :=
       {| sockets :=
            match UseWebSocket008.wsRef st with
            | Some ws => alter (fun w => ws_close_socket (silenced w)) ws (sockets e)
            | None => sockets e
            end;
          timeouts :=
            match UseWebSocket008.reconnectTimeoutRef st with
            | Some t => alter (set_pending false) t (timeouts e)
            | None => timeouts e
            end;
          intervals :=
            match UseWebSocket008.pingIntervalRef st with
            | Some i => alter (set_active false) i (intervals e)
            | None => intervals e
            end;
          store := store e;
          calls := calls e |} |}.

Definition connected_message : string := "Live events connected".

(** What [onopen] of part_008 leaves in a mounted hook: not connecting, the
    attempt counter at 0, one success notification more, the keep-alive
    interval of the ref cleared and a new one of 25 s started. *)
Definition welcomed (P : Platform) (st : UseWebSocket008.State) : UseWebSocket008.State :=
  let e := UseWebSocket008.env st in
  {| UseWebSocket008.wsRef := UseWebSocket008.wsRef st;
     UseWebSocket008.reconnectTimeoutRef := UseWebSocket008.reconnectTimeoutRef st;
     UseWebSocket008.reconnectAttemptsRef := 0;
     UseWebSocket008.isConnectingRef := false;
     UseWebSocket008.isMountedRef := UseWebSocket008.isMountedRef st;
     UseWebSocket008.pingIntervalRef := Some (length (intervals e));
     UseWebSocket008.mainCleanup := UseWebSocket008.mainCleanup st;
     UseWebSocket008.props := UseWebSocket008.props st;
     UseWebSocket008.env :=
       {| sockets := sockets e;
          timeouts := timeouts e;
          intervals :=
            match UseWebSocket008.pingIntervalRef st with
            | Some i => alter (set_active false) i (intervals e)
            | None => intervals e
            end ++ [ {| period := 25000; active := true |} ];
          store :=
            addNotification (randomUUID P (calls e)) (toISOString P (calls e))
              {| p_type := Success; p_message := str connected_message |} (store e);
          calls := S (calls e) |} |}.

(** Line 218 of part_008: [enabled && isAuthenticated && token]. *)
Definition signed_in_and_enabled (p : Props) : bool :=
  enabled p && isAuthenticated p && token_truthy p.

(** What the main effect of part_008 leaves. *)
Definition effect_run (p : Props) (st : UseWebSocket008.State) : UseWebSocket008.State :=
  if signed_in_and_enabled p then
    UseWebSocket008.set_mainCleanup
      (Some (UseWebSocket008.ClearConnectDelay (length (timeouts (UseWebSocket008.env st)))))
      (UseWebSocket008.set_env
         (set_timeouts (fun l => l ++ [ {| delay := 100; callback := p; pending := true |} ])
                       (UseWebSocket008.env st))
         (UseWebSocket008.set_isMountedRef true st))
  else
    UseWebSocket008.set_mainCleanup (Some UseWebSocket008.FullCleanup)
      (UseWebSocket008.set_isMountedRef true st).

(** The timer [t] of the hook state [st] marked as fired or cleared. *)
Definition timer_off (t : nat) (st : UseWebSocket008.State) : UseWebSocket008.State :=
  UseWebSocket008.set_env
    (set_timeouts (alter (set_pending false) t) (UseWebSocket008.env st)) st.

(** The elementary changes the handlers of part_008 make to the state of
    the hook.  Every timer, interval and socket event is a sequence of
    these. *)
Inductive Handler008 (P : Platform)
    : UseWebSocket008.State -> UseWebSocket008.State -> Prop :=
| Act_timer_off st t : Handler008 P st (timer_off t st)
| Act_gave_up st :
    Handler008 P st (UseWebSocket008.set_env (gave_up P (UseWebSocket008.env st)) st)
| Act_connected st p :
    may_connect p st -> url_ok P (UseWebSocket008.wsUrl P p) = true ->
    Handler008 P st (connected P p st)
| Act_construction_failed st p :
    may_connect p st -> Handler008 P st (construction_failed st)
| Act_ping st ws w :
    UseWebSocket008.wsRef st = Some ws ->
    sockets (UseWebSocket008.env st) !! ws = Some w -> readyState w = OPEN ->
    Handler008 P st (UseWebSocket008.set_env (ping_sent ws (UseWebSocket008.env st)) st)
| Act_open st ws w :
    sockets (UseWebSocket008.env st) !! ws = Some w -> readyState w = CONNECTING ->
    Handler008 P st
      (UseWebSocket008.set_env
         (set_sockets (alter (set_readyState OPEN) ws) (UseWebSocket008.env st)) st)
| Act_welcomed st :
    UseWebSocket008.isMountedRef st = true -> Handler008 P st (welcomed P st)
| Act_closing st ws :
    Handler008 P st
      (UseWebSocket008.set_env
         (set_sockets (alter ws_close_socket ws) (UseWebSocket008.env st)) st)
| Act_message st ws c :
    Handler008 P st
      (UseWebSocket008.set_env (snd (perform P ws c (UseWebSocket008.env st))) st)
| Act_error st : Handler008 P st (UseWebSocket008.set_isConnectingRef false st)
| Act_closed st ws :
    Handler008 P st (UseWebSocket008.set_env (closed_socket ws (UseWebSocket008.env st)) st)
| Act_retry st p :
    UseWebSocket008.wsRef st <> None -> UseWebSocket008.isMountedRef st = true ->
    enabled p = true ->
    Handler008 P st (retry_scheduled p st)
| Act_settled st :
    UseWebSocket008.isMountedRef st = true -> Handler008 P st (settled_after_close st).

(** The changes React makes through the effects and their clean-ups. *)
Inductive React008 : UseWebSocket008.State -> UseWebSocket008.State -> Prop :=
| Act_props st o : React008 st (UseWebSocket008.set_props o st)
| Act_unmounted st : React008 st (UseWebSocket008.set_isMountedRef false st)
| Act_cleaned st : React008 st (cleaned st)
| Act_effect st p : React008 st (effect_run p st).

(** A sequence of changes. *)
Inductive chain {S : Type} (R : S -> S -> Prop) : S -> S -> Prop :=
| chain_done s : chain R s s
| chain_then s1 s2 s3 : R s1 s2 -> chain R s2 s3 -> chain R s1 s3.

Definition Act008 (P : Platform) (st st' : UseWebSocket008.State) : Prop :=
  Handler008 P st st' \/ React008 st st'.

(** The keep-alive intervals of a hook whose ref (or effect) holds [ref]:
    each has the period of 25 s, and only the one held may be active. *)
Definition KeepAlive (ref : option nat) (l : list Interval) : Prop :=
  forall i iv, l !! i = Some iv ->
    period iv = 25000%Z /\ (active iv = true -> ref = Some i).

Definition at_most_one_active (l : list Interval) : Prop :=
  forall i j a b,
    l !! i = Some a -> l !! j = Some b -> active a = true -> active b = true -> i = j.

(** The delays part_008 gives its timers: 100 ms for the connect after the
    main effect, and the back-off for one to five counted attempts. *)
Definition delays008 : list Z := [100; 2000; 4000; 8000; 16000; 30000]%Z.

(** The attempt counter never passes the ceiling, it is below the ceiling
    while [wsRef] holds a socket, and every timer has one of the delays
    above. *)
Definition Attempts008 (st : UseWebSocket008.State) : Prop :=
  UseWebSocket008.reconnectAttemptsRef st <= UseWebSocket008.MAX_RECONNECT_ATTEMPTS /\
  (UseWebSocket008.wsRef st <> None ->
   UseWebSocket008.reconnectAttemptsRef st < UseWebSocket008.MAX_RECONNECT_ATTEMPTS) /\
  forall t tm, timeouts (UseWebSocket008.env st) !! t = Some tm -> In (delay tm) delays008.

(** Nothing but [ping] was sent on the socket. *)
Definition only_pings (w : WebSocket) : Prop :=
  Forall (fun frame => frame = "ping") (sent w).

(** The socket was created by [connect] of part_008 for a signed-in,
    enabled render, with the URL of lines 89-91. *)
Definition opened_for008 (P : Platform) (w : WebSocket) : Prop :=
  exists p, signed_in_and_enabled p = true /\ url w = UseWebSocket008.wsUrl P p.

(** The same for [frontend/src/hooks/useWebSocket.ts] (lines 13 and
    20-21). *)
Definition opened_for (P : Platform) (w : WebSocket) : Prop :=
  exists p, token_truthy p = true /\ enabled p = true /\ url w = UseWebSocket.wsUrl P p.

(** The three fields of the store the user interface owns. *)
Definition ui_fields (s : DashboardState) : TimeRange * bool * bool :=
  (selectedTimeRange s, sidebarCollapsed s, liveEventsEnabled s).

(** From [s] to [s'] the user interface fields are unchanged, the
    notifications only grew at the end, and a buffer within its cap stayed
    within it. *)
Definition store_grew (s s' : DashboardState) : Prop :=
  ui_fields s' = ui_fields s /\
  (exists more, notifications s' = notifications s ++ more) /\
  (length (recentEvents s) <= 100 -> length (recentEvents s') <= 100).

(** Every socket of the list satisfies [Q]. *)
Definition socket_kept (Q : WebSocket -> Prop) (l : list WebSocket) : Prop :=
  forall ws w, l !! ws = Some w -> Q w.

(** A change of a socket that keeps its URL and the frames it sent, or
    sends one more [ping]. *)
Definition quiet_change (f : WebSocket -> WebSocket) : Prop :=
  forall w, url (f w) = url w /\ (sent (f w) = sent w \/ sent (f w) = sent w ++ ["ping"]).


(** What React holds for the hook of part_008: while the hook is rendered
    (with [p]) it is mounted and the clean-up of the main effect is the one
    the effect returned for [p]; once unmounted, [isMountedRef] is false and
    no keep-alive interval is held. *)
Definition Lifecycle008 (st : UseWebSocket008.State) : Prop :=
  match UseWebSocket008.props st with
  | Some p =>
      UseWebSocket008.isMountedRef st = true /\
      if signed_in_and_enabled p
      then exists t, UseWebSocket008.mainCleanup st
                     = Some (UseWebSocket008.ClearConnectDelay t)
      else UseWebSocket008.mainCleanup st = Some UseWebSocket008.FullCleanup
  | None =>
      UseWebSocket008.isMountedRef st = false /\
      UseWebSocket008.pingIntervalRef st = None
  end.

(** An unmounted hook of part_008 that holds nothing: no socket is busy and
    no keep-alive interval is active. *)
Definition released (st : UseWebSocket008.State) : Prop :=
  UseWebSocket008.props st = None /\
  UseWebSocket008.isMountedRef st = false /\
  UseWebSocket008.wsRef st = None /\
  Idle (sockets (UseWebSocket008.env st)) /\
  forall i iv, intervals (UseWebSocket008.env st) !! i = Some iv -> active iv = false.

(** From [e] to [e'] the hook did nothing a user or a server could see: the
    store is the same, no socket was created and no frame sent, no timer or
    interval was set. *)
Definition nothing_happened (e e' : Env) : Prop :=
  store e' = store e /\
  map sent (sockets e') = map sent (sockets e) /\
  map url (sockets e') = map url (sockets e) /\
  length (timeouts e') = length (timeouts e) /\
  intervals e' = intervals e /\
  calls e' = calls e.

(** What the two effects of [frontend/src/hooks/useWebSocket.ts] and their
    clean-ups leave. *)
Definition plain_cleaned (st : UseWebSocket.State) : UseWebSocket.State :=
  let e := UseWebSocket.env st in
  {| UseWebSocket.wsRef := UseWebSocket.wsRef st;
     UseWebSocket.reconnectTimeoutRef := UseWebSocket.reconnectTimeoutRef st;
     UseWebSocket.pingInterval := UseWebSocket.pingInterval st;
     UseWebSocket.props := UseWebSocket.props st;
     UseWebSocket.env :=
       {| sockets :=
            match UseWebSocket.wsRef st with
            | Some ws => alter ws_close_socket ws (sockets e)
            | None => sockets e
            end;
          timeouts :=
            match UseWebSocket.reconnectTimeoutRef st with
            | Some t => alter (set_pending false) t (timeouts e)
            | None => timeouts e
            end;
          intervals := intervals e;
          store := store e;
          calls := calls e |} |}.

Definition ping_stopped (st : UseWebSocket.State) : UseWebSocket.State :=
  let e := UseWebSocket.env st in
  {| UseWebSocket.wsRef := UseWebSocket.wsRef st;
     UseWebSocket.reconnectTimeoutRef := UseWebSocket.reconnectTimeoutRef st;
     UseWebSocket.pingInterval := None;
     UseWebSocket.props := UseWebSocket.props st;
     UseWebSocket.env :=
       {| sockets := sockets e;
          timeouts := timeouts e;
          intervals :=
            match UseWebSocket.pingInterval st with
            | Some i => alter (set_active false) i (intervals e)
            | None => intervals e
            end;
          store := store e;
          calls := calls e |} |}.

Definition ping_started (st : UseWebSocket.State) : UseWebSocket.State :=
  let e := UseWebSocket.env st in
  {| UseWebSocket.wsRef := UseWebSocket.wsRef st;
     UseWebSocket.reconnectTimeoutRef := UseWebSocket.reconnectTimeoutRef st;
     UseWebSocket.pingInterval := Some (length (intervals e));
     UseWebSocket.props := UseWebSocket.props st;
     UseWebSocket.env :=
       {| sockets := sockets e;
          timeouts := timeouts e;
          intervals := intervals e ++ [ {| period := 25000; active := true |} ];
          store := store e;
          calls := calls e |} |}.

(** The browser after [onopen] pushed its notification. *)
Definition greeted (P : Platform) (e : Env) : Env :=
  tick (set_store
          (addNotification (randomUUID P (calls e)) (toISOString P (calls e))
             {| p_type := Success; p_message := str connected_message |}) e).

(** The elementary changes the handlers of
    [frontend/src/hooks/useWebSocket.ts] make to the state of the hook. *)
Inductive HandlerPlain (P : Platform) : UseWebSocket.State -> UseWebSocket.State -> Prop :=
| Plain_timer_off st t :
    HandlerPlain P st
      (UseWebSocket.set_env
         (set_timeouts (alter (set_pending false) t) (UseWebSocket.env st)) st)
| Plain_connected st p :
    token_truthy p = true -> enabled p = true ->
    url_ok P (UseWebSocket.wsUrl P p) = true ->
    HandlerPlain P st (plain_connected P p st)
| Plain_construction_failed st : HandlerPlain P st (plain_construction_failed st)
| Plain_ping st ws w :
    UseWebSocket.wsRef st = Some ws ->
    sockets (UseWebSocket.env st) !! ws = Some w -> readyState w = OPEN ->
    HandlerPlain P st (UseWebSocket.set_env (ping_sent ws (UseWebSocket.env st)) st)
| Plain_open st ws :
    HandlerPlain P st
      (UseWebSocket.set_env
         (set_sockets (alter (set_readyState OPEN) ws) (UseWebSocket.env st)) st)
| Plain_greeted st :
    HandlerPlain P st (UseWebSocket.set_env (greeted P (UseWebSocket.env st)) st)
| Plain_message st ws c :
    HandlerPlain P st
      (UseWebSocket.set_env (snd (perform P ws c (UseWebSocket.env st))) st)
| Plain_closed st ws :
    HandlerPlain P st (UseWebSocket.set_env (closed_socket ws (UseWebSocket.env st)) st)
| Plain_after_close st : HandlerPlain P st (plain_after_close st)
| Plain_retry st p : HandlerPlain P st (plain_retry_scheduled p st).

(** The changes React makes through the two effects and their clean-ups;
    [connect], run by the first effect, is a handler change. *)
Inductive ReactPlain : UseWebSocket.State -> UseWebSocket.State -> Prop :=
| Plain_props st o : ReactPlain st (UseWebSocket.set_props o st)
| Plain_cleaned st : ReactPlain st (plain_cleaned st)
| Plain_ping_stopped st : ReactPlain st (ping_stopped st)
| Plain_ping_started st :
    UseWebSocket.pingInterval st = None -> ReactPlain st (ping_started st).

Definition ActPlain (P : Platform) (st st' : UseWebSocket.State) : Prop :=
  HandlerPlain P st st' \/ ReactPlain st st'.

(** The events that come from timers and sockets, not from React. *)
Definition plain_from_browser (ev : UseWebSocket.Event) : bool :=
  match ev with
  | UseWebSocket.Rerender _ | UseWebSocket.Unmount => false
  | _ => true
  end.

(** Three slashes in a row somewhere in [s]. *)
Fixpoint has_triple_slash (s : string) : bool :=
  match s with
  | EmptyString => false
  | String a r =>
      match r with
      | String b (String c _) =>
          (Ascii.eqb a "/" && Ascii.eqb b "/" && Ascii.eqb c "/") || has_triple_slash r
      | _ => false
      end
  end.

(** ** The authentication slice ([src/unnamed/part_006]) *)

Module AuthSlice.

(** [localStorage] as the slice uses it: the items, the first entry of a key
    being the one [getItem] sees.  The slice never reads the order of the
    keys. *)
Definition Storage : Type := list (string * string).

(** [localStorage.getItem(k)]; [None] is [null]. *)
Fixpoint getItem (k : string) (s : Storage) : option string :=
  match s with
  | [] => None
  | (k', v) :: rest => if String.eqb k k' then Some v else getItem k rest
  end.

(** [localStorage.removeItem(k)] *)
Definition removeItem (k : string) (s : Storage) : Storage :=
  List.filter (fun kv => negb (String.eqb (fst kv) k)) s.

(** [AuthState]; [None] is [null] for the two tokens, and [user] is [null]
    or what [JSON.parse] or the payload gave. *)
Record AuthState : Type := {
  token : option string;
  refreshToken : option string;
  user : Value;
  isAuthenticated : bool;
  isLoading : bool
}.

(** The payload of [setCredentials]. *)
Record Credentials : Type := {
  c_token : string;
  c_refreshToken : string;
  c_user : JSON
}.

Inductive Action : Type :=
| SetCredentials (payload : Credentials)
| Logout
| SetLoading (payload : bool).

(** The store as far as the slice goes: the state of the slice and the
    storage of the browser. *)
Record Store : Type := {
  auth : AuthState;
  localStorage : Storage
}.

Section Slice.

Variable P : Platform.

(** [JSON.stringify] on the user object of the payload. *)
Variable JSON_stringify : JSON -> string.

(** Whether the browser accepts [localStorage.setItem(k, v)] in storage [s];
    when it does not, the call throws a [QuotaExceededError]. *)
Variable quota : string -> string -> Storage -> bool.

(** [localStorage.setItem(k, v)]; [None] is the exception. *)
Definition setItem (k v : string) (s : Storage) : option Storage :=
  if quota k v s then Some ((k, v) :: removeItem k s) else None.

(** [!!localStorage.getItem('token')] *)
Definition stored_truthy (k : string) (s : Storage) : bool :=
  match getItem k s with
  | Some v => string_truthy v
  | None => false
  end.

(** Lines 20-26, evaluated once when the module is loaded.  [JSON.parse]
    throws a [SyntaxError] on a text that is not JSON, and [JSON.parse(null)]
    is [null]. *)
Definition initialState (s : Storage) : Error + AuthState :=
  let parsed : Error + Value :=
    if stored_truthy "user" s then
      match getItem "user" s with
      | Some text =>
          match JSON_parse P text with
          | Some j => inr (Some j)
          | None => inl SyntaxError
          end
      | None => inr null
      end
    else inr null in
  match parsed with
  | inl e => inl e
  | inr u =>
      inr {| token := getItem "token" s;
             refreshToken := getItem "refreshToken" s;
             user := u;
             isAuthenticated := stored_truthy "token" s;
             isLoading := false |}
  end.

(** Lines 32-44.  The four assignments are made on the draft; when a
    [setItem] throws, the exception leaves the reducer, the draft is dropped
    ([None]) and the items written so far stay. *)
Definition setCredentials (payload : Credentials) (state : AuthState) (s : Storage)
    : option AuthState * Storage :=
  let draft :=
    {| token := Some (c_token payload);
       refreshToken := Some (c_refreshToken payload);
       user := Some (c_user payload);
       isAuthenticated := true;
       isLoading := isLoading state |} in
  match setItem "token" (c_token payload) s with
  | None => (None, s)
  | Some s1 =>
      match setItem "refreshToken" (c_refreshToken payload) s1 with
      | None => (None, s1)
      | Some s2 =>
          match setItem "user" (JSON_stringify (c_user payload)) s2 with
          | None => (None, s2)
          | Some s3 => (Some draft, s3)
          end
      end
  end.

(** Lines 45-53. *)
Definition logout (state : AuthState) (s : Storage) : option AuthState * Storage :=
  (Some {| token := None;
           refreshToken := None;
           user := null;
           isAuthenticated := false;
           isLoading := isLoading state |},
   removeItem "user" (removeItem "refreshToken" (removeItem "token" s))).

(** Lines 54-56. *)
Definition setLoading (payload : bool) (state : AuthState) (s : Storage)
    : option AuthState * Storage :=
  (Some {| token := token state;
           refreshToken := refreshToken state;
           user := user state;
           isAuthenticated := isAuthenticated state;
           isLoading := payload |},
   s).

Definition reducer (a : Action) : AuthState -> Storage -> option AuthState * Storage :=
  match a with
  | SetCredentials payload => setCredentials payload
  | Logout => logout
  | SetLoading payload => setLoading payload
  end.

(** [store.dispatch(action)]: the state of the slice is replaced when the
    reducer returns, and kept when it throws. *)
Definition dispatch (a : Action) (st : Store) : Store :=
  match reducer a (auth st) (localStorage st) with
  | (Some state', s') => {| auth := state'; localStorage := s' |}
  | (None, s') => {| auth := auth st; localStorage := s' |}
  end.

Definition run (actions : list Action) (st : Store) : Store :=
  fold_left (fun st a => dispatch a st) actions st.

(** Loading the page with storage [s]. *)
Definition load (s : Storage) : Error + Store :=
  match initialState s with
  | inl e => inl e
  | inr state => inr {| auth := state; localStorage := s |}
  end.

End Slice.

End AuthSlice.

(** What [useWebSocket(liveEventsEnabled)] in [DashboardLayout] reads from
    the store: [state.auth] and the flag of the dashboard slice. *)
Definition hook_props (a : AuthSlice.AuthState) (d : DashboardState) : Props :=
  {| token := AuthSlice.token a;
     isAuthenticated := AuthSlice.isAuthenticated a;
     enabled := liveEventsEnabled d |}.

(** The state of the slice after [logout] or on a page loaded without
    a session. *)
Definition signed_out (loading : bool) : AuthSlice.AuthState :=
  {| AuthSlice.token := None;
     AuthSlice.refreshToken := None;
     AuthSlice.user := null;
     AuthSlice.isAuthenticated := false;
     AuthSlice.isLoading := loading |}.

(** The three keys of the slice. *)
Definition auth_key (k : string) : bool :=
  String.eqb k "token" || String.eqb k "refreshToken" || String.eqb k "user".

(** A store the page can be in: loaded from some storage, then any
    actions. *)
Definition auth_reachable (P : Platform) (JSON_stringify : JSON -> string)
    (quota : string -> string -> AuthSlice.Storage -> bool) (st : AuthSlice.Store) : Prop :=
  exists s st0 actions,
    AuthSlice.load P s = inr st0 /\
    st = AuthSlice.run JSON_stringify quota actions st0.

(** A token that counts is the token of an authenticated state. *)
Definition auth_consistent (a : AuthSlice.AuthState) : Prop :=
  (match AuthSlice.token a with Some t => string_truthy t | None => false end = true ->
   AuthSlice.isAuthenticated a = true) /\
  (AuthSlice.isAuthenticated a = true -> is_Some (AuthSlice.token a)).

(** ** The text helpers of [frontend/src/utils/helpers.ts] *)

Module Helpers.


(** [s.split(sep)] for a separator of one character: the pieces between
    the separators, one more than there are separators. *)
Fixpoint split (sep : ascii) (s : string) : list string :=
  match s with
  | EmptyString => [EmptyString]
  | String c r =>
      if Ascii.eqb c sep then EmptyString :: split sep r
      else match split sep r with
           | piece :: pieces => String c piece :: pieces
           | [] => [String c EmptyString]
           end
  end.



(** Lines 101-108; [None] is [null]. *)
Definition maskIP (ip : option string) : string :=
  match ip with
  | None => "N/A"
  | Some text =>
      if negb (string_truthy text) then "N/A"
      else
        match split "." text with
        | [a; b; _; _] => a ++ "." ++ b ++ ".***.**"
        | _ => text
        end
  end.

End Helpers.

(** No character of [s] is [c]. *)
Fixpoint free_of (c : ascii) (s : string) : bool :=
  match s with
  | EmptyString => true
  | String a r => negb (Ascii.eqb a c) && free_of c r
  end.

(** The number of characters [c] in [s]. *)
Fixpoint count_char (c : ascii) (s : string) : nat :=
  match s with
  | EmptyString => 0
  | String a r => (if Ascii.eqb a c then 1 else 0) + count_char c r
  end.

(** ** The activity feed ([src/unnamed/part_009]) *)

Module ActivityFeed.

(** [a === b] for two values of which at most one is an array or an
    object: numbers compare as IEEE 754 values, and two arrays or objects,
    equal only when they are one and the same object, are not told apart by
    their trees and count as different here. *)
Definition strict_equal (a b : Value) : bool :=
  match a, b with
  | None, None => true
  | Some JNull, Some JNull => true
  | Some (JBool x), Some (JBool y) => Bool.eqb x y
  | Some (JNumber x), Some (JNumber y) => SFeqb x y
  | Some (JString x), Some (JString y) => String.eqb x y
  | _, _ => false
  end.

(** [recentEvents.some((re) => re.id === e.id)] *)
Definition known (recentEvents : list DashboardEvent) (e : DashboardEvent) : bool :=
  existsb (fun re => strict_equal (id re) (id e)) recentEvents.

(** Lines 46-51; [historicalEvents] is [None] while the query has no
    data. *)
Definition allEvents (recentEvents : list DashboardEvent)
    (historicalEvents : option (list DashboardEvent)) : list DashboardEvent :=
  recentEvents ++
  match historicalEvents with
  | Some events => List.filter (fun e => negb (known recentEvents e)) events
  | None => []
  end.

(** The callback of lines 54-58. *)
Definition passes (severityFilter typeFilter : string) (event : DashboardEvent) : bool :=
  if negb (String.eqb severityFilter "all")
     && negb (is_string (severity event) severityFilter) then false
  else if negb (String.eqb typeFilter "all")
          && negb (is_string (type event) typeFilter) then false
  else true.

Definition filteredEvents (severityFilter typeFilter : string)
    (events : list DashboardEvent) : list DashboardEvent :=
  List.filter (passes severityFilter typeFilter) events.

(** Line 181. *)
Definition isNew (recentEvents : list DashboardEvent) (index : nat)
    (event : DashboardEvent) : bool :=
  Nat.ltb index (length recentEvents) && known recentEvents event.

End ActivityFeed.

(** The hook of part_008 with its attempts used up: the counter at the
    ceiling, no current socket and no socket it still has to answer for. *)
Definition exhausted (st : UseWebSocket008.State) : Prop :=
  UseWebSocket008.MAX_RECONNECT_ATTEMPTS <= UseWebSocket008.reconnectAttemptsRef st /\
  UseWebSocket008.wsRef st = None /\
  Idle (sockets (UseWebSocket008.env st)).

(** The warning of lines 72-75. *)
Definition give_up_warning (n : Notification) : Prop :=
  n_type n = Warning /\ n_message n = str give_up_message.

(** From [e] to [e'] no socket was created and no frame sent, the store
    got no event, and the notifications got nothing but warnings of
    lines 72-75. *)
Definition only_warned (e e' : Env) : Prop :=
  map url (sockets e') = map url (sockets e) /\
  map sent (sockets e') = map sent (sockets e) /\
  recentEvents (store e') = recentEvents (store e) /\
  exists warnings,
    notifications (store e') = notifications (store e) ++ warnings /\
    Forall give_up_warning warnings.

(** From [a] to [b] the attempt counter, [wsRef], the sockets and the store
    are the same. *)
Definition kept_connection (a b : UseWebSocket008.State) : Prop :=
  UseWebSocket008.reconnectAttemptsRef b = UseWebSocket008.reconnectAttemptsRef a /\
  UseWebSocket008.wsRef b = UseWebSocket008.wsRef a /\
  sockets (UseWebSocket008.env b) = sockets (UseWebSocket008.env a) /\
  store (UseWebSocket008.env b) = store (UseWebSocket008.env a).

(** The identifiers of the notifications [l] are results of
    [crypto.randomUUID()], each of another call, and all of calls made
    before the call number [n]. *)
Definition uuid_ids (P : Platform) (l : list Notification) (n : nat) : Prop :=
  exists ks : list nat,
    map n_id l = map (randomUUID P) ks /\
    NoDup ks /\ Forall (fun k => k < n) ks.

(** The same of the notifications of the store, for the calls made so
    far. *)
Definition Uuids (P : Platform) (e : Env) : Prop :=
  uuid_ids P (notifications (store e)) (calls e).

(** * Supporting lemmas *)


(** ** The event buffer and the notification feed *)

Section SliceFacts.

Implicit Types (st : DashboardState) (ev : DashboardEvent) (evs : list DashboardEvent).

Lemma addEvents_app evs1 evs2 st :
  addEvents (evs1 ++ evs2) st = addEvents evs2 (addEvents evs1 st).
Proof. unfold addEvents. apply fold_left_app. Qed.

(** After at least one append the buffer is the 100 newest entries of
    "appended events, newest first, then the old buffer". *)
Lemma addEvents_recent evs st :
  evs <> [] ->
  recentEvents (addEvents evs st) = take 100 (rev evs ++ recentEvents st).
Proof.
  induction evs as [|e evs IH] using rev_ind; [congruence|intros _].
  rewrite addEvents_app, rev_app_distr. cbn.
  destruct evs as [|e0 evs'].
  - reflexivity.
  - rewrite IH by discriminate.
    f_equal. rewrite take_take. reflexivity.
Qed.

Lemma addEvents_length evs st :
  evs <> [] -> length (recentEvents (addEvents evs st)) <= 100.
Proof.
  intros H. rewrite addEvents_recent by exact H.
  rewrite length_take. lia.
Qed.

End SliceFacts.

(** ** The message handler *)

Section OnMessageFacts.

Variable P : Platform.

Lemma get_truthy (v : Value) (k : string) :
  truthy v = true -> get v k = inr (field v k).
Proof.
  unfold field. destruct v as [[| | | | |]|]; cbn; try discriminate; reflexivity.
Qed.

Lemma get_parsed (j : JSON) (k : string) (ty : Value) :
  get (Some j) "type" = inr ty -> get (Some j) k = inr (field (Some j) k).
Proof. unfold field. destruct j; cbn; try discriminate; reflexivity. Qed.

(** The handler does what the class of the frame says, and returns. *)
Lemma onmessage_body_perform (ws : nat) (frame : string) (e : Env) :
  onmessage_body P ws frame e = perform P ws (normalize P (calls e) frame) e.
Proof.
  unfold onmessage_body, try_catch, try_block, normalize, parse, prop.
  destruct (JSON_parse P frame) as [j|]; [|reflexivity].
  unfold bind at 1. unfold ret at 1.
  unfold bind at 1. unfold lift_result at 1.
  destruct (get (Some j) "type") as [err|ty] eqn:Hty; [reflexivity|].
  destruct (is_string ty "heartbeat"); [reflexivity|].
  destruct (is_string ty "connected" || is_string ty "pong"); [reflexivity|].
  destruct (truthy ty) eqn:Htruthy; [|reflexivity].
  rewrite andb_true_l.
  unfold bind at 1. unfold lift_result at 1.
  rewrite (get_parsed j "payload" ty Hty).
  destruct (truthy (field (Some j) "payload")) eqn:Hp; [|reflexivity].
  unfold build_event, prop, bind, lift_result.
  rewrite Hty, !(get_truthy _ _ Hp), (get_parsed j "timestamp" ty Hty).
  assert (Hfield : field (Some j) "type" = ty) by (unfold field; now rewrite Hty).
  unfold event_of, perform, bind. rewrite Hfield.
  destruct (truthy (field (field (Some j) "payload") "id")) eqn:Hid;
    unfold crypto_randomUUID, dispatch_addEvent, modify, ret; cbn [negb].
  all: unfold notify_severity, dispatch_addNotification; cbn [severity message tick calls set_store];
    match goal with |- context [if ?c then _ else _] => destruct c end; reflexivity.
Qed.

Lemma normalize_unparsed (n : nat) (frame : string) :
  JSON_parse P frame = None -> normalize P n frame = Unparseable.
Proof. unfold normalize. now intros ->. Qed.

(** Whatever the frame, the handler returns: no exception leaves it. *)
Lemma onmessage_body_returns (ws : nat) (frame : string) (e : Env) :
  fst (onmessage_body P ws frame e) = inr tt.
Proof.
  unfold onmessage_body, try_catch.
  destruct (try_block P ws frame e) as [[err|[]] e']; reflexivity.
Qed.

Lemma perform_event (ws : nat) (ev : DashboardEvent) (g : bool) (e : Env) :
  let e' := snd (perform P ws (DomainEvent ev g) e) in
  sockets e' = sockets e /\ timeouts e' = timeouts e /\ intervals e' = intervals e /\
  recentEvents (store e') = ev :: take 99 (recentEvents (store e)).
Proof.
  unfold perform, bind, notify_severity, dispatch_addEvent, dispatch_addNotification, modify.
  destruct g; cbn;
    match goal with |- context [if ?c then _ else _] => destruct c end; cbn; auto.
Qed.

Lemma perform_no_event (ws : nat) (c : Classification) (e : Env) :
  (forall ev g, c <> DomainEvent ev g) ->
  store (snd (perform P ws c e)) = store e.
Proof.
  intros Hc. destruct c as [| |ev g|]; try reflexivity.
  - unfold perform, try_catch, ws_send.
    destruct (sockets e !! ws) as [w|]; [|reflexivity].
    destruct (readyState w); reflexivity.
  - now destruct (Hc ev g).
Qed.

End OnMessageFacts.

(** *** The handler inside the two hooks *)

Section HookOnMessage.

Variable P : Platform.

Lemma UseWebSocket_set_env_env (st : UseWebSocket.State) :
  UseWebSocket.set_env (UseWebSocket.env st) st = st.
Proof. now destruct st. Qed.

Lemma UseWebSocket008_set_env_env (st : UseWebSocket008.State) :
  UseWebSocket008.set_env (UseWebSocket008.env st) st = st.
Proof. now destruct st. Qed.

Lemma UseWebSocket_onmessage (ws : nat) (frame : string) (st : UseWebSocket.State) :
  UseWebSocket.ws_onmessage P ws frame st =
  (inr tt,
   UseWebSocket.set_env
     (snd (perform P ws (normalize P (calls (UseWebSocket.env st)) frame)
             (UseWebSocket.env st))) st).
Proof.
  unfold UseWebSocket.ws_onmessage, UseWebSocket.lift.
  pose proof (onmessage_body_returns P ws frame (UseWebSocket.env st)) as Hr.
  rewrite <- onmessage_body_perform.
  destruct (onmessage_body P ws frame (UseWebSocket.env st)) as [r e'].
  cbn in Hr. now subst r.
Qed.

Lemma UseWebSocket008_onmessage (ws : nat) (frame : string) (st : UseWebSocket008.State) :
  UseWebSocket008.isMountedRef st = true ->
  UseWebSocket008.ws_onmessage P ws frame st =
  (inr tt,
   UseWebSocket008.set_env
     (snd (perform P ws (normalize P (calls (UseWebSocket008.env st)) frame)
             (UseWebSocket008.env st))) st).
Proof.
  intros Hm.
  unfold UseWebSocket008.ws_onmessage, UseWebSocket008.lift, bind, gets.
  rewrite Hm. cbn [negb].
  pose proof (onmessage_body_returns P ws frame (UseWebSocket008.env st)) as Hr.
  rewrite <- onmessage_body_perform.
  destruct (onmessage_body P ws frame (UseWebSocket008.env st)) as [r e'].
  cbn in Hr. now subst r.
Qed.

Lemma UseWebSocket008_onmessage_unmounted (ws : nat) (frame : string)
    (st : UseWebSocket008.State) :
  UseWebSocket008.isMountedRef st = false ->
  UseWebSocket008.ws_onmessage P ws frame st = (inr tt, st).
Proof.
  intros Hm. unfold UseWebSocket008.ws_onmessage, bind, gets. now rewrite Hm.
Qed.

End HookOnMessage.

(** *** The two frames of the specification *)


Section FrameFacts.

Variable P : Platform.





End FrameFacts.

(** *** Which fields of a pushed event are filled *)

Lemma truthy_populated (v : Value) : truthy v = true -> populated v = true.
Proof. destruct v as [[| | | | |]|]; cbn; congruence. Qed.

Lemma truthy_or_else (a b : Value) : truthy b = true -> truthy (or_else a b) = true.
Proof. unfold or_else. destruct (truthy a) eqn:Ha; auto. Qed.

(** ** Closing, and what is scheduled then *)

Section CloseFacts.

Variable P : Platform.

Lemma onclose008_unmounted p code wasClean st :
  UseWebSocket008.isMountedRef st = false ->
  UseWebSocket008.ws_onclose p code wasClean st = (inr tt, st).
Proof.
  intros Hm. unfold UseWebSocket008.ws_onclose, bind, gets. now rewrite Hm.
Qed.

Lemma onclose008_settles p code wasClean st :
  UseWebSocket008.isMountedRef st = true ->
  shouldRetry code wasClean = false ->
  UseWebSocket008.ws_onclose p code wasClean st = (inr tt, settled_after_close st).
Proof.
  intros Hm Hr. unfold shouldRetry in Hr. apply negb_false_iff in Hr.
  unfold UseWebSocket008.ws_onclose, bind, gets. rewrite Hm. cbn [negb].
  destruct st as [w rt a c m [i|] mc pr e]; cbn in *; now rewrite Hr.
Qed.

Lemma onclose008_retries p code wasClean st :
  UseWebSocket008.isMountedRef st = true ->
  enabled p = true ->
  shouldRetry code wasClean = true ->
  UseWebSocket008.ws_onclose p code wasClean st = (inr tt, retry_scheduled p st).
Proof.
  intros Hm He Hr. unfold shouldRetry in Hr. apply negb_true_iff in Hr.
  unfold UseWebSocket008.ws_onclose, bind, gets. rewrite Hm. cbn [negb].
  destruct st as [w rt a c m [i|] mc pr e]; cbn in *; subst m;
    rewrite Hr, He; reflexivity.
Qed.

Lemma onclose008_disabled p code wasClean st :
  UseWebSocket008.isMountedRef st = true ->
  enabled p = false ->
  UseWebSocket008.ws_onclose p code wasClean st = (inr tt, settled_after_close st).
Proof.
  intros Hm He.
  unfold UseWebSocket008.ws_onclose, bind, gets. rewrite Hm. cbn [negb].
  destruct st as [w rt a c m [i|] mc pr e]; cbn in *;
    destruct (wasClean || UseWebSocket008.auth_failure_code code);
    rewrite ?He; reflexivity.
Qed.

Lemma onclose_plain_retries p code st :
  enabled p = true ->
  UseWebSocket.ws_onclose p code false st = (inr tt, plain_retry_scheduled p st).
Proof.
  intros He. unfold UseWebSocket.ws_onclose, bind. cbn. rewrite He.
  destruct st; reflexivity.
Qed.

Lemma onclose_plain_settles p code wasClean st :
  enabled p && negb wasClean = false ->
  UseWebSocket.ws_onclose p code wasClean st = (inr tt, plain_after_close st).
Proof.
  intros He. unfold UseWebSocket.ws_onclose, bind. cbn. now rewrite He.
Qed.

Lemma reconnect_delay_values :
  map UseWebSocket008.reconnect_delay [0; 1; 2; 3; 4; 5; 6]
  = [1000; 2000; 4000; 8000; 16000; 30000; 30000]%Z.
Proof. reflexivity. Qed.

End CloseFacts.


Lemma auth_failure_code_spec (code : Z) :
  UseWebSocket008.auth_failure_code code = true <->
  In code [1008; 4001; 4003; 4401]%Z.
Proof.
  unfold UseWebSocket008.auth_failure_code. cbn.
  rewrite !orb_true_iff, !Z.eqb_eq. intuition congruence.
Qed.

(** ** A constructor that throws *)

Section ConstructionFacts.

Variable P : Platform.

Lemma connect_plain_throws p st :
  token_truthy p = true -> enabled p = true ->
  url_ok P (UseWebSocket.wsUrl P p) = false ->
  UseWebSocket.connect P p st = (inr tt, plain_construction_failed st).
Proof.
  intros Ht He Hu. unfold UseWebSocket.connect. rewrite Ht, He. cbn [negb orb].
  unfold plain_construction_failed, bind, gets, try_catch, UseWebSocket.lift,
    UseWebSocket.when_some, new_WebSocket.
  destruct st as [[ws|] rt pi pr e]; cbn; now rewrite Hu.
Qed.

Lemma connect008_throws p st :
  may_connect p st ->
  url_ok P (UseWebSocket008.wsUrl P p) = false ->
  UseWebSocket008.connect P p st = (inr tt, construction_failed st).
Proof.
  intros (Hm & Ht & Ha & He & Hc & Ho & Hcg & Hlt) Hu.
  apply Nat.leb_gt in Hlt.
  unfold UseWebSocket008.connect, construction_failed, bind, gets, try_catch,
    UseWebSocket008.lift, UseWebSocket008.when_some, new_WebSocket.
  rewrite Hm. cbn beta iota. rewrite Ht, Ha, He. cbn [negb orb].
  rewrite Hc. cbn beta iota.
  destruct (UseWebSocket008.current_readyState st) as [[| | |]|] eqn:Hrs;
    try congruence; rewrite Hlt;
    destruct st as [[ws|] rt a c m pi mc pr e];
    cbn -[UseWebSocket008.wsUrl] in *; rewrite Hu; subst; reflexivity.
Qed.

End ConstructionFacts.

(** ** One live transport *)

Section OwnedFacts.

Implicit Types (l : list WebSocket) (w : WebSocket) (cur : option nat).

Lemma live_busy w : live w = true -> busy w = true.
Proof. unfold busy, live, readyState_is. destruct (readyState w); cbn; congruence. Qed.

Lemma Owned_at_most_one_live cur l : Owned cur l -> at_most_one_live l.
Proof.
  intros H ws1 ws2 w1 w2 H1 H2 L1 L2.
  pose proof (H _ _ H1 (live_busy _ L1)). pose proof (H _ _ H2 (live_busy _ L2)).
  congruence.
Qed.

Lemma Idle_Owned cur l : Idle l -> Owned cur l.
Proof. intros H ws w Hw Hb. rewrite (H _ _ Hw) in Hb. discriminate. Qed.

Lemma Owned_None_Idle l : Owned None l -> Idle l.
Proof.
  intros H ws w Hw. destruct (busy w) eqn:Hb; [|reflexivity].
  discriminate (H _ _ Hw Hb).
Qed.

Lemma Idle_nil : Idle [].
Proof. intros ws w Hw. now rewrite lookup_nil in Hw. Qed.

(** Changing the socket held in [wsRef] keeps the invariant. *)
Lemma Owned_alter_current (f : WebSocket -> WebSocket) i l :
  Owned (Some i) l -> Owned (Some i) (alter f i l).
Proof.
  intros H ws w Hw Hb. destruct (decide (i = ws)) as [->|Hne]; [reflexivity|].
  rewrite list_lookup_alter_ne in Hw by exact Hne. eauto.
Qed.

(** So does a change that makes no socket busy. *)
Lemma Owned_alter (f : WebSocket -> WebSocket) cur i l :
  Owned cur l ->
  (forall w, l !! i = Some w -> busy (f w) = true -> busy w = true) ->
  Owned cur (alter f i l).
Proof.
  intros H Hf ws w Hw Hb. destruct (decide (i = ws)) as [->|Hne].
  - rewrite list_lookup_alter_eq in Hw.
    destruct (l !! ws) as [w0|] eqn:Hw0; [|discriminate].
    cbn in Hw. injection Hw as <-. eauto.
  - rewrite list_lookup_alter_ne in Hw by exact Hne. eauto.
Qed.

Lemma Idle_alter (f : WebSocket -> WebSocket) i l :
  Idle l ->
  (forall w, l !! i = Some w -> busy (f w) = false) ->
  Idle (alter f i l).
Proof.
  intros H Hf ws w Hw. destruct (decide (i = ws)) as [->|Hne].
  - rewrite list_lookup_alter_eq in Hw.
    destruct (l !! ws) as [w0|] eqn:Hw0; [|discriminate].
    cbn in Hw. injection Hw as <-. eauto.
  - rewrite list_lookup_alter_ne in Hw by exact Hne. eauto.
Qed.

(** Once the socket held in [wsRef] is no longer busy, none is. *)
Lemma Owned_release (f : WebSocket -> WebSocket) i l :
  Owned (Some i) l ->
  (forall w, l !! i = Some w -> busy (f w) = false) ->
  Idle (alter f i l).
Proof.
  intros H Hf ws w Hw. destruct (decide (i = ws)) as [->|Hne].
  - rewrite list_lookup_alter_eq in Hw.
    destruct (l !! ws) as [w0|] eqn:Hw0; [|discriminate].
    cbn in Hw. injection Hw as <-. eauto.
  - rewrite list_lookup_alter_ne in Hw by exact Hne.
    destruct (busy w) eqn:Hb; [|reflexivity].
    pose proof (H _ _ Hw Hb). congruence.
Qed.

(** A new socket becomes the current one. *)
Lemma Idle_new l w : Idle l -> Owned (Some (length l)) (l ++ [w]).
Proof.
  intros H ws w' Hw Hb.
  destruct (decide (ws < length l)) as [Hlt|Hge].
  - rewrite lookup_app_l in Hw by exact Hlt. rewrite (H _ _ Hw) in Hb. discriminate.
  - apply lookup_lt_Some in Hw as Hlen. rewrite length_app in Hlen. cbn in Hlen.
    f_equal. lia.
Qed.

Lemma busy_push_sent data w : busy (push_sent data w) = busy w.
Proof. reflexivity. Qed.

Lemma busy_set_onopen h w : busy (set_onopen h w) = busy w.
Proof. reflexivity. Qed.

Lemma busy_set_onmessage h w : busy (set_onmessage h w) = busy w.
Proof. reflexivity. Qed.

Lemma busy_set_onerror h w : busy (set_onerror h w) = busy w.
Proof. reflexivity. Qed.

Lemma busy_closed w : busy (set_readyState CLOSED w) = false.
Proof. reflexivity. Qed.

Lemma busy_set_onclose_None w : busy (set_onclose None w) = true -> busy w = true.
Proof.
  unfold busy, live, readyState_is. cbn. destruct (readyState w); cbn; try congruence.
Qed.

Lemma busy_ws_close_socket w : busy (ws_close_socket w) = true -> busy w = true.
Proof.
  unfold ws_close_socket. destruct (live w) eqn:Hl; [|auto].
  intros _. now apply live_busy.
Qed.

Lemma busy_open w : readyState w = CONNECTING -> busy (set_readyState OPEN w) = busy w.
Proof. unfold busy, live, readyState_is. cbn. now intros ->. Qed.

(** A socket that was closed and has lost its close handler is not busy. *)
Lemma busy_detached w : busy (ws_close_socket (set_onclose None w)) = false.
Proof. destruct w as [u [] oo om oc oe sn]; reflexivity. Qed.

End OwnedFacts.

(** *** The invariant of part_008 *)

Lemma Idle_detach cur l : Owned cur l -> Idle (detach cur l).
Proof.
  destruct cur as [ws|]; cbn; [|apply Owned_None_Idle].
  intros H. rewrite list_alter_alter_eq. apply Owned_release; [exact H|].
  intros w _. apply busy_detached.
Qed.

Section Inv008Facts.

Variable P : Platform.

Lemma connect008_Inv p st :
  Inv008 st -> Inv008 (exec (UseWebSocket008.connect P p) st).
Proof.
  unfold Inv008, exec, UseWebSocket008.connect, bind, gets, try_catch,
    UseWebSocket008.lift, UseWebSocket008.when_some, new_WebSocket.
  intros H.
  destruct (UseWebSocket008.isMountedRef st); cbn [negb]; [|exact H].
  destruct (negb (token_truthy p) || negb (isAuthenticated p) || negb (enabled p));
    [exact H|].
  destruct (UseWebSocket008.isConnectingRef st); [exact H|].
  destruct (UseWebSocket008.current_readyState st) as [[| | |]|] eqn:Hrs; try exact H.
  all: destruct (Nat.leb UseWebSocket008.MAX_RECONNECT_ATTEMPTS
                   (UseWebSocket008.reconnectAttemptsRef st)); [exact H|].
  all: pose proof (Idle_detach _ _ H) as Hidle.
  all: destruct st as [[ws|] rt a c m pi mc pr e]; cbn -[UseWebSocket008.wsUrl] in *.
  all: destruct (url_ok P (UseWebSocket008.wsUrl P p)); cbn.
  all: try (now apply Idle_Owned).
  all: repeat apply Owned_alter_current; now apply Idle_new.
Qed.

Lemma cleanup008_Inv st :
  Inv008 st -> Inv008 (exec UseWebSocket008.cleanup st).
Proof.
  unfold Inv008, exec, UseWebSocket008.cleanup, bind, gets,
    UseWebSocket008.lift, UseWebSocket008.when_some, UseWebSocket008.current_readyState.
  intros H.
  destruct st as [[ws|] [rt|] a c m [pi|] mc pr e]; cbn in *; try exact H.
  all: rewrite ?list_lookup_alter_eq.
  all: destruct (sockets e !! ws) as [w|] eqn:Hw; cbn.
  all: try (destruct (readyState w) eqn:Hrs; cbn).
  all: rewrite ?list_alter_alter_eq; apply Idle_Owned, (Owned_release _ ws); [exact H|].
  all: intros w' Hw'; rewrite Hw in Hw'; try discriminate.
  all: injection Hw' as <-; destruct w; cbn in *; subst; reflexivity.
Qed.

Lemma perform_sockets ws c e :
  sockets (snd (perform P ws c e)) = sockets e \/
  sockets (snd (perform P ws c e)) = alter (push_sent "ping") ws (sockets e).
Proof.
  destruct c as [| |ev g|]; cbn; auto.
  - unfold try_catch, ws_send.
    destruct (sockets e !! ws) as [w|]; [|now left].
    destruct (readyState w); cbn; auto.
  - left. apply (perform_event P ws ev g e).
Qed.

Lemma onmessage008_Inv ws frame st :
  Inv008 st -> Inv008 (exec (UseWebSocket008.ws_onmessage P ws frame) st).
Proof.
  unfold Inv008, exec. intros H.
  destruct (UseWebSocket008.isMountedRef st) eqn:Hm.
  - rewrite UseWebSocket008_onmessage by exact Hm. cbn.
    destruct (perform_sockets ws
                (normalize P (calls (UseWebSocket008.env st)) frame)
                (UseWebSocket008.env st)) as [-> | ->]; [exact H|].
    apply Owned_alter; [exact H|]. intros w _. now rewrite busy_push_sent.
  - now rewrite UseWebSocket008_onmessage_unmounted.
Qed.

Lemma onopen008_Inv ws st :
  Inv008 st -> Inv008 (exec (UseWebSocket008.ws_onopen P ws) st).
Proof.
  unfold Inv008, exec, UseWebSocket008.ws_onopen, bind, gets,
    UseWebSocket008.lift, UseWebSocket008.when_some.
  intros H.
  destruct st as [cur rt a c [|] [pi|] mc pr e]; cbn in *; try exact H.
  all: apply Owned_alter; [exact H|]; intros w _; apply busy_ws_close_socket.
Qed.

Lemma onerror008_Inv st :
  Inv008 st -> Inv008 (exec UseWebSocket008.ws_onerror st).
Proof. intros H. exact H. Qed.

Lemma ping008_Inv st :
  Inv008 st -> Inv008 (exec UseWebSocket008.ping_callback st).
Proof.
  unfold Inv008, exec, UseWebSocket008.ping_callback, bind, gets,
    UseWebSocket008.lift, UseWebSocket008.current_readyState, ws_send.
  intros H.
  destruct st as [[ws|] rt a c m pi mc pr e]; cbn in *; [|exact H].
  destruct (sockets e !! ws) as [w|] eqn:Hw; cbn; [|exact H].
  destruct (readyState w) eqn:Hrs; cbn; try exact H.
  rewrite Hw, Hrs. cbn. now apply Owned_alter_current.
Qed.

Lemma timer008_Inv p st :
  Inv008 st -> Inv008 (exec (UseWebSocket008.timer_callback P p) st).
Proof.
  intros H. unfold exec, UseWebSocket008.timer_callback, bind, gets.
  destruct (UseWebSocket008.isMountedRef st); [|exact H].
  now apply connect008_Inv.
Qed.

Lemma main_effect008_Inv p st :
  Inv008 st -> Inv008 (exec (UseWebSocket008.main_effect p) st).
Proof.
  unfold Inv008, exec, UseWebSocket008.main_effect, bind, UseWebSocket008.lift.
  intros H. cbn.
  destruct (enabled p && isAuthenticated p && token_truthy p); exact H.
Qed.

Lemma unmount_cleanup008_Inv st :
  Inv008 st -> Inv008 (exec UseWebSocket008.unmount_cleanup st).
Proof.
  intros H. unfold UseWebSocket008.unmount_cleanup.
  change (Inv008 (exec UseWebSocket008.cleanup (UseWebSocket008.set_isMountedRef false st))).
  apply cleanup008_Inv. exact H.
Qed.

Lemma main_cleanup008_Inv st :
  Inv008 st -> Inv008 (exec UseWebSocket008.main_cleanup st).
Proof.
  intros H. unfold exec, UseWebSocket008.main_cleanup, bind, gets.
  destruct (UseWebSocket008.mainCleanup st) as [[t|]|]; try exact H.
  now apply unmount_cleanup008_Inv.
Qed.

(** A computation that cannot throw, run after another. *)
Lemma exec_seq {S : Type} (m k : M S unit) (s : S) :
  throws m s = false -> exec (m ;;; k)%js s = exec k (exec m s).
Proof.
  unfold throws, exec, bind. destruct (m s) as [[err|[]] s']; cbn; congruence.
Qed.

Lemma closed008_Inv ws w code wasClean st :
  Inv008 st ->
  sockets (UseWebSocket008.env st) !! ws = Some w ->
  readyState_is CLOSED w = false ->
  Inv008 (exec (UseWebSocket008.lift (ws_alter (set_readyState CLOSED) ws) ;;;
                match onclose w with
                | Some p => UseWebSocket008.ws_onclose p code wasClean
                | None => ret tt
                end)%js st).
Proof.
  intros H Hw Hc. rewrite exec_seq by reflexivity.
  set (st1 := exec (UseWebSocket008.lift (ws_alter (set_readyState CLOSED) ws)) st).
  assert (H1 : Inv008 st1).
  { unfold Inv008, st1. cbn. apply Owned_alter; [exact H|].
    intros w' _. now rewrite busy_closed. }
  destruct (onclose w) as [p|] eqn:Hoc; [|exact H1].
  assert (Hcur : UseWebSocket008.wsRef st = Some ws).
  { apply (H ws w Hw). unfold busy. rewrite Hc, Hoc. cbn.
    destruct (live w); reflexivity. }
  assert (Hidle : Idle (sockets (UseWebSocket008.env st1))).
  { unfold st1. cbn. apply Owned_release; [now rewrite <- Hcur|].
    intros w' _. apply busy_closed. }
  clearbody st1.
  destruct (UseWebSocket008.isMountedRef st1) eqn:Hm.
  - unfold exec. destruct (shouldRetry code wasClean) eqn:Hr.
    + destruct (enabled p) eqn:He.
      * rewrite onclose008_retries by assumption.
        unfold Inv008. cbn. apply Idle_Owned.
        destruct (UseWebSocket008.pingIntervalRef st1); exact Hidle.
      * rewrite onclose008_disabled by assumption.
        unfold Inv008. cbn. apply Idle_Owned.
        destruct (UseWebSocket008.pingIntervalRef st1); exact Hidle.
    + rewrite onclose008_settles by assumption.
      unfold Inv008. cbn. apply Idle_Owned.
      destruct (UseWebSocket008.pingIntervalRef st1); exact Hidle.
  - unfold exec. now rewrite onclose008_unmounted.
Qed.

Lemma opened008_Inv ws w st :
  Inv008 st ->
  sockets (UseWebSocket008.env st) !! ws = Some w ->
  readyState_is CONNECTING w = true ->
  Inv008 (exec (UseWebSocket008.lift (ws_alter (set_readyState OPEN) ws) ;;;
                match onopen w with
                | Some _ => UseWebSocket008.ws_onopen P ws
                | None => ret tt
                end)%js st).
Proof.
  intros H Hw Hc. rewrite exec_seq by reflexivity.
  set (st1 := exec (UseWebSocket008.lift (ws_alter (set_readyState OPEN) ws)) st).
  assert (H1 : Inv008 st1).
  { unfold Inv008, st1. cbn. apply Owned_alter; [exact H|].
    intros w' Hw'. rewrite Hw in Hw'. injection Hw' as <-.
    rewrite busy_open; [auto|].
    unfold readyState_is in Hc. now destruct (readyState w). }
  destruct (onopen w); [|exact H1]. now apply onopen008_Inv.
Qed.

Lemma cleanup008_returns st : throws UseWebSocket008.cleanup st = false.
Proof.
  unfold throws, UseWebSocket008.cleanup, bind, gets, UseWebSocket008.lift,
    UseWebSocket008.when_some, UseWebSocket008.current_readyState.
  destruct st as [[ws|] [rt|] a c m [pi|] mc pr e]; cbn;
    rewrite ?list_lookup_alter_eq;
    try (destruct (sockets e !! ws) as [w|]; cbn;
         try (destruct (readyState w); cbn)); reflexivity.
Qed.

Lemma main_cleanup008_returns st : throws UseWebSocket008.main_cleanup st = false.
Proof.
  unfold throws, UseWebSocket008.main_cleanup, bind, gets.
  destruct (UseWebSocket008.mainCleanup st) as [[t|]|]; try reflexivity.
  apply (cleanup008_returns (UseWebSocket008.set_isMountedRef false st)).
Qed.

Lemma step008_Inv ev st :
  Inv008 st -> Inv008 (UseWebSocket008.step P ev st).
Proof.
  intros H. destruct ev as [p'| |t|i|ws|ws frame|ws|ws code wasClean];
    cbv beta iota delta [UseWebSocket008.step].
  - destruct (UseWebSocket008.props st) as [p|]; [|exact H].
    destruct (UseWebSocket008.same_props p p'); [exact H|].
    rewrite exec_seq.
    + apply main_effect008_Inv, main_cleanup008_Inv. exact H.
    + apply main_cleanup008_returns.
  - destruct (UseWebSocket008.props st) as [p|]; [|exact H].
    rewrite exec_seq.
    + apply unmount_cleanup008_Inv, main_cleanup008_Inv. exact H.
    + apply main_cleanup008_returns.
  - destruct (timeouts (UseWebSocket008.env st) !! t) as [tm|]; [|exact H].
    destruct (pending tm); [|exact H].
    rewrite exec_seq by reflexivity. apply timer008_Inv. exact H.
  - destruct (intervals (UseWebSocket008.env st) !! i) as [iv|]; [|exact H].
    destruct (active iv); [|exact H]. now apply ping008_Inv.
  - destruct (sockets (UseWebSocket008.env st) !! ws) as [w|] eqn:Hw; [|exact H].
    destruct (readyState_is CONNECTING w) eqn:Hc; [|exact H].
    now apply (opened008_Inv ws w).
  - destruct (sockets (UseWebSocket008.env st) !! ws) as [w|] eqn:Hw; [|exact H].
    destruct (readyState_is OPEN w); [|exact H].
    destruct (onmessage w); [|exact H]. now apply onmessage008_Inv.
  - destruct (sockets (UseWebSocket008.env st) !! ws) as [w|] eqn:Hw; [|exact H].
    destruct (onerror w); exact H.
  - destruct (sockets (UseWebSocket008.env st) !! ws) as [w|] eqn:Hw; [|exact H].
    destruct (readyState_is CLOSED w) eqn:Hc; [exact H|].
    now apply (closed008_Inv ws w).
Qed.

Lemma mount008_Inv p : Inv008 (UseWebSocket008.mount p).
Proof.
  unfold UseWebSocket008.mount. apply main_effect008_Inv.
  unfold Inv008. cbn. apply Idle_Owned, Idle_nil.
Qed.

Lemma run008_Inv evs st :
  Inv008 st -> Inv008 (UseWebSocket008.run P evs st).
Proof.
  unfold UseWebSocket008.run. revert st.
  induction evs as [|ev evs IH]; intros st H; cbn; [exact H|].
  apply IH, step008_Inv, H.
Qed.

End Inv008Facts.

(** ** Starting twice *)

Section StartFacts.

Variable P : Platform.

Lemma alter_new (f : WebSocket -> WebSocket) (l : list WebSocket) (w : WebSocket) :
  alter f (length l) (l ++ [w]) = l ++ [f w].
Proof.
  induction l as [|x l IH]; cbn; [reflexivity|]. now rewrite IH.
Qed.

Lemma connect008_creates p st :
  may_connect p st ->
  url_ok P (UseWebSocket008.wsUrl P p) = true ->
  UseWebSocket008.connect P p st = (inr tt, connected P p st).
Proof.
  intros (Hm & Ht & Ha & He & Hc & Ho & Hcg & Hlt) Hu.
  apply Nat.leb_gt in Hlt.
  unfold UseWebSocket008.connect, connected, bind, gets, try_catch,
    UseWebSocket008.lift, UseWebSocket008.when_some, new_WebSocket.
  rewrite Hm. cbn beta iota. rewrite Ht, Ha, He. cbn [negb orb].
  rewrite Hc. cbn beta iota.
  destruct (UseWebSocket008.current_readyState st) as [[| | |]|] eqn:Hrs;
    try congruence; rewrite Hlt;
    destruct st as [[ws|] rt a c m pi mc pr e];
    cbn -[UseWebSocket008.wsUrl] in *; rewrite Hu; subst;
    unfold UseWebSocket008.set_env, UseWebSocket008.set_wsRef, set_sockets, detach;
    cbn -[UseWebSocket008.wsUrl]; rewrite !alter_new; reflexivity.
Qed.

Lemma connect008_noop p st :
  UseWebSocket008.current_readyState st = Some CONNECTING \/
  UseWebSocket008.current_readyState st = Some OPEN ->
  UseWebSocket008.connect P p st = (inr tt, st).
Proof.
  intros Hrs. unfold UseWebSocket008.connect, bind, gets.
  destruct (UseWebSocket008.isMountedRef st); [|reflexivity]. cbn [negb].
  destruct (negb (token_truthy p) || negb (isAuthenticated p) || negb (enabled p));
    [reflexivity|].
  destruct (UseWebSocket008.isConnectingRef st); [reflexivity|].
  destruct Hrs as [-> | ->]; reflexivity.
Qed.

Lemma connect008_busy p st :
  UseWebSocket008.isConnectingRef st = true ->
  UseWebSocket008.connect P p st = (inr tt, st).
Proof.
  intros Hc. unfold UseWebSocket008.connect, bind, gets.
  destruct (UseWebSocket008.isMountedRef st); [|reflexivity]. cbn [negb].
  destruct (negb (token_truthy p) || negb (isAuthenticated p) || negb (enabled p));
    [reflexivity|].
  now rewrite Hc.
Qed.

Lemma connect_plain_creates p st :
  token_truthy p = true -> enabled p = true ->
  url_ok P (UseWebSocket.wsUrl P p) = true ->
  UseWebSocket.connect P p st = (inr tt, plain_connected P p st).
Proof.
  intros Ht He Hu. unfold UseWebSocket.connect. rewrite Ht, He. cbn [negb orb].
  unfold plain_connected, bind, gets, try_catch, UseWebSocket.lift,
    UseWebSocket.when_some, new_WebSocket.
  destruct st as [[ws|] rt pi pr e]; cbn -[UseWebSocket.wsUrl]; rewrite Hu;
    unfold UseWebSocket.set_env, UseWebSocket.set_wsRef, set_sockets;
    cbn -[UseWebSocket.wsUrl]; rewrite !alter_new; reflexivity.
Qed.

End StartFacts.

(** ** The attempt ceiling *)

Section CeilingFacts.

Variable P : Platform.






End CeilingFacts.


(** ** The states part_008 reaches *)

Section Good008Facts.

Variable P : Platform.

Lemma Handlers_alter (f : WebSocket -> WebSocket) i l :
  (forall w p, onclose (f w) = Some p -> onclose w = Some p) ->
  Handlers l -> Handlers (alter f i l).
Proof.
  intros Hf H ws w p Hw Hp. destruct (decide (i = ws)) as [->|Hne].
  - rewrite list_lookup_alter_eq in Hw.
    destruct (l !! ws) as [w0|] eqn:Hw0; [|discriminate].
    cbn in Hw. injection Hw as <-. eauto.
  - rewrite list_lookup_alter_ne in Hw by exact Hne. eauto.
Qed.

Lemma Handlers_new l w :
  Handlers l -> (forall p, onclose w = Some p -> enabled p = true) ->
  Handlers (l ++ [w]).
Proof.
  intros H Hw ws w' p Hl Hp.
  apply lookup_app_Some in Hl as [Hl | [_ Hl]]; [eauto|].
  apply list_lookup_singleton_Some in Hl as [_ <-]. eauto.
Qed.

Lemma onclose_ws_close_socket w p :
  onclose (ws_close_socket w) = Some p -> onclose w = Some p.
Proof. unfold ws_close_socket. now destruct (live w). Qed.

Lemma Handlers_detach cur l : Handlers l -> Handlers (detach cur l).
Proof.
  intros H. destruct cur as [ws|]; [|exact H]. cbn.
  apply Handlers_alter; [apply onclose_ws_close_socket|].
  apply Handlers_alter; [discriminate|exact H].
Qed.

(** The four ways [connect] can end. *)
Lemma connect008_cases p st :
  UseWebSocket008.connect P p st = (inr tt, st) \/
  UseWebSocket008.connect P p st
  = (inr tt, UseWebSocket008.set_env (gave_up P (UseWebSocket008.env st)) st) \/
  (may_connect p st /\
   UseWebSocket008.connect P p st = (inr tt, connected P p st)) \/
  (may_connect p st /\
   UseWebSocket008.connect P p st = (inr tt, construction_failed st)).
Proof.
  destruct (UseWebSocket008.isMountedRef st) eqn:Hm;
    [|left; unfold UseWebSocket008.connect, bind, gets; now rewrite Hm].
  destruct (token_truthy p) eqn:Ht;
    [|left; unfold UseWebSocket008.connect, bind, gets; now rewrite Hm, Ht].
  destruct (isAuthenticated p) eqn:Ha;
    [|left; unfold UseWebSocket008.connect, bind, gets; now rewrite Hm, Ht, Ha].
  destruct (enabled p) eqn:He;
    [|left; unfold UseWebSocket008.connect, bind, gets; now rewrite Hm, Ht, Ha, He].
  destruct (UseWebSocket008.isConnectingRef st) eqn:Hc;
    [left; now apply connect008_busy|].
  destruct (UseWebSocket008.current_readyState st) as [[| | |]|] eqn:Hrs.
  1: left; apply connect008_noop; now left.
  1: left; apply connect008_noop; now right.
  all: assert (Ho : UseWebSocket008.current_readyState st <> Some OPEN)
         by (rewrite Hrs; discriminate).
  all: assert (Hcg : UseWebSocket008.current_readyState st <> Some CONNECTING)
         by (rewrite Hrs; discriminate).
  all: destruct (Nat.leb UseWebSocket008.MAX_RECONNECT_ATTEMPTS
                   (UseWebSocket008.reconnectAttemptsRef st)) eqn:Hle.
  all: try (right; left;
            unfold UseWebSocket008.connect, bind, gets;
            rewrite Hm; cbn beta iota; rewrite Ht, Ha, He; cbn [negb orb];
            rewrite Hc; cbn beta iota; now rewrite Hrs, Hle).
  all: apply Nat.leb_gt in Hle.
  all: assert (Hg : may_connect p st) by (unfold may_connect; auto 10).
  all: destruct (url_ok P (UseWebSocket008.wsUrl P p)) eqn:Hu.
  all: try (right; right; left; split; [exact Hg|]; now apply connect008_creates).
  all: right; right; right; split; [exact Hg|]; now apply connect008_throws.
Qed.

Lemma connect008_Good p st :
  Good008 st -> Good008 (exec (UseWebSocket008.connect P p) st).
Proof.
  intros (HI & HM & HH).
  split; [now apply connect008_Inv|].
  unfold exec.
  destruct (connect008_cases p st)
    as [-> | [-> | [[Hg ->] | [Hg ->]]]]; cbn [snd].
  - split; assumption.
  - destruct st; split; assumption.
  - destruct Hg as (Hm & _ & _ & He & _). split.
    + cbn. congruence.
    + cbn. apply Handlers_new; [now apply Handlers_detach|].
      cbn. intros p' [= <-]. exact He.
  - split; [reflexivity|]. cbn.
    destruct (UseWebSocket008.wsRef st) as [ws|]; cbn; [|exact HH].
    now apply (Handlers_detach (Some ws)).
Qed.

Lemma cleanup008_Aux st :
  Handlers (sockets (UseWebSocket008.env st)) ->
  let st' := exec UseWebSocket008.cleanup st in
  UseWebSocket008.wsRef st' = None /\ Handlers (sockets (UseWebSocket008.env st')).
Proof.
  unfold exec, UseWebSocket008.cleanup, bind, gets,
    UseWebSocket008.lift, UseWebSocket008.when_some, UseWebSocket008.current_readyState.
  intros HH.
  destruct st as [[ws|] [rt|] a c m [pi|] mc pr e]; cbn in *;
    try (split; [reflexivity|exact HH]).
  all: rewrite ?list_lookup_alter_eq.
  all: destruct (sockets e !! ws) as [w|] eqn:Hw; cbn.
  all: try (destruct (readyState w) eqn:Hrs; cbn).
  all: split; [reflexivity|].
  all: repeat (apply Handlers_alter;
               [first [apply onclose_ws_close_socket | discriminate | now auto]|]).
  all: exact HH.
Qed.

Lemma cleanup008_Good st :
  Good008 st -> Good008 (exec UseWebSocket008.cleanup st).
Proof.
  intros (HI & HM & HH). split; [now apply cleanup008_Inv|].
  destruct (cleanup008_Aux st HH) as [Hw Hh].
  split; [intros _; exact Hw|exact Hh].
Qed.

Lemma onopen008_Good ws st :
  Good008 st -> Good008 (exec (UseWebSocket008.ws_onopen P ws) st).
Proof.
  intros (HI & HM & HH). split; [now apply onopen008_Inv|].
  revert HM HH. clear HI.
  unfold exec, UseWebSocket008.ws_onopen, bind, gets,
    UseWebSocket008.lift, UseWebSocket008.when_some.
  destruct st as [cur rt a c [|] [pi|] mc pr e]; cbn; intros HM HH;
    (split; [assumption|]); try exact HH.
  all: apply Handlers_alter; [apply onclose_ws_close_socket|exact HH].
Qed.

Lemma onmessage008_Good ws frame st :
  Good008 st -> Good008 (exec (UseWebSocket008.ws_onmessage P ws frame) st).
Proof.
  intros (HI & HM & HH). split; [now apply onmessage008_Inv|].
  unfold exec. destruct (UseWebSocket008.isMountedRef st) eqn:Hm.
  - rewrite UseWebSocket008_onmessage by exact Hm. cbn [snd].
    split; [destruct st; cbn in *; congruence|].
    destruct st as [cur rt a c m pi mc pr e]; cbn in *.
    destruct (perform_sockets P ws (normalize P (calls e) frame) e) as [-> | ->];
      [exact HH|].
    apply Handlers_alter; [now auto|exact HH].
  - rewrite UseWebSocket008_onmessage_unmounted by exact Hm. cbn [snd].
    split; [intros _; now apply HM|exact HH].
Qed.

Lemma ping008_Good st :
  Good008 st -> Good008 (exec UseWebSocket008.ping_callback st).
Proof.
  intros (HI & HM & HH). split; [now apply ping008_Inv|].
  revert HM HH. clear HI.
  unfold exec, UseWebSocket008.ping_callback, bind, gets,
    UseWebSocket008.lift, UseWebSocket008.current_readyState, ws_send.
  destruct st as [[ws|] rt a c m pi mc pr e]; cbn; intros HM HH; [|now split].
  destruct (sockets e !! ws) as [w|] eqn:Hw; cbn; [|now split].
  destruct (readyState w) eqn:Hrs; cbn; try (now split).
  rewrite Hw, Hrs. cbn. split; [exact HM|].
  apply Handlers_alter; [now auto|exact HH].
Qed.

Lemma timer008_Good p st :
  Good008 st -> Good008 (exec (UseWebSocket008.timer_callback P p) st).
Proof.
  intros H. unfold exec, UseWebSocket008.timer_callback, bind, gets.
  destruct (UseWebSocket008.isMountedRef st); [|exact H].
  now apply connect008_Good.
Qed.

Lemma main_effect008_Good p st :
  Good008 st -> Good008 (exec (UseWebSocket008.main_effect p) st).
Proof.
  intros (HI & HM & HH). split; [now apply main_effect008_Inv|].
  unfold exec, UseWebSocket008.main_effect, bind, UseWebSocket008.lift.
  destruct st as [cur rt a c m pi mc pr e]; cbn in *.
  destruct (enabled p && isAuthenticated p && token_truthy p); cbn;
    (split; [discriminate|exact HH]).
Qed.

Lemma unmount_cleanup008_Good st :
  Good008 st -> Good008 (exec UseWebSocket008.unmount_cleanup st).
Proof.
  intros (HI & HM & HH). unfold UseWebSocket008.unmount_cleanup.
  change (Good008 (exec UseWebSocket008.cleanup (UseWebSocket008.set_isMountedRef false st))).
  split; [now apply cleanup008_Inv|].
  destruct (cleanup008_Aux (UseWebSocket008.set_isMountedRef false st)) as [Hw Hh];
    [destruct st; exact HH|].
  split; [intros _; exact Hw|exact Hh].
Qed.

Lemma main_cleanup008_Good st :
  Good008 st -> Good008 (exec UseWebSocket008.main_cleanup st).
Proof.
  intros H. unfold exec, UseWebSocket008.main_cleanup, bind, gets.
  destruct (UseWebSocket008.mainCleanup st) as [[t|]|]; try exact H.
  now apply unmount_cleanup008_Good.
Qed.

Lemma closed008_Good ws w code wasClean st :
  Good008 st ->
  sockets (UseWebSocket008.env st) !! ws = Some w ->
  readyState_is CLOSED w = false ->
  Good008 (exec (UseWebSocket008.lift (ws_alter (set_readyState CLOSED) ws) ;;;
                 match onclose w with
                 | Some p => UseWebSocket008.ws_onclose p code wasClean
                 | None => ret tt
                 end)%js st).
Proof.
  intros (HI & HM & HH) Hw Hc. split; [now apply (closed008_Inv ws w)|].
  rewrite exec_seq by reflexivity.
  set (st1 := exec (UseWebSocket008.lift (ws_alter (set_readyState CLOSED) ws)) st).
  assert (H1 : (UseWebSocket008.isMountedRef st1 = false -> UseWebSocket008.wsRef st1 = None)
               /\ Handlers (sockets (UseWebSocket008.env st1))).
  { unfold st1. destruct st as [cur rt a c m pi mc pr e]. cbn in *.
    split; [exact HM|]. apply Handlers_alter; [now auto|exact HH]. }
  clearbody st1. destruct H1 as [HM1 HH1].
  destruct (onclose w) as [p|]; [|now split].
  unfold exec. destruct (UseWebSocket008.isMountedRef st1) eqn:Hm.
  - destruct (shouldRetry code wasClean) eqn:Hr; [destruct (enabled p) eqn:He|].
    + rewrite onclose008_retries by assumption. split; [reflexivity|].
      cbn. destruct (UseWebSocket008.pingIntervalRef st1); exact HH1.
    + rewrite onclose008_disabled by assumption. split; [reflexivity|].
      cbn. destruct (UseWebSocket008.pingIntervalRef st1); exact HH1.
    + rewrite onclose008_settles by assumption. split; [reflexivity|].
      cbn. destruct (UseWebSocket008.pingIntervalRef st1); exact HH1.
  - rewrite onclose008_unmounted by exact Hm. cbn [snd].
    split; [intros _; now apply HM1|exact HH1].
Qed.

Lemma opened008_Good ws w st :
  Good008 st ->
  sockets (UseWebSocket008.env st) !! ws = Some w ->
  readyState_is CONNECTING w = true ->
  Good008 (exec (UseWebSocket008.lift (ws_alter (set_readyState OPEN) ws) ;;;
                 match onopen w with
                 | Some _ => UseWebSocket008.ws_onopen P ws
                 | None => ret tt
                 end)%js st).
Proof.
  intros H Hw Hc. rewrite exec_seq by reflexivity.
  set (st1 := exec (UseWebSocket008.lift (ws_alter (set_readyState OPEN) ws)) st).
  assert (H1 : Good008 st1).
  { destruct H as (HI & HM & HH). split; [|split].
    - unfold Inv008, st1. cbn. apply Owned_alter; [exact HI|].
      intros w' Hw'. rewrite Hw in Hw'. injection Hw' as <-.
      rewrite busy_open; [auto|].
      unfold readyState_is in Hc. now destruct (readyState w).
    - unfold st1. destruct st; exact HM.
    - unfold st1. destruct st as [cur rt a c m pi mc pr e]. cbn in *.
      apply Handlers_alter; [now auto|exact HH]. }
  destruct (onopen w); [|exact H1]. now apply onopen008_Good.
Qed.

Lemma step008_Good ev st :
  Good008 st -> Good008 (UseWebSocket008.step P ev st).
Proof.
  intros H. destruct ev as [p'| |t|i|ws|ws frame|ws|ws code wasClean];
    cbv beta iota delta [UseWebSocket008.step].
  - destruct (UseWebSocket008.props st) as [p|]; [|exact H].
    destruct (UseWebSocket008.same_props p p'); [exact H|].
    rewrite exec_seq by apply main_cleanup008_returns.
    apply main_effect008_Good, main_cleanup008_Good.
    destruct H as (HI & HM & HH). destruct st; repeat split; assumption.
  - destruct (UseWebSocket008.props st) as [p|]; [|exact H].
    rewrite exec_seq by apply main_cleanup008_returns.
    apply unmount_cleanup008_Good, main_cleanup008_Good.
    destruct H as (HI & HM & HH). destruct st; repeat split; assumption.
  - destruct (timeouts (UseWebSocket008.env st) !! t) as [tm|]; [|exact H].
    destruct (pending tm); [|exact H].
    rewrite exec_seq by reflexivity. apply timer008_Good.
    destruct H as (HI & HM & HH). destruct st; repeat split; assumption.
  - destruct (intervals (UseWebSocket008.env st) !! i) as [iv|]; [|exact H].
    destruct (active iv); [|exact H]. now apply ping008_Good.
  - destruct (sockets (UseWebSocket008.env st) !! ws) as [w|] eqn:Hw; [|exact H].
    destruct (readyState_is CONNECTING w) eqn:Hc; [|exact H].
    now apply (opened008_Good ws w).
  - destruct (sockets (UseWebSocket008.env st) !! ws) as [w|] eqn:Hw; [|exact H].
    destruct (readyState_is OPEN w); [|exact H].
    destruct (onmessage w); [|exact H]. now apply onmessage008_Good.
  - destruct (sockets (UseWebSocket008.env st) !! ws) as [w|] eqn:Hw; [|exact H].
    destruct (onerror w); [|exact H].
    destruct H as (HI & HM & HH). destruct st; repeat split; assumption.
  - destruct (sockets (UseWebSocket008.env st) !! ws) as [w|] eqn:Hw; [|exact H].
    destruct (readyState_is CLOSED w) eqn:Hc; [exact H|].
    now apply (closed008_Good ws w).
Qed.

Lemma reachable008_Good st : reachable008 P st -> Good008 st.
Proof.
  intros (p & evs & ->). unfold UseWebSocket008.run.
  assert (H0 : Good008 (UseWebSocket008.mount p)).
  { unfold UseWebSocket008.mount. apply main_effect008_Good.
    split; [apply Idle_Owned, Idle_nil|]. split; [reflexivity|].
    intros ws w p' Hw. cbn in Hw. now rewrite lookup_nil in Hw. }
  revert H0. generalize (UseWebSocket008.mount p).
  induction evs as [|ev evs IH]; intros st H; cbn; [exact H|].
  apply IH, step008_Good, H.
Qed.

(** In a reachable state, a socket that is not closed and still has its
    close handler is the current one, of a mounted hook, and the handler
    comes from an enabled render. *)
Lemma reachable008_handler st ws w p :
  reachable008 P st ->
  sockets (UseWebSocket008.env st) !! ws = Some w ->
  readyState_is CLOSED w = false ->
  onclose w = Some p ->
  UseWebSocket008.wsRef st = Some ws /\
  UseWebSocket008.isMountedRef st = true /\
  enabled p = true.
Proof.
  intros Hr Hw Hc Hp. destruct (reachable008_Good st Hr) as (HI & HM & HH).
  assert (Hcur : UseWebSocket008.wsRef st = Some ws).
  { apply (HI ws w Hw). unfold busy. rewrite Hc, Hp. cbn. now destruct (live w). }
  split; [exact Hcur|]. split; [|now apply (HH ws w p)].
  destruct (UseWebSocket008.isMountedRef st); [reflexivity|].
  rewrite HM in Hcur by reflexivity. discriminate.
Qed.

(** In a reachable state, a live socket belongs to a mounted hook. *)
Lemma reachable008_live st ws w :
  reachable008 P st ->
  sockets (UseWebSocket008.env st) !! ws = Some w ->
  live w = true ->
  UseWebSocket008.isMountedRef st = true.
Proof.
  intros Hr Hw Hl. destruct (reachable008_Good st Hr) as (HI & HM & HH).
  pose proof (HI ws w Hw (live_busy w Hl)) as Hcur.
  destruct (UseWebSocket008.isMountedRef st); [reflexivity|].
  rewrite HM in Hcur by reflexivity. discriminate.
Qed.

End Good008Facts.

(** ** The states [frontend/src/hooks/useWebSocket.ts] reaches *)

Section PlainFacts.

Variable P : Platform.

Lemma connect_plain_skips p st :
  negb (token_truthy p) || negb (enabled p) = true ->
  UseWebSocket.connect P p st = (inr tt, st).
Proof. intros H. unfold UseWebSocket.connect. now rewrite H. Qed.

Lemma connect_plain_Handlers p st :
  Handlers (sockets (UseWebSocket.env st)) ->
  Handlers (sockets (UseWebSocket.env (exec (UseWebSocket.connect P p) st))).
Proof.
  intros HH. unfold exec.
  destruct (token_truthy p) eqn:Ht; [|now rewrite connect_plain_skips by now rewrite Ht].
  destruct (enabled p) eqn:He;
    [|now rewrite connect_plain_skips by (rewrite He; apply orb_true_r)].
  destruct (url_ok P (UseWebSocket.wsUrl P p)) eqn:Hu.
  - rewrite connect_plain_creates by assumption. cbn.
    apply Handlers_new.
    + destruct (UseWebSocket.wsRef st); [|exact HH].
      apply Handlers_alter; [apply onclose_ws_close_socket|exact HH].
    + cbn. intros p' [= <-]. exact He.
  - rewrite connect_plain_throws by assumption. unfold plain_construction_failed.
    destruct (UseWebSocket.wsRef st); [|exact HH]. cbn.
    apply Handlers_alter; [apply onclose_ws_close_socket|exact HH].
Qed.

Lemma cleanup_connect_Handlers st :
  Handlers (sockets (UseWebSocket.env st)) ->
  Handlers (sockets (UseWebSocket.env (exec UseWebSocket.cleanup_connect st))).
Proof.
  unfold exec, UseWebSocket.cleanup_connect, bind, gets, UseWebSocket.lift,
    UseWebSocket.when_some.
  destruct st as [[ws|] [rt|] pi pr e]; cbn; intros HH; try exact HH.
  all: apply Handlers_alter; [apply onclose_ws_close_socket|exact HH].
Qed.

Lemma effect_ping_sockets p st :
  sockets (UseWebSocket.env (exec (UseWebSocket.effect_ping p) st))
  = sockets (UseWebSocket.env st).
Proof.
  unfold exec, UseWebSocket.effect_ping, bind, UseWebSocket.lift.
  destruct (negb (enabled p)); reflexivity.
Qed.

Lemma cleanup_ping_sockets st :
  sockets (UseWebSocket.env (exec UseWebSocket.cleanup_ping st))
  = sockets (UseWebSocket.env st).
Proof.
  unfold exec, UseWebSocket.cleanup_ping, bind, gets, UseWebSocket.lift,
    UseWebSocket.when_some.
  destruct st as [cur rt [pi|] pr e]; reflexivity.
Qed.

Lemma effect_connect_Handlers p st :
  Handlers (sockets (UseWebSocket.env st)) ->
  Handlers (sockets (UseWebSocket.env (exec (UseWebSocket.effect_connect P p) st))).
Proof.
  intros HH. unfold UseWebSocket.effect_connect.
  destruct (enabled p); [now apply connect_plain_Handlers|exact HH].
Qed.

(** None of the hook's own computations lets an exception escape. *)
Lemma connect_plain_returns p st : throws (UseWebSocket.connect P p) st = false.
Proof.
  unfold throws.
  destruct (token_truthy p) eqn:Ht; [|now rewrite connect_plain_skips by now rewrite Ht].
  destruct (enabled p) eqn:He;
    [|now rewrite connect_plain_skips by (rewrite He; apply orb_true_r)].
  destruct (url_ok P (UseWebSocket.wsUrl P p)) eqn:Hu.
  - now rewrite connect_plain_creates.
  - now rewrite connect_plain_throws.
Qed.

Lemma cleanup_connect_returns st : throws UseWebSocket.cleanup_connect st = false.
Proof.
  unfold throws, UseWebSocket.cleanup_connect, bind, gets, UseWebSocket.lift,
    UseWebSocket.when_some.
  destruct st as [[ws|] [rt|] pi pr e]; reflexivity.
Qed.

Lemma cleanup_ping_returns st : throws UseWebSocket.cleanup_ping st = false.
Proof.
  unfold throws, UseWebSocket.cleanup_ping, bind, gets, UseWebSocket.lift,
    UseWebSocket.when_some.
  destruct st as [cur rt [pi|] pr e]; reflexivity.
Qed.

Lemma effect_connect_returns p st : throws (UseWebSocket.effect_connect P p) st = false.
Proof.
  unfold UseWebSocket.effect_connect.
  destruct (enabled p); [apply connect_plain_returns|reflexivity].
Qed.

Lemma exec_if {S : Type} (b : bool) (m : M S unit) (s : S) :
  exec (if b then m else ret tt) s = if b then exec m s else s.
Proof. now destruct b. Qed.

Lemma throws_if {S : Type} (b : bool) (m : M S unit) (s : S) :
  throws m s = false -> throws (if b then m else ret tt) s = false.
Proof. now destruct b. Qed.

Lemma rerender_Handlers p p' st :
  Handlers (sockets (UseWebSocket.env st)) ->
  Handlers (sockets (UseWebSocket.env (exec (UseWebSocket.rerender P p p') st))).
Proof.
  intros HH. unfold UseWebSocket.rerender.
  set (c2 := negb (Bool.eqb (enabled p) (enabled p'))).
  set (c1 := negb (option_string_eqb (token p) (token p')) || c2).
  rewrite exec_seq by apply throws_if, cleanup_connect_returns.
  rewrite exec_seq by apply throws_if, cleanup_ping_returns.
  rewrite exec_seq by apply throws_if, effect_connect_returns.
  rewrite !exec_if.
  destruct c2.
  - rewrite effect_ping_sockets.
    destruct c1.
    + apply effect_connect_Handlers. rewrite cleanup_ping_sockets.
      now apply cleanup_connect_Handlers.
    + now rewrite cleanup_ping_sockets.
  - destruct c1; [|exact HH].
    now apply effect_connect_Handlers, cleanup_connect_Handlers.
Qed.

Lemma step_plain_Handlers ev st :
  Handlers (sockets (UseWebSocket.env st)) ->
  Handlers (sockets (UseWebSocket.env (UseWebSocket.step P ev st))).
Proof.
  intros HH. destruct ev as [p'| |t|i|ws|ws frame|ws|ws code wasClean];
    cbv beta iota delta [UseWebSocket.step].
  - destruct (UseWebSocket.props st) as [p|]; [|exact HH].
    apply rerender_Handlers. destruct st; exact HH.
  - destruct (UseWebSocket.props st) as [p|]; [|exact HH].
    rewrite exec_seq by apply cleanup_connect_returns.
    rewrite cleanup_ping_sockets. apply cleanup_connect_Handlers.
    destruct st; exact HH.
  - destruct (timeouts (UseWebSocket.env st) !! t) as [tm|]; [|exact HH].
    destruct (pending tm); [|exact HH].
    rewrite exec_seq by reflexivity. apply connect_plain_Handlers.
    destruct st; exact HH.
  - destruct (intervals (UseWebSocket.env st) !! i) as [iv|]; [|exact HH].
    destruct (active iv); [|exact HH].
    unfold exec, UseWebSocket.ping_callback, bind, gets, UseWebSocket.lift,
      UseWebSocket.when_some, UseWebSocket.socket_state, ws_send.
    destruct st as [[ws|] rt pi pr e]; cbn in *; [|exact HH].
    destruct (sockets e !! ws) as [w|] eqn:Hw; cbn; [|exact HH].
    destruct (readyState w) eqn:Hrs; cbn; try exact HH.
    rewrite Hw, Hrs. cbn. apply Handlers_alter; [now auto|exact HH].
  - destruct (sockets (UseWebSocket.env st) !! ws) as [w|] eqn:Hw; [|exact HH].
    destruct (readyState_is CONNECTING w); [|exact HH].
    rewrite exec_seq by reflexivity.
    destruct (onopen w); destruct st; cbn in *;
      (apply Handlers_alter; [now auto|exact HH]).
  - destruct (sockets (UseWebSocket.env st) !! ws) as [w|] eqn:Hw; [|exact HH].
    destruct (readyState_is OPEN w); [|exact HH].
    destruct (onmessage w); [|exact HH].
    unfold exec. rewrite UseWebSocket_onmessage. cbn [snd].
    destruct st as [cur rt pi pr e]; cbn in *.
    destruct (perform_sockets P ws (normalize P (calls e) frame) e) as [-> | ->];
      [exact HH|].
    apply Handlers_alter; [now auto|exact HH].
  - destruct (sockets (UseWebSocket.env st) !! ws) as [w|] eqn:Hw; [|exact HH].
    destruct (onerror w); exact HH.
  - destruct (sockets (UseWebSocket.env st) !! ws) as [w|] eqn:Hw; [|exact HH].
    destruct (readyState_is CLOSED w); [exact HH|].
    rewrite exec_seq by reflexivity.
    destruct (onclose w) as [p|]; [|destruct st; cbn in *;
      apply Handlers_alter; [now auto|exact HH]].
    unfold exec, UseWebSocket.ws_onclose, bind, UseWebSocket.lift.
    destruct (enabled p && negb wasClean); destruct st; cbn in *;
      (apply Handlers_alter; [now auto|exact HH]).
Qed.

Lemma reachable_Handlers st :
  reachable P st -> Handlers (sockets (UseWebSocket.env st)).
Proof.
  intros (p & evs & ->). unfold UseWebSocket.run.
  assert (H0 : Handlers (sockets (UseWebSocket.env (UseWebSocket.mount P p)))).
  { unfold UseWebSocket.mount.
    rewrite exec_seq by apply effect_connect_returns.
    rewrite effect_ping_sockets. apply effect_connect_Handlers.
    intros ws w p' Hw. cbn in Hw. now rewrite lookup_nil in Hw. }
  revert H0. generalize (UseWebSocket.mount P p).
  induction evs as [|ev evs IH]; intros st H; cbn; [exact H|].
  apply IH, step_plain_Handlers, H.
Qed.

End PlainFacts.

(** ** An event delivered to a hook *)

Section DeliveredFacts.

Variable P : Platform.

(** A message on an open socket that still has its handler. *)
Lemma step_message st ws w frame :
  sockets (UseWebSocket.env st) !! ws = Some w ->
  readyState w = OPEN -> is_Some (onmessage w) ->
  UseWebSocket.step P (UseWebSocket.Message ws frame) st
  = UseWebSocket.set_env
      (snd (perform P ws (normalize P (calls (UseWebSocket.env st)) frame)
              (UseWebSocket.env st))) st.
Proof.
  intros Hw Ho [h Hh]. cbv beta iota delta [UseWebSocket.step].
  rewrite Hw. unfold readyState_is. rewrite Ho, Hh.
  unfold exec. now rewrite UseWebSocket_onmessage.
Qed.

Lemma step008_message st ws w frame :
  reachable008 P st ->
  sockets (UseWebSocket008.env st) !! ws = Some w ->
  readyState w = OPEN -> is_Some (onmessage w) ->
  UseWebSocket008.step P (UseWebSocket008.Message ws frame) st
  = UseWebSocket008.set_env
      (snd (perform P ws (normalize P (calls (UseWebSocket008.env st)) frame)
              (UseWebSocket008.env st))) st.
Proof.
  intros Hr Hw Ho [h Hh]. cbv beta iota delta [UseWebSocket008.step].
  rewrite Hw. unfold readyState_is. rewrite Ho, Hh.
  unfold exec. rewrite UseWebSocket008_onmessage; [reflexivity|].
  apply (reachable008_live P st ws w Hr Hw). unfold live. now rewrite Ho.
Qed.

(** The close event of a socket that still has its handler. *)
Lemma step_closed st ws w p code wasClean :
  reachable P st ->
  sockets (UseWebSocket.env st) !! ws = Some w ->
  readyState_is CLOSED w = false -> onclose w = Some p ->
  UseWebSocket.step P (UseWebSocket.Closed ws code wasClean) st
  = let closed := UseWebSocket.set_env (closed_socket ws (UseWebSocket.env st)) st in
    if wasClean then plain_after_close closed else plain_retry_scheduled p closed.
Proof.
  intros Hr Hw Hc Hp. cbv beta iota delta [UseWebSocket.step].
  rewrite Hw, Hc, Hp. rewrite exec_seq by reflexivity.
  pose proof (reachable_Handlers P st Hr ws w p Hw Hp) as He.
  unfold exec. destruct wasClean.
  - rewrite onclose_plain_settles by apply andb_false_r. reflexivity.
  - rewrite onclose_plain_retries by exact He. reflexivity.
Qed.

Lemma step008_closed st ws w p code wasClean :
  reachable008 P st ->
  sockets (UseWebSocket008.env st) !! ws = Some w ->
  readyState_is CLOSED w = false -> onclose w = Some p ->
  UseWebSocket008.step P (UseWebSocket008.Closed ws code wasClean) st
  = let closed := UseWebSocket008.set_env (closed_socket ws (UseWebSocket008.env st)) st in
    if shouldRetry code wasClean then retry_scheduled p closed
    else settled_after_close closed.
Proof.
  intros Hr Hw Hc Hp. cbv beta iota delta [UseWebSocket008.step].
  rewrite Hw, Hc, Hp. rewrite exec_seq by reflexivity.
  destruct (reachable008_handler P st ws w p Hr Hw Hc Hp) as (_ & Hm & He).
  unfold exec. destruct (shouldRetry code wasClean) eqn:Hs.
  - rewrite onclose008_retries; [reflexivity| |exact He|exact Hs].
    destruct st; exact Hm.
  - rewrite onclose008_settles; [reflexivity| |exact Hs].
    destruct st; exact Hm.
Qed.

Lemma retry_scheduled_timeouts p st :
  timeouts (UseWebSocket008.env (retry_scheduled p st))
  = timeouts (UseWebSocket008.env st) ++
    [ {| delay := UseWebSocket008.reconnect_delay
                    (S (UseWebSocket008.reconnectAttemptsRef st));
         callback := p; pending := true |} ].
Proof.
  unfold retry_scheduled, settled_after_close. cbn.
  destruct (UseWebSocket008.pingIntervalRef st); reflexivity.
Qed.

Lemma settled_after_close_timeouts st :
  timeouts (UseWebSocket008.env (settled_after_close st))
  = timeouts (UseWebSocket008.env st).
Proof.
  unfold settled_after_close. cbn.
  destruct (UseWebSocket008.pingIntervalRef st); reflexivity.
Qed.

Lemma settled_after_close_sockets st :
  sockets (UseWebSocket008.env (settled_after_close st))
  = sockets (UseWebSocket008.env st).
Proof.
  unfold settled_after_close. cbn.
  destruct (UseWebSocket008.pingIntervalRef st); reflexivity.
Qed.

End DeliveredFacts.

(** * The claims *)

(** ** C1 *)




(** ** C2 *)

(** C2, as the claim states it, fails: in
    [frontend/src/hooks/useWebSocket.ts] a closure with code 4401 and
    [wasClean = false] schedules a reconnect. *)
Lemma C2_auth_close_counterexample :
  let st :=
    UseWebSocket.run Demo.platform [UseWebSocket.Closed 0 4401 false]
      (UseWebSocket.mount Demo.platform (Demo.signed_in "tok")) in
  shouldRetry 4401 false = false /\
  timeouts (UseWebSocket.env st)
  = [ {| delay := 5000; callback := Demo.signed_in "tok"; pending := true |} ].
Proof. split; reflexivity. Qed.

(** C2, amended.  A closure is retryable when it is not clean and its code
    is none of 1008, 4001, 4003, 4401.  In every state part_008 reaches, the
    close event of a socket that still has its close handler sets one
    reconnect timer when the closure is retryable and none otherwise; a
    closure that is not retried, code 4401 among them, leaves the hook
    without a current socket, not connecting, with the attempt counter and
    the timers as they were.  In every state
    [frontend/src/hooks/useWebSocket.ts] reaches, the close event of such a
    socket sets one reconnect timer when the closure is not clean and none
    when it is clean, whatever the code. *)
Theorem C2_retry_iff_retryable (P : Platform) :
  (forall code wasClean,
     shouldRetry code wasClean = false <->
     wasClean = true \/ In code [1008; 4001; 4003; 4401]%Z) /\
  (forall st ws w p code wasClean,
     reachable008 P st ->
     sockets (UseWebSocket008.env st) !! ws = Some w ->
     readyState_is CLOSED w = false -> onclose w = Some p ->
     let st' := UseWebSocket008.step P (UseWebSocket008.Closed ws code wasClean) st in
     length (timeouts (UseWebSocket008.env st'))
     = length (timeouts (UseWebSocket008.env st))
       + (if shouldRetry code wasClean then 1 else 0) /\
     (shouldRetry code wasClean = false ->
      UseWebSocket008.wsRef st' = None /\
      UseWebSocket008.isConnectingRef st' = false /\
      UseWebSocket008.reconnectAttemptsRef st' = UseWebSocket008.reconnectAttemptsRef st /\
      timeouts (UseWebSocket008.env st') = timeouts (UseWebSocket008.env st) /\
      sockets (UseWebSocket008.env st')
      = alter (set_readyState CLOSED) ws (sockets (UseWebSocket008.env st)))) /\
  (forall wasClean, shouldRetry 4401 wasClean = false) /\
  (forall st ws w p code wasClean,
     reachable P st ->
     sockets (UseWebSocket.env st) !! ws = Some w ->
     readyState_is CLOSED w = false -> onclose w = Some p ->
     let st' := UseWebSocket.step P (UseWebSocket.Closed ws code wasClean) st in
     length (timeouts (UseWebSocket.env st'))
     = length (timeouts (UseWebSocket.env st)) + (if wasClean then 0 else 1)).
Proof.
  split; [|split; [|split]].
  - intros code wasClean. unfold shouldRetry.
    rewrite negb_false_iff, orb_true_iff, auth_failure_code_spec. reflexivity.
  - intros st ws w p code wasClean Hr Hw Hc Hp st'. subst st'.
    rewrite (step008_closed P st ws w p code wasClean Hr Hw Hc Hp). cbv zeta.
    destruct (shouldRetry code wasClean).
    + split; [|discriminate].
      rewrite retry_scheduled_timeouts, length_app. now destruct st.
    + rewrite settled_after_close_timeouts, settled_after_close_sockets.
      split; [destruct st; cbn; lia|]. intros _. now destruct st.
  - intros wasClean. unfold shouldRetry. now rewrite orb_true_r.
  - intros st ws w p code wasClean Hr Hw Hc Hp st'. subst st'.
    rewrite (step_closed P st ws w p code wasClean Hr Hw Hc Hp). cbv zeta.
    destruct wasClean.
    + destruct st; cbn; lia.
    + unfold plain_retry_scheduled. destruct st; cbn. now rewrite length_app.
Qed.

Lemma C2_retry_iff_retryable_witness :
  shouldRetry 4401 false = false <->
  false = true \/ In 4401%Z [1008; 4001; 4003; 4401]%Z.
Proof. apply (proj1 (C2_retry_iff_retryable Demo.platform)). Defined.

(** ** C3 *)




(** ** C4 *)

(** C4, as the claim states it, fails: a frame without [timestamp] is
    mapped to an event and pushed, in both hooks, with [timestamp]
    undefined. *)
Lemma C4_timestamp_counterexample :
  let st1 :=
    UseWebSocket.run Demo.platform
      [UseWebSocket.Opened 0; UseWebSocket.Message 0 untimed_frame]
      (UseWebSocket.mount Demo.platform (Demo.signed_in "tok")) in
  let st2 :=
    UseWebSocket008.run Demo.platform
      [UseWebSocket008.TimeoutFires 0; UseWebSocket008.Opened 0;
       UseWebSocket008.Message 0 untimed_frame]
      (UseWebSocket008.mount (Demo.signed_in "tok")) in
  (exists ev, recentEvents (store (UseWebSocket.env st1)) = [ev] /\
              populated (timestamp ev) = false) /\
  (exists ev, recentEvents (store (UseWebSocket008.env st2)) = [ev] /\
              populated (timestamp ev) = false).
Proof.
  split.
  - exists (untimed_event "uuid-i"). split; vm_compute; reflexivity.
  - exists (untimed_event "uuid-i"). split; vm_compute; reflexivity.
Qed.

(** C4, amended.  Every frame the handler maps to an event yields an event
    whose [type], [severity], [message] and [action] are truthy, with
    [severity] defaulting to ["info"], [message] and [action] to the type
    and [id] to a fresh identifier; [timestamp] is the frame's own member,
    without a default.  That event is put at the head of the buffer, by the
    handler and so by either hook when the frame is delivered, and a frame
    of another class leaves the store alone. *)
Theorem C4_pushed_event_fields
    (P : Platform) (n : nat) (frame : string) (ev : DashboardEvent) (g : bool) :
  normalize P n frame = DomainEvent ev g ->
  (exists j,
     JSON_parse P frame = Some j /\
     let payload := field (Some j) "payload" in
     type ev = field (Some j) "type" /\
     severity ev = or_else (field payload "severity") (str "info") /\
     message ev = or_else (field payload "message") (type ev) /\
     action ev = or_else (field payload "action") (type ev) /\
     id ev = (if truthy (field payload "id") then field payload "id"
              else str (randomUUID P n)) /\
     timestamp ev = field (Some j) "timestamp") /\
  (truthy (type ev) = true /\ truthy (severity ev) = true /\
   truthy (message ev) = true /\ truthy (action ev) = true) /\
  (forall ws e, calls e = n ->
     recentEvents (store (snd (onmessage_body P ws frame e)))
     = ev :: take 99 (recentEvents (store e))) /\
  (forall ws w st,
     calls (UseWebSocket.env st) = n ->
     sockets (UseWebSocket.env st) !! ws = Some w ->
     readyState w = OPEN -> is_Some (onmessage w) ->
     recentEvents (store (UseWebSocket.env
                            (UseWebSocket.step P (UseWebSocket.Message ws frame) st)))
     = ev :: take 99 (recentEvents (store (UseWebSocket.env st)))) /\
  (forall ws w st,
     reachable008 P st ->
     calls (UseWebSocket008.env st) = n ->
     sockets (UseWebSocket008.env st) !! ws = Some w ->
     readyState w = OPEN -> is_Some (onmessage w) ->
     recentEvents (store (UseWebSocket008.env
                            (UseWebSocket008.step P (UseWebSocket008.Message ws frame) st)))
     = ev :: take 99 (recentEvents (store (UseWebSocket008.env st)))) /\
  (forall ws e frame',
     (forall ev' g', normalize P (calls e) frame' <> DomainEvent ev' g') ->
     store (snd (onmessage_body P ws frame' e)) = store e).
Proof.
  intros Hn.
  assert (Hshape : exists j, JSON_parse P frame = Some j /\
                     truthy (field (Some j) "type") = true /\
                     ev = event_of P n (Some j) (field (Some j) "payload")).
  { unfold normalize in Hn.
    destruct (JSON_parse P frame) as [j|]; [|discriminate].
    exists j. split; [reflexivity|].
    destruct (get (Some j) "type") as [err|ty] eqn:Hty; [discriminate|].
    destruct (is_string ty "heartbeat"); [discriminate|].
    destruct (is_string ty "connected" || is_string ty "pong"); [discriminate|].
    destruct (truthy ty) eqn:Ht; [|discriminate].
    destruct (truthy (field (Some j) "payload")); [|discriminate].
    cbn in Hn. injection Hn as <- _.
    split; [|reflexivity]. unfold field. now rewrite Hty. }
  destruct Hshape as (j & Hj & Hty & ->).
  split; [|split; [|split; [|split; [|split]]]].
  - exists j. split; [exact Hj|]. cbn. repeat split; reflexivity.
  - cbn. repeat split; auto using truthy_or_else.
  - intros ws e He. rewrite onmessage_body_perform, He, Hn.
    apply (perform_event P ws _ g e).
  - intros ws w st Hc Hw Ho Hh.
    rewrite (step_message P st ws w frame Hw Ho Hh), Hc, Hn.
    destruct st. apply (perform_event P ws _ g).
  - intros ws w st Hr Hc Hw Ho Hh.
    rewrite (step008_message P st ws w frame Hr Hw Ho Hh), Hc, Hn.
    destruct st. apply (perform_event P ws _ g).
  - intros ws e frame' Hc. rewrite onmessage_body_perform.
    now apply perform_no_event.
Qed.

Lemma C4_pushed_event_fields_witness :
  normalize Demo.platform 0 untimed_frame = DomainEvent (untimed_event "uuid-") true /\
  truthy (severity (untimed_event "uuid-")) = true.
Proof.
  split; [reflexivity|].
  apply (C4_pushed_event_fields Demo.platform 0 untimed_frame (untimed_event "uuid-") true).
  reflexivity.
Defined.

(** ** C5 *)

(** C5.  From any buffer, appending 100 + k events (k >= 1) one by one:
    every append puts the event at the head and keeps at most 99 of the
    old entries, the buffer holds at most 100 entries after each append,
    and at the end it holds exactly the last 100 appended events, newest
    first. *)
Theorem C5_buffer_keeps_newest_100
    (st : DashboardState) (evs : list DashboardEvent) (k : nat) :
  1 <= k ->
  length evs = 100 + k ->
  (forall e s, recentEvents (addEvent e s) = e :: take 99 (recentEvents s)) /\
  (forall n, 1 <= n -> length (recentEvents (addEvents (take n evs) st)) <= 100) /\
  length (recentEvents (addEvents evs st)) = 100 /\
  recentEvents (addEvents evs st) = rev (drop k evs).
Proof.
  intros Hk Hlen.
  assert (Hne : evs <> []) by (intros ->; cbn in Hlen; lia).
  split; [reflexivity|]. split; [|split].
  - intros n Hn. apply addEvents_length.
    destruct evs; [congruence|]. destruct n; [lia|]. discriminate.
  - rewrite addEvents_recent by exact Hne.
    rewrite length_take, length_app, length_rev. lia.
  - rewrite addEvents_recent by exact Hne.
    rewrite take_app_le by (rewrite length_rev; lia).
    rewrite <- (take_drop k evs) at 1.
    rewrite rev_app_distr.
    rewrite take_app_le by (rewrite length_rev, length_drop; lia).
    apply take_ge. rewrite length_rev, length_drop. lia.
Qed.

Lemma C5_buffer_keeps_newest_100_witness :
  let evs := map sample_event (seq 0 101) in
  1 <= 1 /\ length evs = 100 + 1 /\
  recentEvents (addEvents evs initialState) = rev (drop 1 evs).
Proof.
  split; [lia|]. split; [reflexivity|].
  apply (C5_buffer_keeps_newest_100 initialState (map sample_event (seq 0 101)) 1);
    [lia|reflexivity].
Defined.

(** ** C6 *)



(** ** C7 *)

(** C7.  A frame that [JSON.parse] rejects is classed [Unparseable]; in both
    hooks the handler returns normally and leaves the whole state as it was:
    event buffer, notifications, sockets, timers and refs. *)
Theorem C7_invalid_json_is_dropped (P : Platform) (ws : nat) (frame : string) :
  JSON_parse P frame = None ->
  (forall n, normalize P n frame = Unparseable) /\
  (forall st, UseWebSocket.ws_onmessage P ws frame st = (inr tt, st)) /\
  (forall st, UseWebSocket008.ws_onmessage P ws frame st = (inr tt, st)) /\
  (forall st, UseWebSocket.step P (UseWebSocket.Message ws frame) st = st) /\
  (forall st, UseWebSocket008.step P (UseWebSocket008.Message ws frame) st = st).
Proof.
  intros Hparse.
  assert (H1 : forall st, UseWebSocket.ws_onmessage P ws frame st = (inr tt, st)).
  { intros st. rewrite UseWebSocket_onmessage, normalize_unparsed by exact Hparse.
    now destruct st. }
  assert (H2 : forall st, UseWebSocket008.ws_onmessage P ws frame st = (inr tt, st)).
  { intros st. destruct (UseWebSocket008.isMountedRef st) eqn:Hm.
    - rewrite UseWebSocket008_onmessage, normalize_unparsed by assumption.
      now destruct st.
    - now apply UseWebSocket008_onmessage_unmounted. }
  split; [intros n; now apply normalize_unparsed|].
  split; [exact H1|]. split; [exact H2|]. split.
  - intros st. unfold UseWebSocket.step.
    destruct (sockets (UseWebSocket.env st) !! ws) as [w|]; [|reflexivity].
    destruct (readyState_is OPEN w); [|reflexivity].
    destruct (onmessage w); [|reflexivity].
    unfold exec. now rewrite H1.
  - intros st. unfold UseWebSocket008.step.
    destruct (sockets (UseWebSocket008.env st) !! ws) as [w|]; [|reflexivity].
    destruct (readyState_is OPEN w); [|reflexivity].
    destruct (onmessage w); [|reflexivity].
    unfold exec. now rewrite H2.
Qed.

Lemma C7_invalid_json_is_dropped_witness :
  JSON_parse Demo.platform "not json" = None /\
  forall st, UseWebSocket008.step Demo.platform
               (UseWebSocket008.Message 0 "not json") st = st.
Proof.
  split; [reflexivity|].
  apply (C7_invalid_json_is_dropped Demo.platform 0 "not json"). reflexivity.
Defined.

(** ** C8 *)

(** C8, as the claim states it, fails: with a token that makes the URL
    unacceptable to [new WebSocket], neither hook schedules a reconnect,
    although an abnormal closure would be retried.  (The timer of part_008
    is the one of 100 ms set on mount, which has fired.) *)
Lemma C8_no_retry_counterexample :
  let p := Demo.signed_in "a#b" in
  let st1 := UseWebSocket.mount Demo.platform p in
  let st2 :=
    UseWebSocket008.run Demo.platform [UseWebSocket008.TimeoutFires 0]
      (UseWebSocket008.mount p) in
  url_ok Demo.platform (UseWebSocket.wsUrl Demo.platform p) = false /\
  url_ok Demo.platform (UseWebSocket008.wsUrl Demo.platform p) = false /\
  shouldRetry 1006 false = true /\
  timeouts (UseWebSocket.env st1) = [] /\
  sockets (UseWebSocket.env st1) = [] /\
  timeouts (UseWebSocket008.env st2)
  = [ {| delay := 100; callback := p; pending := false |} ] /\
  sockets (UseWebSocket008.env st2) = [].
Proof. repeat split. Qed.

(** C8, amended.  When [new WebSocket] throws, [connect] of either hook
    catches the exception and returns; it creates no socket, touches
    neither the timers nor the store, and schedules no reconnect.  In
    part_008 it also clears [isConnectingRef], empties [wsRef] and leaves
    the attempt counter as it was. *)
Theorem C8_constructor_failure_is_caught (P : Platform) (p : Props) :
  token_truthy p = true -> enabled p = true ->
  (url_ok P (UseWebSocket.wsUrl P p) = false ->
   forall st,
     exists st',
       UseWebSocket.connect P p st = (inr tt, st') /\
       timeouts (UseWebSocket.env st') = timeouts (UseWebSocket.env st) /\
       length (sockets (UseWebSocket.env st')) = length (sockets (UseWebSocket.env st)) /\
       store (UseWebSocket.env st') = store (UseWebSocket.env st)) /\
  (url_ok P (UseWebSocket008.wsUrl P p) = false ->
   forall st,
     may_connect p st ->
     exists st',
       UseWebSocket008.connect P p st = (inr tt, st') /\
       timeouts (UseWebSocket008.env st') = timeouts (UseWebSocket008.env st) /\
       length (sockets (UseWebSocket008.env st'))
       = length (sockets (UseWebSocket008.env st)) /\
       store (UseWebSocket008.env st') = store (UseWebSocket008.env st) /\
       UseWebSocket008.reconnectAttemptsRef st' = UseWebSocket008.reconnectAttemptsRef st /\
       UseWebSocket008.isConnectingRef st' = false /\
       UseWebSocket008.wsRef st' = None).
Proof.
  intros Ht He. split.
  - intros Hu st. exists (plain_construction_failed st).
    split; [now apply connect_plain_throws|].
    unfold plain_construction_failed.
    destruct (UseWebSocket.wsRef st); cbn; rewrite ?length_alter; auto.
  - intros Hu st Hg. exists (construction_failed st).
    split; [now apply connect008_throws|].
    unfold construction_failed. cbn.
    destruct (UseWebSocket008.wsRef st); cbn; rewrite ?length_alter; auto 10.
Qed.

Lemma C8_constructor_failure_is_caught_witness :
  let p := Demo.signed_in "a#b" in
  token_truthy p = true /\ enabled p = true /\
  url_ok Demo.platform (UseWebSocket.wsUrl Demo.platform p) = false /\
  exists st',
    UseWebSocket.connect Demo.platform p UseWebSocket.initial = (inr tt, st') /\
    timeouts (UseWebSocket.env st') = timeouts (UseWebSocket.env UseWebSocket.initial) /\
    length (sockets (UseWebSocket.env st'))
    = length (sockets (UseWebSocket.env UseWebSocket.initial)) /\
    store (UseWebSocket.env st') = store (UseWebSocket.env UseWebSocket.initial).
Proof.
  split; [reflexivity|]. split; [reflexivity|]. split; [reflexivity|].
  apply (C8_constructor_failure_is_caught Demo.platform (Demo.signed_in "a#b"));
    reflexivity.
Defined.

(** ** C9 *)

(** C9, as the claim states it, fails in
    [frontend/src/hooks/useWebSocket.ts].  Started again while its socket is
    connecting, the hook closes that socket and creates another; and after
    the token changed twice, with the close event of the first socket in
    between, two sockets are connecting at once. *)
Lemma C9_restart_counterexample :
  let p := Demo.signed_in "tok" in
  let st1 := UseWebSocket.mount Demo.platform p in
  let st2 := exec (UseWebSocket.connect Demo.platform p) st1 in
  let st3 :=
    UseWebSocket.run Demo.platform
      [UseWebSocket.Rerender (Demo.signed_in "tok2");
       UseWebSocket.Closed 0 1000 true;
       UseWebSocket.Rerender (Demo.signed_in "tok3")] st1 in
  (map readyState (sockets (UseWebSocket.env st1)) = [CONNECTING] /\
   map readyState (sockets (UseWebSocket.env st2)) = [CLOSING; CONNECTING] /\
   st2 <> st1) /\
  (map readyState (sockets (UseWebSocket.env st3)) = [CLOSED; CONNECTING; CONNECTING] /\
   ~ at_most_one_live (sockets (UseWebSocket.env st3))).
Proof.
  split; [split; [reflexivity|split; [reflexivity|]]|split; [reflexivity|]].
  - intros H. apply (f_equal UseWebSocket.wsRef) in H. discriminate H.
  - intros H.
    match goal with
    | H : at_most_one_live ?l |- _ =>
        assert (Hl : exists w1 w2, l !! 1 = Some w1 /\ l !! 2 = Some w2 /\
                                   live w1 = true /\ live w2 = true)
          by (eexists _, _; repeat split; reflexivity)
    end.
    destruct Hl as (w1 & w2 & H1 & H2 & L1 & L2).
    discriminate (H 1 2 w1 w2 H1 H2 L1 L2).
Qed.

(** C9, amended.  In part_008, [connect] is a no-op while the socket held
    in [wsRef] is connecting or open; when it creates a socket in a state
    the hook has reached, exactly one socket is live afterwards and a second
    call changes nothing; and in every state the hook reaches from its
    mount, whatever the renders, timers and socket events, at most one
    socket is connecting or open.  In
    [frontend/src/hooks/useWebSocket.ts], [connect] is never a no-op for a
    signed-in, enabled render: it closes the socket held in [wsRef] and then
    creates a new, connecting one, which [wsRef] holds afterwards. *)
Theorem C9_single_transport (P : Platform) (p : Props) :
  (forall st,
     UseWebSocket008.current_readyState st = Some CONNECTING \/
     UseWebSocket008.current_readyState st = Some OPEN ->
     UseWebSocket008.connect P p st = (inr tt, st)) /\
  (forall st,
     reachable008 P st -> may_connect p st ->
     url_ok P (UseWebSocket008.wsUrl P p) = true ->
     let st1 := exec (UseWebSocket008.connect P p) st in
     exactly_one_live (sockets (UseWebSocket008.env st1)) /\
     UseWebSocket008.connect P p st1 = (inr tt, st1)) /\
  (forall p0 evs,
     at_most_one_live
       (sockets (UseWebSocket008.env
                   (UseWebSocket008.run P evs (UseWebSocket008.mount p0))))) /\
  (forall st,
     token_truthy p = true -> enabled p = true ->
     url_ok P (UseWebSocket.wsUrl P p) = true ->
     let st1 := exec (UseWebSocket.connect P p) st in
     let n := length (sockets (UseWebSocket.env st)) in
     UseWebSocket.wsRef st1 = Some n /\
     sockets (UseWebSocket.env st1) !! n = Some (fresh_socket (UseWebSocket.wsUrl P p) p) /\
     forall ws w, UseWebSocket.wsRef st = Some ws ->
                  sockets (UseWebSocket.env st) !! ws = Some w ->
                  sockets (UseWebSocket.env st1) !! ws = Some (ws_close_socket w) /\
                  live (ws_close_socket w) = false).
Proof.
  split; [intros st; apply connect008_noop|].
  split; [|split].
  - intros st Hr Hg Hu st1.
    pose proof (proj1 (reachable008_Good P st Hr)) as HI.
    assert (Hst1 : st1 = connected P p st).
    { unfold st1, exec. now rewrite connect008_creates. }
    split.
    + set (l := detach (UseWebSocket008.wsRef st) (sockets (UseWebSocket008.env st))).
      assert (Hnew : sockets (UseWebSocket008.env st1) !! length l
                     = Some (fresh_socket (UseWebSocket008.wsUrl P p) p)).
      { rewrite Hst1. cbn. fold l. now rewrite list_lookup_middle. }
      exists (length l), (fresh_socket (UseWebSocket008.wsUrl P p) p).
      split; [exact Hnew|]. split; [reflexivity|].
      intros ws' w' Hw' Hl'.
      assert (HI1 : Inv008 st1) by (apply connect008_Inv; exact HI).
      apply (Owned_at_most_one_live _ _ HI1 ws' (length l) w' _ Hw' Hnew Hl').
      reflexivity.
    + apply connect008_busy. now rewrite Hst1.
  - intros p0 evs. eapply Owned_at_most_one_live.
    apply run008_Inv, mount008_Inv.
  - intros st Ht He Hu st1 n.
    assert (Hst1 : st1 = plain_connected P p st).
    { unfold st1, exec. now rewrite connect_plain_creates. }
    rewrite Hst1. unfold plain_connected, n.
    destruct (UseWebSocket.wsRef st) as [ws0|] eqn:Hcur; cbn.
    + rewrite length_alter. split; [reflexivity|]. split.
      * rewrite <- (length_alter ws_close_socket (sockets (UseWebSocket.env st)) ws0).
        now rewrite list_lookup_middle.
      * intros ws w Hws Hw. injection Hws as ->. split.
        -- rewrite lookup_app_l
             by (rewrite length_alter; now apply lookup_lt_Some in Hw).
           now rewrite list_lookup_alter_eq, Hw.
        -- unfold ws_close_socket. destruct (live w) eqn:Hl; [reflexivity|exact Hl].
    + split; [reflexivity|]. split; [now rewrite list_lookup_middle|].
      intros ws w Hws. discriminate Hws.
Qed.

Lemma C9_single_transport_witness :
  let st := UseWebSocket008.run Demo.platform [UseWebSocket008.TimeoutFires 0]
              (UseWebSocket008.mount (Demo.signed_in "tok")) in
  UseWebSocket008.current_readyState st = Some CONNECTING /\
  UseWebSocket008.connect Demo.platform (Demo.signed_in "tok") st = (inr tt, st).
Proof.
  intros st. split; [reflexivity|].
  apply (proj1 (C9_single_transport Demo.platform (Demo.signed_in "tok"))).
  left. reflexivity.
Defined.

(** ** C10 *)

(** C10.  [addEvent] and [clearEvents] change nothing but [recentEvents];
    [addNotification], [removeNotification] and [clearNotifications] change
    nothing but [notifications]. *)
Theorem C10_reducers_touch_one_field
    (st : DashboardState) (ev : DashboardEvent)
    (uuid now : string) (payload : NotificationPayload) (nid : string) :
  touches_only_recentEvents st (addEvent ev st) /\
  touches_only_recentEvents st (clearEvents st) /\
  touches_only_notifications st (addNotification uuid now payload st) /\
  touches_only_notifications st (removeNotification nid st) /\
  touches_only_notifications st (clearNotifications st).
Proof. repeat split. Qed.

(** * The states the hooks reach, change by change *)

Lemma live_silenced w : live (silenced w) = live w.
Proof. reflexivity. Qed.

Lemma alter_silenced_close ws (sk : list WebSocket) :
  alter (fun w => ws_close_socket (silenced w)) ws sk
  = match readyState <$> sk !! ws with
    | Some CONNECTING | Some OPEN =>
        alter ws_close_socket ws
          (alter (set_onopen None ∘ set_onmessage None ∘ set_onerror None
                  ∘ set_onclose None) ws sk)
    | _ => alter (set_onopen None ∘ set_onmessage None ∘ set_onerror None
                  ∘ set_onclose None) ws sk
    end.
Proof.
  destruct (sk !! ws) as [w|] eqn:Hw; cbn.
  - destruct (readyState w) eqn:Hrs; rewrite ?list_alter_alter_eq;
      (apply list_alter_ext; [|reflexivity]); intros x Hx; rewrite Hw in Hx;
      injection Hx as <-; destruct w as [u rs oo om oc oe sn]; cbn in Hrs; subst rs;
      reflexivity.
  - apply list_alter_ext; [|reflexivity]. intros x Hx. rewrite Hw in Hx. discriminate.
Qed.

Lemma cleanup008_cleaned st :
  UseWebSocket008.cleanup st = (inr tt, cleaned st).
Proof.
  unfold UseWebSocket008.cleanup, cleaned, bind, gets,
    UseWebSocket008.lift, UseWebSocket008.when_some, UseWebSocket008.current_readyState.
  destruct st as [[ws|] [rt|] a c m [pi|] mc pr [sk tm iv sto cl]]; cbn; try reflexivity.
  all: rewrite alter_silenced_close, ?list_lookup_alter_eq.
  all: destruct (sk !! ws) as [w|] eqn:Hw; cbn;
    [destruct (readyState w) eqn:Hrs; cbn|]; rewrite ?list_alter_alter_eq; reflexivity.
Qed.

Lemma chain_one {S : Type} (R : S -> S -> Prop) s s' : R s s' -> chain R s s'.
Proof. intros H. eapply chain_then; [exact H|apply chain_done]. Qed.

Lemma chain_app {S : Type} (R : S -> S -> Prop) s1 s2 s3 :
  chain R s1 s2 -> chain R s2 s3 -> chain R s1 s3.
Proof.
  induction 1 as [|a b c Hab Hbc IH]; [auto|].
  intros H. eapply chain_then; [exact Hab|auto].
Qed.

Lemma chain_mono {S : Type} (R R' : S -> S -> Prop) s s' :
  (forall a b, R a b -> R' a b) -> chain R s s' -> chain R' s s'.
Proof.
  intros HR. induction 1 as [|a b c Hab Hbc IH]; [apply chain_done|].
  eapply chain_then; [apply HR, Hab|exact IH].
Qed.

(** What every change keeps, the whole sequence keeps. *)
Lemma chain_inv {S : Type} (R : S -> S -> Prop) (I : S -> Prop) s s' :
  (forall a b, R a b -> I a -> I b) -> chain R s s' -> I s -> I s'.
Proof. intros HR. induction 1 as [|a b c Hab Hbc IH]; eauto. Qed.

Section Acts008Facts.

Variable P : Platform.

Lemma onopen008_mounted ws st :
  UseWebSocket008.isMountedRef st = true ->
  UseWebSocket008.ws_onopen P ws st = (inr tt, welcomed P st).
Proof.
  intros Hm. unfold UseWebSocket008.ws_onopen, welcomed, bind, gets,
    UseWebSocket008.lift, UseWebSocket008.when_some.
  rewrite Hm. cbn [negb].
  destruct st as [cur rt a c m [pi|] mc pr [sk tm iv sto cl]]; cbn in *; subst;
    rewrite ?length_alter; reflexivity.
Qed.

Lemma onopen008_unmounted ws st :
  UseWebSocket008.isMountedRef st = false ->
  UseWebSocket008.ws_onopen P ws st
  = (inr tt, UseWebSocket008.set_env
               (set_sockets (alter ws_close_socket ws) (UseWebSocket008.env st)) st).
Proof.
  intros Hm. unfold UseWebSocket008.ws_onopen, bind, gets. now rewrite Hm.
Qed.

Lemma main_effect008_run p st :
  UseWebSocket008.main_effect p st = (inr tt, effect_run p st).
Proof.
  unfold UseWebSocket008.main_effect, effect_run, signed_in_and_enabled, bind,
    UseWebSocket008.lift.
  destruct (enabled p && isAuthenticated p && token_truthy p); reflexivity.
Qed.

Lemma connect008_acts p st : chain (Handler008 P) st (exec (UseWebSocket008.connect P p) st).
Proof.
  unfold exec.
  destruct (connect008_cases P p st) as [H | [H | [[Hg H] | [Hg H]]]].
  - rewrite H. apply chain_done.
  - rewrite H. apply chain_one, Act_gave_up.
  - destruct (url_ok P (UseWebSocket008.wsUrl P p)) eqn:Hu.
    + rewrite H. apply chain_one. now apply Act_connected.
    + rewrite (connect008_throws P p st Hg Hu).
      apply chain_one. now apply (Act_construction_failed P st p).
  - rewrite H. apply chain_one. now apply (Act_construction_failed P st p).
Qed.

Lemma timer008_acts p st :
  chain (Handler008 P) st (exec (UseWebSocket008.timer_callback P p) st).
Proof.
  unfold exec, UseWebSocket008.timer_callback, bind, gets.
  destruct (UseWebSocket008.isMountedRef st); [apply connect008_acts|apply chain_done].
Qed.

Lemma ping008_acts st :
  chain (Handler008 P) st (exec UseWebSocket008.ping_callback st).
Proof.
  unfold exec, UseWebSocket008.ping_callback, bind, gets,
    UseWebSocket008.lift, UseWebSocket008.current_readyState, ws_send.
  destruct (UseWebSocket008.wsRef st) as [ws|] eqn:Hcur; [|apply chain_done].
  destruct (sockets (UseWebSocket008.env st) !! ws) as [w|] eqn:Hw; cbn;
    [|apply chain_done].
  destruct (readyState w) eqn:Hrs; cbn; try apply chain_done.
  rewrite Hw, Hrs. cbn. apply chain_one. now apply (Act_ping P st ws w).
Qed.

(** A socket that is not closed and has its close handler is the current
    one, of a mounted hook, and its handler comes from an enabled render. *)
Lemma Good008_handler st ws w p :
  Good008 st ->
  sockets (UseWebSocket008.env st) !! ws = Some w ->
  readyState_is CLOSED w = false ->
  onclose w = Some p ->
  UseWebSocket008.wsRef st = Some ws /\
  UseWebSocket008.isMountedRef st = true /\
  enabled p = true.
Proof.
  intros (HI & HM & HH) Hw Hc Hp.
  assert (Hcur : UseWebSocket008.wsRef st = Some ws).
  { apply (HI ws w Hw). unfold busy. rewrite Hc, Hp. cbn. now destruct (live w). }
  split; [exact Hcur|]. split; [|now apply (HH ws w p)].
  destruct (UseWebSocket008.isMountedRef st); [reflexivity|].
  rewrite HM in Hcur by reflexivity. discriminate.
Qed.

Lemma step008_handler_acts ev st :
  Good008 st -> from_browser ev = true ->
  chain (Handler008 P) st (UseWebSocket008.step P ev st).
Proof.
  intros HG Hev.
  destruct ev as [p'| |t|i|ws|ws frame|ws|ws code wasClean]; try discriminate;
    cbv beta iota delta [UseWebSocket008.step].
  - destruct (timeouts (UseWebSocket008.env st) !! t) as [tm|]; [|apply chain_done].
    destruct (pending tm); [|apply chain_done].
    rewrite exec_seq by reflexivity.
    eapply chain_then; [apply (Act_timer_off P st t)|]. apply timer008_acts.
  - destruct (intervals (UseWebSocket008.env st) !! i) as [iv|]; [|apply chain_done].
    destruct (active iv); [apply ping008_acts|apply chain_done].
  - destruct (sockets (UseWebSocket008.env st) !! ws) as [w|] eqn:Hw; [|apply chain_done].
    destruct (readyState_is CONNECTING w) eqn:Hc; [|apply chain_done].
    rewrite exec_seq by reflexivity.
    eapply chain_then.
    { apply (Act_open P st ws w Hw). unfold readyState_is in Hc.
      now destruct (readyState w). }
    destruct (onopen w); [|apply chain_done].
    unfold exec at 1. set (st1 := exec _ st).
    destruct (UseWebSocket008.isMountedRef st1) eqn:Hm.
    + rewrite onopen008_mounted by exact Hm. apply chain_one. now apply Act_welcomed.
    + rewrite onopen008_unmounted by exact Hm. apply chain_one, Act_closing.
  - destruct (sockets (UseWebSocket008.env st) !! ws) as [w|] eqn:Hw; [|apply chain_done].
    destruct (readyState_is OPEN w); [|apply chain_done].
    destruct (onmessage w); [|apply chain_done].
    unfold exec. destruct (UseWebSocket008.isMountedRef st) eqn:Hm.
    + rewrite UseWebSocket008_onmessage by exact Hm. apply chain_one, Act_message.
    + rewrite UseWebSocket008_onmessage_unmounted by exact Hm. apply chain_done.
  - destruct (sockets (UseWebSocket008.env st) !! ws) as [w|] eqn:Hw; [|apply chain_done].
    destruct (onerror w); [|apply chain_done]. apply chain_one, Act_error.
  - destruct (sockets (UseWebSocket008.env st) !! ws) as [w|] eqn:Hw; [|apply chain_done].
    destruct (readyState_is CLOSED w) eqn:Hc; [apply chain_done|].
    rewrite exec_seq by reflexivity.
    eapply chain_then; [apply (Act_closed P st ws)|].
    destruct (onclose w) as [p|] eqn:Hp; [|apply chain_done].
    destruct (Good008_handler st ws w p HG Hw Hc Hp) as (Hcur & Hm & He).
    change (exec (UseWebSocket008.lift (ws_alter (set_readyState CLOSED) ws)) st)
      with (UseWebSocket008.set_env (closed_socket ws (UseWebSocket008.env st)) st).
    unfold exec. set (st1 := UseWebSocket008.set_env _ st).
    assert (Hm1 : UseWebSocket008.isMountedRef st1 = true) by (destruct st; exact Hm).
    assert (Hcur1 : UseWebSocket008.wsRef st1 <> None)
      by (unfold st1; destruct st; cbn in *; congruence).
    clearbody st1.
    destruct (shouldRetry code wasClean) eqn:Hs.
    + rewrite onclose008_retries by assumption. apply chain_one. now apply Act_retry.
    + rewrite onclose008_settles by assumption. apply chain_one. now apply Act_settled.
Qed.

Lemma main_cleanup008_acts st :
  chain (Act008 P) st (exec UseWebSocket008.main_cleanup st).
Proof.
  unfold exec, UseWebSocket008.main_cleanup, bind, gets.
  destruct (UseWebSocket008.mainCleanup st) as [[t|]|]; cbn [snd].
  - apply chain_one. left. apply (Act_timer_off P st t).
  - unfold UseWebSocket008.unmount_cleanup.
    eapply chain_then; [right; apply (Act_unmounted st)|].
    change (snd ((modify (UseWebSocket008.set_isMountedRef false) ;;; UseWebSocket008.cleanup)%js st))
      with (snd (UseWebSocket008.cleanup (UseWebSocket008.set_isMountedRef false st))).
    rewrite cleanup008_cleaned. apply chain_one. right. apply Act_cleaned.
  - apply chain_done.
Qed.

Lemma step008_acts ev st :
  Good008 st -> chain (Act008 P) st (UseWebSocket008.step P ev st).
Proof.
  intros HG.
  destruct (from_browser ev) eqn:Hev.
  { eapply chain_mono; [|now apply step008_handler_acts]. intros a b H. now left. }
  destruct ev as [p'| |t|i|ws|ws frame|ws|ws code wasClean]; try discriminate;
    cbv beta iota delta [UseWebSocket008.step].
  - destruct (UseWebSocket008.props st) as [p|]; [|apply chain_done].
    destruct (UseWebSocket008.same_props p p'); [apply chain_done|].
    rewrite exec_seq by apply main_cleanup008_returns.
    eapply chain_then; [right; apply (Act_props st (Some p'))|].
    eapply chain_app; [apply main_cleanup008_acts|].
    match goal with
    | |- chain _ ?a (exec (UseWebSocket008.main_effect ?q) ?b) =>
        change (chain (Act008 P) a (snd (UseWebSocket008.main_effect q b)))
    end.
    rewrite main_effect008_run. apply chain_one. right. apply Act_effect.
  - destruct (UseWebSocket008.props st) as [p|]; [|apply chain_done].
    rewrite exec_seq by apply main_cleanup008_returns.
    eapply chain_then; [right; apply (Act_props st None)|].
    eapply chain_app; [apply main_cleanup008_acts|].
    set (st1 := exec UseWebSocket008.main_cleanup _).
    eapply chain_then; [right; apply (Act_unmounted st1)|].
    change (exec UseWebSocket008.unmount_cleanup st1)
      with (snd (UseWebSocket008.cleanup (UseWebSocket008.set_isMountedRef false st1))).
    rewrite cleanup008_cleaned. apply chain_one. right. apply Act_cleaned.
Qed.

Lemma mount008_acts p :
  chain (Act008 P) UseWebSocket008.initial (UseWebSocket008.mount p).
Proof.
  unfold UseWebSocket008.mount, exec. rewrite main_effect008_run.
  eapply chain_then; [right; apply (Act_props _ (Some p))|].
  apply chain_one. right. apply Act_effect.
Qed.

(** What the initial state has and every change keeps holds in every state
    the hook reaches. *)
Lemma reachable008_ind (I : UseWebSocket008.State -> Prop) :
  I UseWebSocket008.initial ->
  (forall a b, Act008 P a b -> I a -> I b) ->
  forall st, reachable008 P st -> I st.
Proof.
  intros H0 Hstep st (p & evs & ->).
  assert (Hm : I (UseWebSocket008.mount p) /\ Good008 (UseWebSocket008.mount p)).
  { split.
    - eapply chain_inv; [exact Hstep|apply mount008_acts|exact H0].
    - apply (reachable008_Good P). exists p, []. reflexivity. }
  revert Hm. unfold UseWebSocket008.run. generalize (UseWebSocket008.mount p).
  induction evs as [|ev evs IH]; intros st [HI HG]; cbn; [exact HI|].
  apply IH. split.
  - eapply chain_inv; [exact Hstep|now apply step008_acts|exact HI].
  - now apply step008_Good.
Qed.

End Acts008Facts.

(** ** What the handlers of part_008 keep *)

Section Kept008.

Variable P : Platform.

Lemma perform_frame ws c e :
  timeouts (snd (perform P ws c e)) = timeouts e /\
  intervals (snd (perform P ws c e)) = intervals e.
Proof.
  destruct c as [| |ev g|]; cbn; auto.
  - unfold try_catch, ws_send.
    destruct (sockets e !! ws) as [w|]; [|now split].
    destruct (readyState w); now split.
  - destruct (perform_event P ws ev g e) as (_ & H1 & H2 & _). now split.
Qed.

Lemma KeepAlive_off ref l :
  KeepAlive ref l ->
  forall i iv,
    match ref with
    | Some j => alter (set_active false) j l
    | None => l
    end !! i = Some iv ->
    period iv = 25000%Z /\ active iv = false.
Proof.
  intros H i iv Hl. destruct ref as [j|].
  - destruct (decide (j = i)) as [->|Hne].
    + rewrite list_lookup_alter_eq in Hl.
      destruct (l !! i) as [iv0|] eqn:H0; [|discriminate].
      cbn in Hl. injection Hl as <-. cbn. split; [apply (H i iv0 H0)|reflexivity].
    + rewrite list_lookup_alter_ne in Hl by exact Hne.
      destruct (H i iv Hl) as [Hp Ha]. split; [exact Hp|].
      destruct (active iv); [|reflexivity]. specialize (Ha eq_refl). congruence.
  - destruct (H i iv Hl) as [Hp Ha]. split; [exact Hp|].
    destruct (active iv); [|reflexivity]. specialize (Ha eq_refl). discriminate.
Qed.

Lemma KeepAlive_cleared ref l :
  KeepAlive ref l ->
  KeepAlive None match ref with
                 | Some j => alter (set_active false) j l
                 | None => l
                 end.
Proof.
  intros H i iv Hl. destruct (KeepAlive_off ref l H i iv Hl) as [Hp Ha].
  split; [exact Hp|]. rewrite Ha. discriminate.
Qed.

Lemma KeepAlive_restarted ref l :
  KeepAlive ref l ->
  KeepAlive (Some (length l))
    (match ref with
     | Some j => alter (set_active false) j l
     | None => l
     end ++ [ {| period := 25000; active := true |} ]).
Proof.
  intros H i iv Hl.
  apply lookup_app_Some in Hl as [Hl | [Hge Hl]].
  - destruct (KeepAlive_off ref l H i iv Hl) as [Hp Ha].
    split; [exact Hp|]. rewrite Ha. discriminate.
  - apply list_lookup_singleton_Some in Hl as [Hi <-]. cbn. split; [reflexivity|].
    intros _. f_equal.
    assert (Hlen : length match ref with
                          | Some j => alter (set_active false) j l
                          | None => l
                          end = length l)
      by (destruct ref; [apply length_alter|reflexivity]).
    lia.
Qed.

Lemma settled_after_close_intervals st :
  intervals (UseWebSocket008.env (settled_after_close st))
  = match UseWebSocket008.pingIntervalRef st with
    | Some j => alter (set_active false) j (intervals (UseWebSocket008.env st))
    | None => intervals (UseWebSocket008.env st)
    end.
Proof.
  unfold settled_after_close. cbn.
  destruct (UseWebSocket008.pingIntervalRef st); reflexivity.
Qed.

Lemma retry_scheduled_intervals p st :
  intervals (UseWebSocket008.env (retry_scheduled p st))
  = match UseWebSocket008.pingIntervalRef st with
    | Some j => alter (set_active false) j (intervals (UseWebSocket008.env st))
    | None => intervals (UseWebSocket008.env st)
    end.
Proof.
  unfold retry_scheduled, settled_after_close. cbn.
  destruct (UseWebSocket008.pingIntervalRef st); reflexivity.
Qed.

Lemma retry_scheduled_sockets p st :
  sockets (UseWebSocket008.env (retry_scheduled p st))
  = sockets (UseWebSocket008.env st).
Proof.
  unfold retry_scheduled, settled_after_close. cbn.
  destruct (UseWebSocket008.pingIntervalRef st); reflexivity.
Qed.

Lemma settled_after_close_store st :
  store (UseWebSocket008.env (settled_after_close st)) = store (UseWebSocket008.env st).
Proof.
  unfold settled_after_close. cbn.
  destruct (UseWebSocket008.pingIntervalRef st); reflexivity.
Qed.

Lemma retry_scheduled_store p st :
  store (UseWebSocket008.env (retry_scheduled p st)) = store (UseWebSocket008.env st).
Proof.
  unfold retry_scheduled, settled_after_close. cbn.
  destruct (UseWebSocket008.pingIntervalRef st); reflexivity.
Qed.

Lemma construction_failed_env st :
  timeouts (UseWebSocket008.env (construction_failed st))
  = timeouts (UseWebSocket008.env st) /\
  intervals (UseWebSocket008.env (construction_failed st))
  = intervals (UseWebSocket008.env st) /\
  store (UseWebSocket008.env (construction_failed st))
  = store (UseWebSocket008.env st) /\
  sockets (UseWebSocket008.env (construction_failed st))
  = detach (UseWebSocket008.wsRef st) (sockets (UseWebSocket008.env st)).
Proof.
  unfold construction_failed, detach. cbn.
  destruct (UseWebSocket008.wsRef st); repeat split; reflexivity.
Qed.

Lemma Handler008_KeepAlive a b :
  Handler008 P a b ->
  KeepAlive (UseWebSocket008.pingIntervalRef a) (intervals (UseWebSocket008.env a)) ->
  KeepAlive (UseWebSocket008.pingIntervalRef b) (intervals (UseWebSocket008.env b)).
Proof.
  intros Hact H.
  destruct Hact as [st t|st|st p Hg Hu|st p Hg|st ws w Hc Hw Ho|st ws w Hw Hc|st Hm
                   |st ws|st ws c|st|st ws|st p Hc Hm He|st Hm]; try exact H.
  - now rewrite (proj1 (proj2 (construction_failed_env st))).
  - now apply KeepAlive_restarted.
  - cbn. now rewrite (proj2 (perform_frame _ _ _)).
  - rewrite retry_scheduled_intervals. now apply KeepAlive_cleared.
  - rewrite settled_after_close_intervals. now apply KeepAlive_cleared.
Qed.

Lemma React008_KeepAlive a b :
  React008 a b ->
  KeepAlive (UseWebSocket008.pingIntervalRef a) (intervals (UseWebSocket008.env a)) ->
  KeepAlive (UseWebSocket008.pingIntervalRef b) (intervals (UseWebSocket008.env b)).
Proof.
  intros Hact H. destruct Hact as [st o|st|st|st p]; try exact H.
  - now apply KeepAlive_cleared.
  - unfold effect_run. destruct (signed_in_and_enabled p); exact H.
Qed.

Lemma reachable008_KeepAlive st :
  reachable008 P st ->
  KeepAlive (UseWebSocket008.pingIntervalRef st) (intervals (UseWebSocket008.env st)).
Proof.
  apply (reachable008_ind P
           (fun st => KeepAlive (UseWebSocket008.pingIntervalRef st)
                                (intervals (UseWebSocket008.env st)))).
  - intros i iv Hl. cbn in Hl. now rewrite lookup_nil in Hl.
  - intros a b [Hact|Hact]; [now apply Handler008_KeepAlive|now apply React008_KeepAlive].
Qed.

Lemma KeepAlive_one ref l : KeepAlive ref l -> at_most_one_active l.
Proof.
  intros H i j a b Hi Hj Ha Hb.
  pose proof (proj2 (H i a Hi) Ha). pose proof (proj2 (H j b Hj) Hb). congruence.
Qed.

(** *** The attempt counter and the delays *)

Lemma delay_timer_off (t : nat) (l : list Timeout) (i : nat) (tm : Timeout) :
  alter (set_pending false) t l !! i = Some tm ->
  exists tm0, l !! i = Some tm0 /\ delay tm = delay tm0.
Proof.
  intros Hl. destruct (decide (t = i)) as [->|Hne].
  - rewrite list_lookup_alter_eq in Hl.
    destruct (l !! i) as [tm0|]; [|discriminate].
    cbn in Hl. injection Hl as <-. now exists tm0.
  - rewrite list_lookup_alter_ne in Hl by exact Hne. now exists tm.
Qed.

Lemma reconnect_delay_in_delays008 n :
  1 <= n <= 5 -> In (UseWebSocket008.reconnect_delay n) delays008.
Proof.
  intros Hn. destruct n as [|[|[|[|[|[|n]]]]]]; try lia; cbn; auto 10.
Qed.

Lemma Handler008_Attempts a b : Handler008 P a b -> Attempts008 a -> Attempts008 b.
Proof.
  unfold Attempts008, UseWebSocket008.MAX_RECONNECT_ATTEMPTS.
  intros Hact (Hle & Hlt & Ht).
  destruct Hact as [st t|st|st p Hg Hu|st p Hg|st ws w Hc Hw Ho|st ws w Hw Hc|st Hm
                   |st ws|st ws c|st|st ws|st p Hc Hm He|st Hm].
  - split; [exact Hle|]. split; [exact Hlt|]. intros i tm Hl. cbn in Hl.
    apply delay_timer_off in Hl as (tm0 & Hl & ->). eauto.
  - split; [exact Hle|]. split; [exact Hlt|]. exact Ht.
  - destruct Hg as (_ & _ & _ & _ & _ & _ & _ & Hn).
    unfold UseWebSocket008.MAX_RECONNECT_ATTEMPTS in Hn.
    split; [exact Hle|]. split; [intros _; exact Hn|]. exact Ht.
  - split; [exact Hle|]. split; [intros H; now destruct H|].
    rewrite (proj1 (construction_failed_env st)). exact Ht.
  - split; [exact Hle|]. split; [exact Hlt|]. exact Ht.
  - split; [exact Hle|]. split; [exact Hlt|]. exact Ht.
  - split; [cbn; lia|]. split; [intros _; cbn; lia|]. exact Ht.
  - split; [exact Hle|]. split; [exact Hlt|]. exact Ht.
  - split; [exact Hle|]. split; [exact Hlt|].
    cbn. rewrite (proj1 (perform_frame _ _ _)). exact Ht.
  - split; [exact Hle|]. split; [exact Hlt|]. exact Ht.
  - split; [exact Hle|]. split; [exact Hlt|]. exact Ht.
  - specialize (Hlt Hc).
    split; [cbn; lia|]. split; [intros H; now destruct H|].
    intros i tm. rewrite retry_scheduled_timeouts. intros Hl.
    apply lookup_app_Some in Hl as [Hl | [_ Hl]]; [eauto|].
    apply list_lookup_singleton_Some in Hl as [_ <-]. cbn [delay].
    apply reconnect_delay_in_delays008. lia.
  - split; [exact Hle|]. split; [intros H; now destruct H|].
    rewrite settled_after_close_timeouts. exact Ht.
Qed.

Lemma React008_Attempts a b : React008 a b -> Attempts008 a -> Attempts008 b.
Proof.
  unfold Attempts008, UseWebSocket008.MAX_RECONNECT_ATTEMPTS.
  intros Hact (Hle & Hlt & Ht). destruct Hact as [st o|st|st|st p].
  - split; [exact Hle|]. split; [exact Hlt|]. exact Ht.
  - split; [exact Hle|]. split; [exact Hlt|]. exact Ht.
  - split; [exact Hle|]. split; [intros H; now destruct H|].
    intros i tm Hl. cbn in Hl.
    destruct (UseWebSocket008.reconnectTimeoutRef st); [|eauto].
    apply delay_timer_off in Hl as (tm0 & Hl & ->). eauto.
  - unfold effect_run. destruct (signed_in_and_enabled p).
    + split; [exact Hle|]. split; [exact Hlt|]. intros i tm Hl. cbn in Hl.
      apply lookup_app_Some in Hl as [Hl | [_ Hl]]; [eauto|].
      apply list_lookup_singleton_Some in Hl as [_ <-]. cbn. auto.
    + split; [exact Hle|]. split; [exact Hlt|]. exact Ht.
Qed.

Lemma reachable008_Attempts st : reachable008 P st -> Attempts008 st.
Proof.
  apply (reachable008_ind P Attempts008).
  - unfold Attempts008, UseWebSocket008.MAX_RECONNECT_ATTEMPTS.
    split; [cbn; lia|].
    split; [intros H; now destruct H|].
    intros t tm Hl. cbn in Hl. now rewrite lookup_nil in Hl.
  - intros a b [Hact|Hact]; [now apply Handler008_Attempts|now apply React008_Attempts].
Qed.

(** *** The sockets *)

Lemma socket_kept_alter (Q : WebSocket -> Prop) (f : WebSocket -> WebSocket) i l :
  (forall w, Q w -> Q (f w)) -> socket_kept Q l -> socket_kept Q (alter f i l).
Proof.
  intros Hf H ws w Hw. destruct (decide (i = ws)) as [->|Hne].
  - rewrite list_lookup_alter_eq in Hw.
    destruct (l !! ws) as [w0|] eqn:Hw0; [|discriminate].
    cbn in Hw. injection Hw as <-. eauto.
  - rewrite list_lookup_alter_ne in Hw by exact Hne. eauto.
Qed.

Lemma socket_kept_new (Q : WebSocket -> Prop) l w :
  socket_kept Q l -> Q w -> socket_kept Q (l ++ [w]).
Proof.
  intros H Hw ws w' Hl.
  apply lookup_app_Some in Hl as [Hl | [_ Hl]]; [eauto|].
  apply list_lookup_singleton_Some in Hl as [_ <-]. exact Hw.
Qed.

End Kept008.

Lemma quiet_change_kept (Q : WebSocket -> Prop) (f : WebSocket -> WebSocket) :
  (forall w w', url w' = url w -> sent w' = sent w \/ sent w' = sent w ++ ["ping"] ->
                Q w -> Q w') ->
  quiet_change f -> forall w, Q w -> Q (f w).
Proof. intros HQ Hf w Hw. destruct (Hf w) as [Hu Hs]. eauto. Qed.

Lemma quiet_ws_close_socket : quiet_change ws_close_socket.
Proof. intros w. unfold ws_close_socket. destruct (live w); cbn; auto. Qed.

Lemma quiet_compose f g : quiet_change f -> quiet_change g ->
  (forall w, sent (f w) = sent w) -> quiet_change (fun w => f (g w)).
Proof.
  intros Hf Hg Hs w. destruct (Hf (g w)) as [Hu _], (Hg w) as [Hu' Hs'].
  split; [congruence|]. rewrite Hs. exact Hs'.
Qed.

Section Sockets008.

Variable P : Platform.
Variable Q : WebSocket -> Prop.

Hypothesis Q_quiet :
  forall w w', url w' = url w ->
               sent w' = sent w \/ sent w' = sent w ++ ["ping"] -> Q w -> Q w'.

Lemma kept_same_frames (f : WebSocket -> WebSocket) :
  (forall w, url (f w) = url w /\ sent (f w) = sent w) -> forall w, Q w -> Q (f w).
Proof. intros Hf w. destruct (Hf w) as [Hu Hs]. apply Q_quiet; auto. Qed.

Lemma kept_closed w : Q w -> Q (ws_close_socket w).
Proof.
  apply (kept_same_frames ws_close_socket). clear w. intros w.
  unfold ws_close_socket. destruct (live w); now split.
Qed.

Lemma kept_detach cur l : socket_kept Q l -> socket_kept Q (detach cur l).
Proof.
  intros H. destruct cur as [ws|]; [|exact H]. cbn.
  apply socket_kept_alter; [apply kept_closed|].
  apply socket_kept_alter; [|exact H]. now apply kept_same_frames.
Qed.

Hypothesis Q_fresh :
  forall p, signed_in_and_enabled p = true -> Q (fresh_socket (UseWebSocket008.wsUrl P p) p).

Lemma may_connect_signed_in p st : may_connect p st -> signed_in_and_enabled p = true.
Proof.
  intros (_ & Ht & Ha & He & _). unfold signed_in_and_enabled. now rewrite Ht, Ha, He.
Qed.

Lemma Act008_sockets a b :
  Act008 P a b ->
  socket_kept Q (sockets (UseWebSocket008.env a)) ->
  socket_kept Q (sockets (UseWebSocket008.env b)).
Proof.
  intros [Hact|Hact] H.
  - destruct Hact as [st t|st|st p Hg Hu|st p Hg|st ws w Hc Hw Ho|st ws w Hw Hc|st Hm
                     |st ws|st ws c|st|st ws|st p Hc Hm He|st Hm]; try exact H.
    + cbn. apply socket_kept_new; [now apply kept_detach|].
      apply Q_fresh. eapply may_connect_signed_in, Hg.
    + rewrite (proj2 (proj2 (proj2 (construction_failed_env st)))). now apply kept_detach.
    + cbn. apply socket_kept_alter; [|exact H].
      intros w0. apply Q_quiet; [reflexivity|now right].
    + cbn. apply socket_kept_alter; [|exact H]. now apply kept_same_frames.
    + cbn. apply socket_kept_alter; [|exact H]. apply kept_closed.
    + cbn. destruct (perform_sockets P ws c (UseWebSocket008.env st)) as [-> | ->];
        [exact H|].
      apply socket_kept_alter; [|exact H].
      intros w0. apply Q_quiet; [reflexivity|now right].
    + cbn. apply socket_kept_alter; [|exact H]. now apply kept_same_frames.
    + now rewrite retry_scheduled_sockets.
    + now rewrite settled_after_close_sockets.
  - destruct Hact as [st o|st|st|st p]; try exact H.
    + cbn. destruct (UseWebSocket008.wsRef st) as [ws|]; [|exact H].
      apply socket_kept_alter; [|exact H].
      intros w Hw. apply kept_closed. revert Hw. now apply kept_same_frames.
    + unfold effect_run. destruct (signed_in_and_enabled p); exact H.
Qed.

Lemma reachable008_sockets st :
  reachable008 P st -> socket_kept Q (sockets (UseWebSocket008.env st)).
Proof.
  apply (reachable008_ind P (fun st => socket_kept Q (sockets (UseWebSocket008.env st)))).
  - intros ws w Hw. cbn in Hw. now rewrite lookup_nil in Hw.
  - apply Act008_sockets.
Qed.

End Sockets008.

Lemma only_pings_quiet w w' :
  url w' = url w -> sent w' = sent w \/ sent w' = sent w ++ ["ping"] ->
  only_pings w -> only_pings w'.
Proof.
  unfold only_pings. intros _ [-> | ->] H; [exact H|].
  apply Forall_app. split; [exact H|]. now constructor.
Qed.

Lemma reachable008_only_pings P st ws w :
  reachable008 P st -> sockets (UseWebSocket008.env st) !! ws = Some w -> only_pings w.
Proof.
  intros Hr. revert ws w.
  apply (reachable008_sockets P only_pings only_pings_quiet); [|exact Hr].
  intros p _. constructor.
Qed.

Lemma reachable008_opened_for P st ws w :
  reachable008 P st -> sockets (UseWebSocket008.env st) !! ws = Some w -> opened_for008 P w.
Proof.
  intros Hr. revert ws w.
  apply (reachable008_sockets P (opened_for008 P)); [| |exact Hr].
  - intros w w' Hu _ (p & Hp & Hw). exists p. split; [exact Hp|congruence].
  - intros p Hp. now exists p.
Qed.

(** *** The store *)

Lemma store_grew_refl s : store_grew s s.
Proof. split; [reflexivity|]. split; [exists []; now rewrite app_nil_r|auto]. Qed.

Lemma store_grew_trans a b c : store_grew a b -> store_grew b c -> store_grew a c.
Proof.
  intros (H1 & (m1 & H2) & H3) (H4 & (m2 & H5) & H6).
  split; [congruence|]. split; [|auto].
  exists (m1 ++ m2). now rewrite H5, H2, app_assoc.
Qed.

Lemma store_grew_addNotification u n p s : store_grew s (addNotification u n p s).
Proof. split; [reflexivity|]. split; [eexists; reflexivity|auto]. Qed.

Lemma store_grew_addEvent ev s : store_grew s (addEvent ev s).
Proof.
  split; [reflexivity|]. split; [exists []; cbn; now rewrite app_nil_r|].
  intros _. cbn. rewrite length_take. lia.
Qed.

Lemma perform_store_grew P ws c e : store_grew (store e) (store (snd (perform P ws c e))).
Proof.
  destruct c as [| |ev g|]; try apply store_grew_refl.
  - unfold perform, try_catch, ws_send.
    destruct (sockets e !! ws) as [w|]; [|apply store_grew_refl].
    destruct (readyState w); apply store_grew_refl.
  - unfold perform, bind, notify_severity, dispatch_addEvent, dispatch_addNotification, modify.
    destruct g; cbn;
      match goal with |- context [if ?c then _ else _] => destruct c end; cbn;
      try apply store_grew_addEvent;
      (eapply store_grew_trans; [apply store_grew_addEvent|apply store_grew_addNotification]).
Qed.

Lemma Act008_store P a b :
  Act008 P a b ->
  store_grew (store (UseWebSocket008.env a)) (store (UseWebSocket008.env b)).
Proof.
  intros [Hact|Hact].
  - destruct Hact as [st t|st|st p Hg Hu|st p Hg|st ws w Hc Hw Ho|st ws w Hw Hc|st Hm
                     |st ws|st ws c|st|st ws|st p Hc Hm He|st Hm];
      try apply store_grew_refl.
    + apply store_grew_addNotification.
    + rewrite (proj1 (proj2 (proj2 (construction_failed_env st)))). apply store_grew_refl.
    + apply store_grew_addNotification.
    + apply perform_store_grew.
    + rewrite retry_scheduled_store. apply store_grew_refl.
    + rewrite settled_after_close_store. apply store_grew_refl.
  - destruct Hact as [st o|st|st|st p]; try apply store_grew_refl.
    unfold effect_run. destruct (signed_in_and_enabled p); apply store_grew_refl.
Qed.

Lemma step008_store_grew P ev st :
  Good008 st ->
  store_grew (store (UseWebSocket008.env st))
             (store (UseWebSocket008.env (UseWebSocket008.step P ev st))).
Proof.
  intros HG.
  apply (chain_inv (Act008 P)
           (fun b => store_grew (store (UseWebSocket008.env st))
                                (store (UseWebSocket008.env b))) st).
  - intros a b Hact H. eapply store_grew_trans; [exact H|now apply (Act008_store P)].
  - now apply step008_acts.
  - apply store_grew_refl.
Qed.

(** ** The changes [frontend/src/hooks/useWebSocket.ts] makes *)

Section ActsPlainFacts.

Variable P : Platform.

Lemma cleanup_connect_cleaned st :
  UseWebSocket.cleanup_connect st = (inr tt, plain_cleaned st).
Proof.
  unfold UseWebSocket.cleanup_connect, plain_cleaned, bind, gets, UseWebSocket.lift,
    UseWebSocket.when_some.
  destruct st as [[ws|] [rt|] pi pr [sk tm iv sto cl]]; reflexivity.
Qed.

Lemma cleanup_ping_stopped st :
  UseWebSocket.cleanup_ping st = (inr tt, ping_stopped st).
Proof.
  unfold UseWebSocket.cleanup_ping, ping_stopped, bind, gets, UseWebSocket.lift,
    UseWebSocket.when_some.
  destruct st as [cur rt [pi|] pr [sk tm iv sto cl]]; reflexivity.
Qed.

Lemma effect_ping_started p st :
  enabled p = true -> UseWebSocket.effect_ping p st = (inr tt, ping_started st).
Proof.
  intros He. unfold UseWebSocket.effect_ping, ping_started, bind, UseWebSocket.lift.
  rewrite He. destruct st as [cur rt pi pr [sk tm iv sto cl]]; reflexivity.
Qed.

Lemma effect_ping_skips p st :
  enabled p = false -> UseWebSocket.effect_ping p st = (inr tt, st).
Proof. intros He. unfold UseWebSocket.effect_ping. now rewrite He. Qed.

Lemma connect_plain_acts p st :
  chain (HandlerPlain P) st (exec (UseWebSocket.connect P p) st).
Proof.
  unfold exec.
  destruct (token_truthy p) eqn:Ht;
    [|rewrite connect_plain_skips by (now rewrite Ht); apply chain_done].
  destruct (enabled p) eqn:He;
    [|rewrite connect_plain_skips by (rewrite He; apply orb_true_r); apply chain_done].
  destruct (url_ok P (UseWebSocket.wsUrl P p)) eqn:Hu.
  - rewrite connect_plain_creates by assumption. apply chain_one. now apply Plain_connected.
  - rewrite connect_plain_throws by assumption. apply chain_one, Plain_construction_failed.
Qed.

Lemma HandlerPlain_static a b :
  HandlerPlain P a b ->
  UseWebSocket.props b = UseWebSocket.props a /\
  UseWebSocket.pingInterval b = UseWebSocket.pingInterval a.
Proof.
  intros Hact.
  destruct Hact as [st t|st p Ht He Hu|st|st ws w Hc Hw Ho|st ws|st
                   |st ws c|st ws|st|st p]; try (split; reflexivity).
  unfold plain_construction_failed. destruct (UseWebSocket.wsRef st); split; reflexivity.
Qed.

Lemma chain_HandlerPlain_static a b :
  chain (HandlerPlain P) a b ->
  UseWebSocket.props b = UseWebSocket.props a /\
  UseWebSocket.pingInterval b = UseWebSocket.pingInterval a.
Proof.
  intros H.
  apply (chain_inv (HandlerPlain P)
           (fun b => UseWebSocket.props b = UseWebSocket.props a /\
                     UseWebSocket.pingInterval b = UseWebSocket.pingInterval a) a);
    [|exact H|now split].
  intros x y Hact [H1 H2]. destruct (HandlerPlain_static x y Hact) as [K1 K2].
  split; congruence.
Qed.

Lemma effect_connect_acts p st :
  chain (HandlerPlain P) st (exec (UseWebSocket.effect_connect P p) st).
Proof.
  unfold UseWebSocket.effect_connect.
  destruct (enabled p); [apply connect_plain_acts|apply chain_done].
Qed.

Lemma effect_ping_acts p st :
  UseWebSocket.pingInterval st = None ->
  chain (ActPlain P) st (exec (UseWebSocket.effect_ping p) st).
Proof.
  intros Hn. unfold exec. destruct (enabled p) eqn:He.
  - rewrite effect_ping_started by exact He. apply chain_one. right.
    now apply Plain_ping_started.
  - rewrite effect_ping_skips by exact He. apply chain_done.
Qed.

Lemma handler_chain_plain a b : chain (HandlerPlain P) a b -> chain (ActPlain P) a b.
Proof. apply chain_mono. intros x y H. now left. Qed.

(** What a render with other props runs (lines 98, 114 and 127). *)
Lemma rerender_plain p p' st :
  exec (UseWebSocket.rerender P p p') st
  = let c2 := negb (Bool.eqb (enabled p) (enabled p')) in
    let c1 := negb (option_string_eqb (token p) (token p')) || c2 in
    let st1 := if c1 then plain_cleaned st else st in
    let st2 := if c2 then ping_stopped st1 else st1 in
    let st3 := if c1 then exec (UseWebSocket.effect_connect P p') st2 else st2 in
    if c2 then exec (UseWebSocket.effect_ping p') st3 else st3.
Proof.
  unfold UseWebSocket.rerender. cbv zeta.
  set (c2 := negb (Bool.eqb (enabled p) (enabled p'))).
  set (c1 := negb (option_string_eqb (token p) (token p')) || c2).
  rewrite exec_seq by apply throws_if, cleanup_connect_returns.
  rewrite exec_seq by apply throws_if, cleanup_ping_returns.
  rewrite exec_seq by apply throws_if, effect_connect_returns.
  rewrite !exec_if.
  assert (H1 : exec UseWebSocket.cleanup_connect st = plain_cleaned st)
    by (unfold exec; now rewrite cleanup_connect_cleaned).
  rewrite H1.
  assert (H2 : forall s, exec UseWebSocket.cleanup_ping s = ping_stopped s)
    by (intros s; unfold exec; now rewrite cleanup_ping_stopped).
  rewrite !H2. reflexivity.
Qed.

Lemma rerender_plain_acts p p' st :
  chain (ActPlain P) st (exec (UseWebSocket.rerender P p p') st).
Proof.
  rewrite rerender_plain. cbv zeta.
  set (c2 := negb (Bool.eqb (enabled p) (enabled p'))).
  set (c1 := negb (option_string_eqb (token p) (token p')) || c2).
  destruct c2.
  - assert (Hc1 : c1 = true) by apply orb_true_r. rewrite Hc1.
    eapply chain_then; [right; apply Plain_cleaned|].
    eapply chain_then; [right; apply Plain_ping_stopped|].
    eapply chain_app; [apply handler_chain_plain, effect_connect_acts|].
    apply effect_ping_acts.
    now rewrite (proj2 (chain_HandlerPlain_static _ _ (effect_connect_acts p' _))).
  - destruct c1; [|apply chain_done].
    eapply chain_then; [right; apply Plain_cleaned|].
    apply handler_chain_plain, effect_connect_acts.
Qed.

Lemma ping_plain_acts st :
  chain (HandlerPlain P) st (exec UseWebSocket.ping_callback st).
Proof.
  unfold exec, UseWebSocket.ping_callback, bind, gets, UseWebSocket.lift,
    UseWebSocket.when_some, UseWebSocket.socket_state, ws_send.
  destruct (UseWebSocket.wsRef st) as [ws|] eqn:Hcur; [|apply chain_done].
  destruct (sockets (UseWebSocket.env st) !! ws) as [w|] eqn:Hw; cbn;
    [|apply chain_done].
  destruct (readyState w) eqn:Hrs; cbn; try apply chain_done.
  rewrite Hw, Hrs. cbn. apply chain_one. now apply (Plain_ping P st ws w).
Qed.

Lemma step_plain_handler_acts ev st :
  plain_from_browser ev = true ->
  chain (HandlerPlain P) st (UseWebSocket.step P ev st).
Proof.
  intros Hev.
  destruct ev as [p'| |t|i|ws|ws frame|ws|ws code wasClean]; try discriminate;
    cbv beta iota delta [UseWebSocket.step].
  - destruct (timeouts (UseWebSocket.env st) !! t) as [tm|]; [|apply chain_done].
    destruct (pending tm); [|apply chain_done].
    rewrite exec_seq by reflexivity.
    eapply chain_then; [apply (Plain_timer_off P st t)|]. apply connect_plain_acts.
  - destruct (intervals (UseWebSocket.env st) !! i) as [iv|]; [|apply chain_done].
    destruct (active iv); [apply ping_plain_acts|apply chain_done].
  - destruct (sockets (UseWebSocket.env st) !! ws) as [w|] eqn:Hw; [|apply chain_done].
    destruct (readyState_is CONNECTING w) eqn:Hc; [|apply chain_done].
    rewrite exec_seq by reflexivity.
    eapply chain_then; [apply (Plain_open P st ws)|].
    destruct (onopen w); [|apply chain_done]. apply chain_one, Plain_greeted.
  - destruct (sockets (UseWebSocket.env st) !! ws) as [w|] eqn:Hw; [|apply chain_done].
    destruct (readyState_is OPEN w); [|apply chain_done].
    destruct (onmessage w); [|apply chain_done].
    unfold exec. rewrite UseWebSocket_onmessage. apply chain_one, Plain_message.
  - destruct (sockets (UseWebSocket.env st) !! ws) as [w|] eqn:Hw; [|apply chain_done].
    destruct (onerror w); apply chain_done.
  - destruct (sockets (UseWebSocket.env st) !! ws) as [w|] eqn:Hw; [|apply chain_done].
    destruct (readyState_is CLOSED w) eqn:Hc; [apply chain_done|].
    rewrite exec_seq by reflexivity.
    eapply chain_then; [apply (Plain_closed P st ws)|].
    destruct (onclose w) as [p|] eqn:Hp; [|apply chain_done].
    unfold exec. destruct (enabled p && negb wasClean) eqn:Hb.
    + apply andb_true_iff in Hb as [He Hc']. apply negb_true_iff in Hc'. subst wasClean.
      rewrite onclose_plain_retries by exact He. apply chain_one, Plain_retry.
    + rewrite onclose_plain_settles by exact Hb. apply chain_one, Plain_after_close.
Qed.

Lemma step_plain_unmount st :
  UseWebSocket.step P UseWebSocket.Unmount st
  = match UseWebSocket.props st with
    | Some _ => ping_stopped (plain_cleaned (UseWebSocket.set_props None st))
    | None => st
    end.
Proof.
  cbv beta iota delta [UseWebSocket.step].
  destruct (UseWebSocket.props st) as [p|]; [|reflexivity].
  rewrite exec_seq by apply cleanup_connect_returns.
  unfold exec. rewrite cleanup_connect_cleaned. cbn [snd].
  now rewrite cleanup_ping_stopped.
Qed.

Lemma step_plain_acts ev st : chain (ActPlain P) st (UseWebSocket.step P ev st).
Proof.
  destruct (plain_from_browser ev) eqn:Hev;
    [now apply handler_chain_plain, step_plain_handler_acts|].
  destruct ev as [p'| |t|i|ws|ws frame|ws|ws code wasClean]; try discriminate.
  - cbv beta iota delta [UseWebSocket.step].
    destruct (UseWebSocket.props st) as [p|]; [|apply chain_done].
    eapply chain_then; [right; apply (Plain_props st (Some p'))|].
    apply rerender_plain_acts.
  - rewrite step_plain_unmount.
    destruct (UseWebSocket.props st) as [p|]; [|apply chain_done].
    eapply chain_then; [right; apply (Plain_props st None)|].
    eapply chain_then; [right; apply Plain_cleaned|].
    apply chain_one. right. apply Plain_ping_stopped.
Qed.

Lemma mount_plain_acts p : chain (ActPlain P) UseWebSocket.initial (UseWebSocket.mount P p).
Proof.
  unfold UseWebSocket.mount.
  rewrite exec_seq by apply effect_connect_returns.
  eapply chain_then; [right; apply (Plain_props _ (Some p))|].
  eapply chain_app; [apply handler_chain_plain, effect_connect_acts|].
  apply effect_ping_acts.
  now rewrite (proj2 (chain_HandlerPlain_static _ _ (effect_connect_acts p _))).
Qed.

Lemma reachable_ind (I : UseWebSocket.State -> Prop) :
  I UseWebSocket.initial ->
  (forall a b, ActPlain P a b -> I a -> I b) ->
  forall st, reachable P st -> I st.
Proof.
  intros H0 Hstep st (p & evs & ->).
  assert (Hm : I (UseWebSocket.mount P p))
    by (eapply chain_inv; [exact Hstep|apply mount_plain_acts|exact H0]).
  revert Hm. unfold UseWebSocket.run. generalize (UseWebSocket.mount P p).
  induction evs as [|ev evs IH]; intros st HI; cbn; [exact HI|].
  apply IH. eapply chain_inv; [exact Hstep|apply step_plain_acts|exact HI].
Qed.

Lemma reachable_step_ind (I : UseWebSocket.State -> Prop) :
  (forall p, I (UseWebSocket.mount P p)) ->
  (forall ev st, I st -> I (UseWebSocket.step P ev st)) ->
  forall st, reachable P st -> I st.
Proof.
  intros H0 Hstep st (p & evs & ->).
  pose proof (H0 p) as Hm.
  revert Hm. unfold UseWebSocket.run. generalize (UseWebSocket.mount P p).
  induction evs as [|ev evs IH]; intros st HI; cbn; [exact HI|].
  apply IH. now apply Hstep.
Qed.

Lemma reachable_step ev st : reachable P st -> reachable P (UseWebSocket.step P ev st).
Proof.
  intros (p & evs & ->). exists p, (evs ++ [ev]).
  unfold UseWebSocket.run. now rewrite fold_left_app.
Qed.

(** Once unmounted, the hook holds no keep-alive interval. *)
Lemma reachable_unmounted st :
  reachable P st -> UseWebSocket.props st = None -> UseWebSocket.pingInterval st = None.
Proof.
  apply (reachable_step_ind
           (fun st => UseWebSocket.props st = None -> UseWebSocket.pingInterval st = None)).
  - intros p. unfold UseWebSocket.mount.
    rewrite exec_seq by apply effect_connect_returns.
    set (st1 := exec (UseWebSocket.effect_connect P p) _).
    assert (H1 : UseWebSocket.props st1 = Some p)
      by (unfold st1; now rewrite (proj1 (chain_HandlerPlain_static _ _
                                            (effect_connect_acts p _)))).
    unfold exec. destruct (enabled p) eqn:He.
    + rewrite effect_ping_started by exact He. cbn. congruence.
    + rewrite effect_ping_skips by exact He. cbn. congruence.
  - intros ev s IH.
    destruct (plain_from_browser ev) eqn:Hev.
    { destruct (chain_HandlerPlain_static _ _ (step_plain_handler_acts ev s Hev))
        as [-> ->]. exact IH. }
    destruct ev as [p'| |t|i|ws|ws frame|ws|ws code wasClean]; try discriminate.
    + cbv beta iota delta [UseWebSocket.step].
      destruct (UseWebSocket.props s) as [p|] eqn:Hp; [|intros _; now apply IH].
      intros Hn. exfalso. revert Hn.
      rewrite rerender_plain. cbv zeta.
      set (c2 := negb (Bool.eqb (enabled p) (enabled p'))).
      set (c1 := negb (option_string_eqb (token p) (token p')) || c2).
      set (s0 := UseWebSocket.set_props (Some p') s).
      set (s1 := if c1 then plain_cleaned s0 else s0).
      set (s2 := if c2 then ping_stopped s1 else s1).
      set (s3 := if c1 then exec (UseWebSocket.effect_connect P p') s2 else s2).
      assert (H1 : UseWebSocket.props s1 = Some p') by (unfold s1; now destruct c1).
      assert (H2 : UseWebSocket.props s2 = Some p') by (unfold s2; now destruct c2).
      assert (H3 : UseWebSocket.props s3 = Some p').
      { unfold s3. destruct c1; [|exact H2].
        now rewrite (proj1 (chain_HandlerPlain_static _ _ (effect_connect_acts p' _))). }
      destruct c2; [|congruence].
      unfold exec. destruct (enabled p') eqn:He.
      * rewrite effect_ping_started by exact He. cbn. congruence.
      * rewrite effect_ping_skips by exact He. cbn. congruence.
    + rewrite step_plain_unmount.
      destruct (UseWebSocket.props s) as [p|] eqn:Hp; [reflexivity|intros _; now apply IH].
Qed.

End ActsPlainFacts.

Section KeptPlain.

Variable P : Platform.

Lemma plain_construction_failed_env st :
  timeouts (UseWebSocket.env (plain_construction_failed st))
  = timeouts (UseWebSocket.env st) /\
  intervals (UseWebSocket.env (plain_construction_failed st))
  = intervals (UseWebSocket.env st) /\
  store (UseWebSocket.env (plain_construction_failed st))
  = store (UseWebSocket.env st) /\
  UseWebSocket.pingInterval (plain_construction_failed st) = UseWebSocket.pingInterval st /\
  sockets (UseWebSocket.env (plain_construction_failed st))
  = match UseWebSocket.wsRef st with
    | Some ws => alter ws_close_socket ws (sockets (UseWebSocket.env st))
    | None => sockets (UseWebSocket.env st)
    end.
Proof.
  unfold plain_construction_failed.
  destruct (UseWebSocket.wsRef st); repeat split; reflexivity.
Qed.

Lemma ActPlain_KeepAlive a b :
  ActPlain P a b ->
  KeepAlive (UseWebSocket.pingInterval a) (intervals (UseWebSocket.env a)) ->
  KeepAlive (UseWebSocket.pingInterval b) (intervals (UseWebSocket.env b)).
Proof.
  intros [Hact|Hact] H.
  - destruct Hact as [st t|st p Ht He Hu|st|st ws w Hc Hw Ho|st ws|st
                     |st ws c|st ws|st|st p]; try exact H.
    + destruct (plain_construction_failed_env st) as (_ & -> & _ & -> & _). exact H.
    + cbn. now rewrite (proj2 (perform_frame _ _ _ _)).
  - destruct Hact as [st o|st|st|st Hn]; try exact H.
    + now apply KeepAlive_cleared.
    + cbn. rewrite Hn in H.
      apply (KeepAlive_restarted None (intervals (UseWebSocket.env st)) H).
Qed.

Lemma reachable_KeepAlive st :
  reachable P st ->
  KeepAlive (UseWebSocket.pingInterval st) (intervals (UseWebSocket.env st)).
Proof.
  apply (reachable_ind P
           (fun st => KeepAlive (UseWebSocket.pingInterval st)
                                (intervals (UseWebSocket.env st)))).
  - intros i iv Hl. cbn in Hl. now rewrite lookup_nil in Hl.
  - apply ActPlain_KeepAlive.
Qed.

Lemma ActPlain_delays a b :
  ActPlain P a b ->
  (forall t tm, timeouts (UseWebSocket.env a) !! t = Some tm -> delay tm = 5000%Z) ->
  forall t tm, timeouts (UseWebSocket.env b) !! t = Some tm -> delay tm = 5000%Z.
Proof.
  intros [Hact|Hact] H.
  - destruct Hact as [st t|st p Ht He Hu|st|st ws w Hc Hw Ho|st ws|st
                     |st ws c|st ws|st|st p]; try exact H.
    + intros i tm Hl. cbn in Hl. apply delay_timer_off in Hl as (tm0 & Hl & ->). eauto.
    + now rewrite (proj1 (plain_construction_failed_env st)).
    + cbn. now rewrite (proj1 (perform_frame _ _ _ _)).
    + intros i tm Hl. cbn in Hl.
      apply lookup_app_Some in Hl as [Hl | [_ Hl]]; [eauto|].
      apply list_lookup_singleton_Some in Hl as [_ <-]. reflexivity.
  - destruct Hact as [st o|st|st|st Hn]; try exact H.
    intros i tm Hl. cbn in Hl.
    destruct (UseWebSocket.reconnectTimeoutRef st); [|eauto].
    apply delay_timer_off in Hl as (tm0 & Hl & ->). eauto.
Qed.

Lemma reachable_delays st t tm :
  reachable P st -> timeouts (UseWebSocket.env st) !! t = Some tm -> delay tm = 5000%Z.
Proof.
  intros Hr. revert t tm.
  apply (reachable_ind P
           (fun st => forall t tm, timeouts (UseWebSocket.env st) !! t = Some tm ->
                                   delay tm = 5000%Z)); [| |exact Hr].
  - intros t tm Hl. cbn in Hl. now rewrite lookup_nil in Hl.
  - apply ActPlain_delays.
Qed.

Lemma ActPlain_store a b :
  ActPlain P a b -> store_grew (store (UseWebSocket.env a)) (store (UseWebSocket.env b)).
Proof.
  intros [Hact|Hact].
  - destruct Hact as [st t|st p Ht He Hu|st|st ws w Hc Hw Ho|st ws|st
                     |st ws c|st ws|st|st p]; try apply store_grew_refl.
    + rewrite (proj1 (proj2 (proj2 (plain_construction_failed_env st)))).
      apply store_grew_refl.
    + apply store_grew_addNotification.
    + apply perform_store_grew.
  - destruct Hact as [st o|st|st|st Hn]; apply store_grew_refl.
Qed.

Lemma step_plain_store_grew ev st :
  store_grew (store (UseWebSocket.env st))
             (store (UseWebSocket.env (UseWebSocket.step P ev st))).
Proof.
  apply (chain_inv (ActPlain P)
           (fun b => store_grew (store (UseWebSocket.env st))
                                (store (UseWebSocket.env b))) st).
  - intros a b Hact H. eapply store_grew_trans; [exact H|now apply ActPlain_store].
  - apply step_plain_acts.
  - apply store_grew_refl.
Qed.

Variable Q : WebSocket -> Prop.

Hypothesis Q_quiet :
  forall w w', url w' = url w ->
               sent w' = sent w \/ sent w' = sent w ++ ["ping"] -> Q w -> Q w'.

Hypothesis Q_fresh :
  forall p, token_truthy p = true -> enabled p = true ->
            Q (fresh_socket (UseWebSocket.wsUrl P p) p).

Lemma ActPlain_sockets a b :
  ActPlain P a b ->
  socket_kept Q (sockets (UseWebSocket.env a)) ->
  socket_kept Q (sockets (UseWebSocket.env b)).
Proof.
  intros [Hact|Hact] H.
  - destruct Hact as [st t|st p Ht He Hu|st|st ws w Hc Hw Ho|st ws|st
                     |st ws c|st ws|st|st p]; try exact H.
    + cbn. apply socket_kept_new; [|now apply Q_fresh].
      destruct (UseWebSocket.wsRef st); [|exact H].
      apply socket_kept_alter; [now apply kept_closed|exact H].
    + rewrite (proj2 (proj2 (proj2 (proj2 (plain_construction_failed_env st))))).
      destruct (UseWebSocket.wsRef st); [|exact H].
      apply socket_kept_alter; [now apply kept_closed|exact H].
    + cbn. apply socket_kept_alter; [|exact H].
      intros w0. apply Q_quiet; [reflexivity|now right].
    + cbn. apply socket_kept_alter; [|exact H]. now apply kept_same_frames.
    + cbn. destruct (perform_sockets P ws c (UseWebSocket.env st)) as [-> | ->];
        [exact H|].
      apply socket_kept_alter; [|exact H].
      intros w0. apply Q_quiet; [reflexivity|now right].
    + cbn. apply socket_kept_alter; [|exact H]. now apply kept_same_frames.
  - destruct Hact as [st o|st|st|st Hn]; try exact H.
    cbn. destruct (UseWebSocket.wsRef st); [|exact H].
    apply socket_kept_alter; [now apply kept_closed|exact H].
Qed.

Lemma reachable_sockets st :
  reachable P st -> socket_kept Q (sockets (UseWebSocket.env st)).
Proof.
  apply (reachable_ind P (fun st => socket_kept Q (sockets (UseWebSocket.env st)))).
  - intros ws w Hw. cbn in Hw. now rewrite lookup_nil in Hw.
  - apply ActPlain_sockets.
Qed.

End KeptPlain.

Lemma reachable_only_pings P st ws w :
  reachable P st -> sockets (UseWebSocket.env st) !! ws = Some w -> only_pings w.
Proof.
  intros Hr. revert ws w.
  apply (reachable_sockets P only_pings only_pings_quiet); [|exact Hr].
  intros p _ _. constructor.
Qed.

Lemma reachable_opened_for P st ws w :
  reachable P st -> sockets (UseWebSocket.env st) !! ws = Some w -> opened_for P w.
Proof.
  intros Hr. revert ws w.
  apply (reachable_sockets P (opened_for P)); [| |exact Hr].
  - intros w w' Hu _ (p & Ht & He & Hw). exists p. repeat split; congruence.
  - intros p Ht He. now exists p.
Qed.

(** ** Mounting, rendering again and unmounting part_008 *)

Section Lifecycle008Facts.

Variable P : Platform.

Lemma Handler008_static a b :
  Handler008 P a b ->
  UseWebSocket008.props b = UseWebSocket008.props a /\
  UseWebSocket008.isMountedRef b = UseWebSocket008.isMountedRef a /\
  UseWebSocket008.mainCleanup b = UseWebSocket008.mainCleanup a /\
  (UseWebSocket008.isMountedRef a = false ->
   UseWebSocket008.pingIntervalRef b = UseWebSocket008.pingIntervalRef a).
Proof.
  intros Hact.
  destruct Hact as [st t|st|st p Hg Hu|st p Hg|st ws w Hc Hw Ho|st ws w Hw Hc|st Hm
                   |st ws|st ws c|st|st ws|st p Hc Hm He|st Hm];
    repeat split; try reflexivity; intros Hf; congruence.
Qed.

Lemma step008_browser_static ev st :
  Good008 st -> from_browser ev = true ->
  let st' := UseWebSocket008.step P ev st in
  UseWebSocket008.props st' = UseWebSocket008.props st /\
  UseWebSocket008.isMountedRef st' = UseWebSocket008.isMountedRef st /\
  UseWebSocket008.mainCleanup st' = UseWebSocket008.mainCleanup st /\
  (UseWebSocket008.isMountedRef st = false ->
   UseWebSocket008.pingIntervalRef st' = UseWebSocket008.pingIntervalRef st).
Proof.
  intros HG Hev.
  apply (chain_inv (Handler008 P)
           (fun b => UseWebSocket008.props b = UseWebSocket008.props st /\
                     UseWebSocket008.isMountedRef b = UseWebSocket008.isMountedRef st /\
                     UseWebSocket008.mainCleanup b = UseWebSocket008.mainCleanup st /\
                     (UseWebSocket008.isMountedRef st = false ->
                      UseWebSocket008.pingIntervalRef b
                      = UseWebSocket008.pingIntervalRef st)) st).
  - intros a b Hact (H1 & H2 & H3 & H4).
    destruct (Handler008_static a b Hact) as (K1 & K2 & K3 & K4).
    repeat split; try congruence.
    intros Hf. rewrite K4 by congruence. auto.
  - now apply step008_handler_acts.
  - repeat split; reflexivity.
Qed.

Lemma main_cleanup008_result st :
  exec UseWebSocket008.main_cleanup st
  = match UseWebSocket008.mainCleanup st with
    | Some (UseWebSocket008.ClearConnectDelay t) => timer_off t st
    | Some UseWebSocket008.FullCleanup =>
        cleaned (UseWebSocket008.set_isMountedRef false st)
    | None => st
    end.
Proof.
  unfold exec, UseWebSocket008.main_cleanup, bind, gets.
  destruct (UseWebSocket008.mainCleanup st) as [[t|]|]; try reflexivity.
  unfold UseWebSocket008.unmount_cleanup.
  change (snd ((modify (UseWebSocket008.set_isMountedRef false) ;;; UseWebSocket008.cleanup)%js st))
    with (snd (UseWebSocket008.cleanup (UseWebSocket008.set_isMountedRef false st))).
  now rewrite cleanup008_cleaned.
Qed.

Lemma main_cleanup008_props st :
  UseWebSocket008.props (exec UseWebSocket008.main_cleanup st) = UseWebSocket008.props st.
Proof.
  rewrite main_cleanup008_result.
  destruct (UseWebSocket008.mainCleanup st) as [[t|]|]; reflexivity.
Qed.

Lemma effect_run_Lifecycle p st :
  UseWebSocket008.props st = Some p -> Lifecycle008 (effect_run p st).
Proof.
  intros Hp. unfold Lifecycle008, effect_run.
  destruct (signed_in_and_enabled p) eqn:Hok; cbn; rewrite Hp, Hok;
    (split; [reflexivity|]); [eexists|]; reflexivity.
Qed.

Lemma step008_rerender p' st :
  UseWebSocket008.step P (UseWebSocket008.Rerender p') st
  = match UseWebSocket008.props st with
    | Some p =>
        if UseWebSocket008.same_props p p' then st
        else effect_run p' (exec UseWebSocket008.main_cleanup
                              (UseWebSocket008.set_props (Some p') st))
    | None => st
    end.
Proof.
  cbv beta iota delta [UseWebSocket008.step].
  destruct (UseWebSocket008.props st) as [p|]; [|reflexivity].
  destruct (UseWebSocket008.same_props p p'); [reflexivity|].
  rewrite exec_seq by apply main_cleanup008_returns.
  unfold exec at 1. now rewrite main_effect008_run.
Qed.

Lemma step008_unmount st :
  UseWebSocket008.step P UseWebSocket008.Unmount st
  = match UseWebSocket008.props st with
    | Some p =>
        cleaned (UseWebSocket008.set_isMountedRef false
                   (exec UseWebSocket008.main_cleanup
                      (UseWebSocket008.set_props None st)))
    | None => st
    end.
Proof.
  cbv beta iota delta [UseWebSocket008.step].
  destruct (UseWebSocket008.props st) as [p|]; [|reflexivity].
  rewrite exec_seq by apply main_cleanup008_returns.
  set (st1 := exec UseWebSocket008.main_cleanup _).
  change (exec UseWebSocket008.unmount_cleanup st1)
    with (snd (UseWebSocket008.cleanup (UseWebSocket008.set_isMountedRef false st1))).
  now rewrite cleanup008_cleaned.
Qed.

Lemma step008_Lifecycle ev st :
  Good008 st -> Lifecycle008 st -> Lifecycle008 (UseWebSocket008.step P ev st).
Proof.
  intros HG HL.
  destruct (from_browser ev) eqn:Hev.
  { destruct (step008_browser_static ev st HG Hev) as (H1 & H2 & H3 & H4).
    unfold Lifecycle008 in *. rewrite H1, H2, H3.
    destruct (UseWebSocket008.props st); [exact HL|].
    destruct HL as [Hm Hp]. split; [exact Hm|]. now rewrite H4. }
  destruct ev as [p'| |t|i|ws|ws frame|ws|ws code wasClean]; try discriminate.
  - rewrite step008_rerender.
    destruct (UseWebSocket008.props st) as [p|] eqn:Hp; [|exact HL].
    destruct (UseWebSocket008.same_props p p'); [exact HL|].
    apply effect_run_Lifecycle. now rewrite main_cleanup008_props.
  - rewrite step008_unmount.
    destruct (UseWebSocket008.props st) as [p|] eqn:Hp; [|exact HL].
    unfold Lifecycle008. cbn. rewrite main_cleanup008_props. cbn. now split.
Qed.

Lemma mount008_Lifecycle p : Lifecycle008 (UseWebSocket008.mount p).
Proof.
  unfold UseWebSocket008.mount, exec. rewrite main_effect008_run.
  now apply effect_run_Lifecycle.
Qed.

(** What holds after the mount and is kept by every event, from a state
    with the invariants of part_008, holds in every state the hook reaches. *)
Lemma reachable008_step_ind (I : UseWebSocket008.State -> Prop) :
  (forall p, I (UseWebSocket008.mount p)) ->
  (forall ev st, Good008 st -> I st -> I (UseWebSocket008.step P ev st)) ->
  forall st, reachable008 P st -> I st.
Proof.
  intros H0 Hstep st (p & evs & ->).
  assert (Hm : I (UseWebSocket008.mount p) /\ Good008 (UseWebSocket008.mount p)).
  { split; [apply H0|]. apply (reachable008_Good P). exists p, []. reflexivity. }
  revert Hm. unfold UseWebSocket008.run. generalize (UseWebSocket008.mount p).
  induction evs as [|ev evs IH]; intros st [HI HG]; cbn; [exact HI|].
  apply IH. split; [now apply Hstep|now apply step008_Good].
Qed.

Lemma reachable008_Lifecycle st : reachable008 P st -> Lifecycle008 st.
Proof.
  apply reachable008_step_ind; [apply mount008_Lifecycle|apply step008_Lifecycle].
Qed.

Lemma reachable008_step ev st :
  reachable008 P st -> reachable008 P (UseWebSocket008.step P ev st).
Proof.
  intros (p & evs & ->). exists p, (evs ++ [ev]).
  unfold UseWebSocket008.run. now rewrite fold_left_app.
Qed.

Lemma reachable008_run evs st :
  reachable008 P st -> reachable008 P (UseWebSocket008.run P evs st).
Proof.
  intros (p & evs0 & ->). exists p, (evs0 ++ evs).
  unfold UseWebSocket008.run. now rewrite fold_left_app.
Qed.

End Lifecycle008Facts.

(** ** After the unmount of part_008 *)

Section Released.

Variable P : Platform.

Lemma nothing_happened_refl e : nothing_happened e e.
Proof. repeat split. Qed.

Lemma nothing_happened_trans a b c :
  nothing_happened a b -> nothing_happened b c -> nothing_happened a c.
Proof.
  intros (A1 & A2 & A3 & A4 & A5 & A6) (B1 & B2 & B3 & B4 & B5 & B6).
  repeat split; congruence.
Qed.

Lemma map_alter_same {A B : Type} (g : A -> B) (f : A -> A) (i : nat) (l : list A) :
  (forall x, g (f x) = g x) -> map g (alter f i l) = map g l.
Proof.
  intros H. revert i. induction l as [|x l IH]; intros [|i]; cbn; [reflexivity..| |].
  - now rewrite H.
  - now rewrite IH.
Qed.

Lemma timer008_unmounted p st :
  UseWebSocket008.isMountedRef st = false ->
  exec (UseWebSocket008.timer_callback P p) st = st.
Proof.
  intros Hm. unfold exec, UseWebSocket008.timer_callback, bind, gets. now rewrite Hm.
Qed.

Lemma released_step ev st :
  released st ->
  released (UseWebSocket008.step P ev st) /\
  nothing_happened (UseWebSocket008.env st)
                   (UseWebSocket008.env (UseWebSocket008.step P ev st)).
Proof.
  intros (Hp & Hm & Hw & Hidle & Hoff).
  assert (HR : released st) by (repeat split; assumption).
  assert (Hnot : forall ws w, sockets (UseWebSocket008.env st) !! ws = Some w ->
                              live w = false).
  { intros ws w Hl. destruct (live w) eqn:Hlive; [|reflexivity].
    pose proof (live_busy w Hlive) as Hb. rewrite (Hidle ws w Hl) in Hb. discriminate. }
  destruct ev as [p'| |t|i|ws|ws frame|ws|ws code wasClean];
    cbv beta iota delta [UseWebSocket008.step].
  - rewrite Hp. split; [exact HR|apply nothing_happened_refl].
  - rewrite Hp. split; [exact HR|apply nothing_happened_refl].
  - destruct (timeouts (UseWebSocket008.env st) !! t) as [tm|];
      [|split; [exact HR|apply nothing_happened_refl]].
    destruct (pending tm); [|split; [exact HR|apply nothing_happened_refl]].
    rewrite exec_seq by reflexivity.
    rewrite timer008_unmounted by exact Hm.
    change (exec (UseWebSocket008.lift (modify (set_timeouts (alter (set_pending false) t)))) st)
      with (timer_off t st).
    split; [repeat split; assumption|].
    repeat split. cbn. apply length_alter.
  - destruct (intervals (UseWebSocket008.env st) !! i) as [iv|] eqn:Hiv;
      [|split; [exact HR|apply nothing_happened_refl]].
    rewrite (Hoff i iv Hiv). split; [exact HR|apply nothing_happened_refl].
  - destruct (sockets (UseWebSocket008.env st) !! ws) as [w|] eqn:Hl;
      [|split; [exact HR|apply nothing_happened_refl]].
    pose proof (Hnot ws w Hl) as Hlive. unfold live in Hlive. unfold readyState_is.
    destruct (readyState w); try discriminate;
      (split; [exact HR|apply nothing_happened_refl]).
  - destruct (sockets (UseWebSocket008.env st) !! ws) as [w|] eqn:Hl;
      [|split; [exact HR|apply nothing_happened_refl]].
    pose proof (Hnot ws w Hl) as Hlive. unfold live in Hlive. unfold readyState_is.
    destruct (readyState w); try discriminate;
      (split; [exact HR|apply nothing_happened_refl]).
  - destruct (sockets (UseWebSocket008.env st) !! ws) as [w|] eqn:Hl;
      [|split; [exact HR|apply nothing_happened_refl]].
    destruct (onerror w); [|split; [exact HR|apply nothing_happened_refl]].
    split; [repeat split; assumption|apply nothing_happened_refl].
  - destruct (sockets (UseWebSocket008.env st) !! ws) as [w|] eqn:Hl;
      [|split; [exact HR|apply nothing_happened_refl]].
    destruct (readyState_is CLOSED w) eqn:Hc;
      [split; [exact HR|apply nothing_happened_refl]|].
    rewrite exec_seq by reflexivity.
    set (st1 := exec (UseWebSocket008.lift (ws_alter (set_readyState CLOSED) ws)) st).
    assert (H1 : released st1 /\
                 nothing_happened (UseWebSocket008.env st) (UseWebSocket008.env st1)).
    { split.
      - repeat split; try assumption.
        unfold st1. cbn. apply Idle_alter; [exact Hidle|]. intros w' _. apply busy_closed.
      - unfold st1. cbn. repeat split; cbn; now apply map_alter_same. }
    destruct (onclose w) as [p|]; [|exact H1].
    unfold exec. rewrite onclose008_unmounted; [exact H1|]. apply H1.
Qed.

Lemma released_run evs st :
  released st ->
  released (UseWebSocket008.run P evs st) /\
  nothing_happened (UseWebSocket008.env st)
                   (UseWebSocket008.env (UseWebSocket008.run P evs st)).
Proof.
  unfold UseWebSocket008.run. revert st.
  induction evs as [|ev evs IH]; intros st HR; cbn;
    [split; [exact HR|apply nothing_happened_refl]|].
  destruct (released_step ev st HR) as [H1 H2].
  destruct (IH _ H1) as [H3 H4].
  split; [exact H3|]. eapply nothing_happened_trans; eassumption.
Qed.

Lemma unmount_released st :
  reachable008 P st -> released (UseWebSocket008.step P UseWebSocket008.Unmount st).
Proof.
  intros Hr.
  pose proof (reachable008_step P UseWebSocket008.Unmount st Hr) as Hr'.
  destruct (reachable008_Good P _ Hr') as (HI & HM & _).
  pose proof (reachable008_Lifecycle P _ Hr') as HL.
  pose proof (reachable008_KeepAlive P _ Hr') as HK.
  set (st' := UseWebSocket008.step P UseWebSocket008.Unmount st) in *.
  assert (Hp : UseWebSocket008.props st' = None).
  { unfold st'. rewrite step008_unmount.
    destruct (UseWebSocket008.props st) eqn:Hp; [|exact Hp].
    cbn. now rewrite main_cleanup008_props. }
  unfold Lifecycle008 in HL. rewrite Hp in HL. destruct HL as [Hm Hpi].
  specialize (HM Hm).
  split; [exact Hp|]. split; [exact Hm|]. split; [exact HM|]. split.
  - apply Owned_None_Idle. unfold Inv008 in HI. now rewrite HM in HI.
  - intros i iv Hl. destruct (HK i iv Hl) as [_ Ha].
    destruct (active iv); [|reflexivity]. specialize (Ha eq_refl). congruence.
Qed.

End Released.

(** * Further properties of the two hooks *)

(** ** X1 *)

(** X1.  Unmounting the hook of part_008 is final.  Right after the unmount,
    from any state the hook has reached, [wsRef] is empty, no socket is
    connecting or open and no keep-alive interval is active; and whatever
    timers fire and whatever the sockets report afterwards, the store stays
    as it is, no socket is created, no frame is sent, no timer or interval
    is set, and no socket becomes live again. *)
Theorem X1_unmount_is_final
    (P : Platform) (st : UseWebSocket008.State) (evs : list UseWebSocket008.Event) :
  reachable008 P st ->
  let st0 := UseWebSocket008.step P UseWebSocket008.Unmount st in
  let st1 := UseWebSocket008.run P evs st0 in
  (UseWebSocket008.wsRef st0 = None /\
   (forall ws w, sockets (UseWebSocket008.env st0) !! ws = Some w -> live w = false) /\
   (forall i iv, intervals (UseWebSocket008.env st0) !! i = Some iv -> active iv = false)) /\
  nothing_happened (UseWebSocket008.env st0) (UseWebSocket008.env st1) /\
  (forall ws w, sockets (UseWebSocket008.env st1) !! ws = Some w -> live w = false).
Proof.
  intros Hr st0 st1.
  pose proof (unmount_released P st Hr) as H0. fold st0 in H0.
  destruct (released_run P evs st0 H0) as [H1 H2]. fold st1 in H1, H2.
  assert (Hlive : forall s, released s ->
            forall ws w, sockets (UseWebSocket008.env s) !! ws = Some w -> live w = false).
  { intros s (_ & _ & _ & Hidle & _) ws w Hl.
    destruct (live w) eqn:Hlive; [|reflexivity].
    pose proof (live_busy w Hlive) as Hb. rewrite (Hidle ws w Hl) in Hb. discriminate. }
  split; [|split; [exact H2|now apply Hlive]].
  split; [apply H0|]. split; [now apply Hlive|apply H0].
Qed.

Lemma X1_unmount_is_final_witness :
  let st := UseWebSocket008.run Demo.platform
              [UseWebSocket008.TimeoutFires 0; UseWebSocket008.Opened 0]
              (UseWebSocket008.mount (Demo.signed_in "tok")) in
  let st0 := UseWebSocket008.step Demo.platform UseWebSocket008.Unmount st in
  let st1 := UseWebSocket008.run Demo.platform
               [UseWebSocket008.Message 0 (risk_alert_frame "high");
                UseWebSocket008.Closed 0 1006 false;
                UseWebSocket008.TimeoutFires 0] st0 in
  reachable008 Demo.platform st /\
  nothing_happened (UseWebSocket008.env st0) (UseWebSocket008.env st1).
Proof.
  intros st st0 st1.
  assert (Hr : reachable008 Demo.platform st) by (eexists _, _; reflexivity).
  split; [exact Hr|].
  apply (X1_unmount_is_final Demo.platform st
           [UseWebSocket008.Message 0 (risk_alert_frame "high");
            UseWebSocket008.Closed 0 1006 false;
            UseWebSocket008.TimeoutFires 0] Hr).
Defined.

(** ** X2 *)

(** X2.  Unmounting [frontend/src/hooks/useWebSocket.ts] is not final: its
    clean-up closes the socket but leaves the close handler attached.  In
    any state the hook has reached, for a socket that is not closed yet and
    carries the close handler of a render with a token and a URL the
    browser accepts: after the unmount, when the browser reports the closure
    of that socket as not clean, the handler sets a timer of 5000 ms, and
    when the timer fires [connect] creates a new connecting socket and
    stores it in [wsRef], although the component is gone. *)
Theorem X2_plain_hook_reconnects_after_unmount
    (P : Platform) (st : UseWebSocket.State) (ws : nat) (w : WebSocket)
    (p : Props) (code : Z) :
  reachable P st ->
  sockets (UseWebSocket.env st) !! ws = Some w ->
  readyState_is CLOSED w = false ->
  onclose w = Some p ->
  token_truthy p = true ->
  url_ok P (UseWebSocket.wsUrl P p) = true ->
  let st1 := UseWebSocket.step P UseWebSocket.Unmount st in
  let st2 := UseWebSocket.step P (UseWebSocket.Closed ws code false) st1 in
  let t := length (timeouts (UseWebSocket.env st)) in
  let st3 := UseWebSocket.step P (UseWebSocket.TimeoutFires t) st2 in
  let n := length (sockets (UseWebSocket.env st)) in
  UseWebSocket.props st1 = None /\
  timeouts (UseWebSocket.env st2)
  = timeouts (UseWebSocket.env st1) ++ [ {| delay := 5000; callback := p; pending := true |} ] /\
  UseWebSocket.props st3 = None /\
  UseWebSocket.wsRef st3 = Some n /\
  sockets (UseWebSocket.env st3) !! n = Some (fresh_socket (UseWebSocket.wsUrl P p) p) /\
  length (sockets (UseWebSocket.env st3)) = S n.
Proof.
  intros Hr Hw Hc Hp Ht Hu st1 st2 t st3 n.
  pose proof (reachable_Handlers P st Hr ws w p Hw Hp) as He.
  assert (H1 : UseWebSocket.props st1 = None /\
               length (timeouts (UseWebSocket.env st1)) = t /\
               length (sockets (UseWebSocket.env st1)) = n /\
               exists w1, sockets (UseWebSocket.env st1) !! ws = Some w1 /\
                          readyState_is CLOSED w1 = false /\ onclose w1 = Some p).
  { unfold st1. rewrite step_plain_unmount.
    destruct (UseWebSocket.props st) as [p0|] eqn:Hprops.
    - split; [reflexivity|]. cbn.
      split; [destruct (UseWebSocket.reconnectTimeoutRef st); [apply length_alter|reflexivity]|].
      split; [destruct (UseWebSocket.wsRef st); [apply length_alter|reflexivity]|].
      destruct (UseWebSocket.wsRef st) as [cur|]; [|now exists w].
      destruct (decide (cur = ws)) as [->|Hne].
      + exists (ws_close_socket w). rewrite list_lookup_alter_eq, Hw.
        split; [reflexivity|]. unfold ws_close_socket.
        destruct (live w); [|now split]. now split.
      + exists w. now rewrite list_lookup_alter_ne by exact Hne.
    - split; [exact Hprops|]. split; [reflexivity|]. split; [reflexivity|]. now exists w. }
  destruct H1 as (Hp1 & Ht1 & Hn1 & w1 & Hw1 & Hc1 & Hoc1).
  pose proof (reachable_step P UseWebSocket.Unmount st Hr) as Hr1. fold st1 in Hr1.
  assert (H2 : st2 = plain_retry_scheduled p
                       (UseWebSocket.set_env (closed_socket ws (UseWebSocket.env st1)) st1)).
  { unfold st2. now rewrite (step_closed P st1 ws w1 p code false Hr1 Hw1 Hc1 Hoc1). }
  clearbody st1.
  assert (Htl : timeouts (UseWebSocket.env st2)
                = timeouts (UseWebSocket.env st1) ++
                  [ {| delay := 5000; callback := p; pending := true |} ])
    by (rewrite H2; reflexivity).
  split; [exact Hp1|]. split; [exact Htl|].
  assert (H3 : st3 = plain_connected P p
                       (UseWebSocket.set_env
                          (set_timeouts (alter (set_pending false) t) (UseWebSocket.env st2))
                          st2)).
  { unfold st3. cbv beta iota delta [UseWebSocket.step].
    rewrite Htl, <- Ht1, list_lookup_middle by reflexivity. cbn [pending callback].
    rewrite exec_seq by reflexivity. unfold exec at 1.
    now rewrite connect_plain_creates. }
  clearbody st2 st3. subst st3 st2. cbn.
  rewrite length_alter, Hn1.
  split; [exact Hp1|]. split; [reflexivity|].
  split; [|rewrite length_app, length_alter, Hn1; cbn; lia].
  rewrite <- Hn1, <- (length_alter (set_readyState CLOSED) (sockets (UseWebSocket.env st1)) ws).
  now rewrite list_lookup_middle.
Qed.

Lemma X2_plain_hook_reconnects_after_unmount_witness :
  let st := UseWebSocket.mount Demo.platform (Demo.signed_in "tok") in
  let st3 := UseWebSocket.run Demo.platform
               [UseWebSocket.Unmount; UseWebSocket.Closed 0 1006 false;
                UseWebSocket.TimeoutFires 0] st in
  reachable Demo.platform st /\
  UseWebSocket.props st3 = None /\
  map readyState (sockets (UseWebSocket.env st3)) = [CLOSED; CONNECTING] /\
  UseWebSocket.wsRef st3 = Some 1.
Proof.
  intros st st3.
  assert (Hr : reachable Demo.platform st) by (exists (Demo.signed_in "tok"), []; reflexivity).
  split; [exact Hr|].
  pose proof (X2_plain_hook_reconnects_after_unmount Demo.platform st 0
                (fresh_socket (UseWebSocket.wsUrl Demo.platform (Demo.signed_in "tok"))
                              (Demo.signed_in "tok"))
                (Demo.signed_in "tok") 1006 Hr eq_refl eq_refl eq_refl eq_refl eq_refl)
    as (_ & _ & H3 & H4 & _).
  split; [exact H3|]. split; [reflexivity|exact H4].
Defined.

(** ** X3 *)

(** X3.  In every state either hook reaches, every keep-alive interval has
    the period of 25000 ms, at most one of them is active, and once the
    hook is unmounted none is. *)
Theorem X3_one_keep_alive_interval (P : Platform) :
  (forall st, reachable008 P st ->
     (forall i iv, intervals (UseWebSocket008.env st) !! i = Some iv ->
                   period iv = 25000%Z) /\
     at_most_one_active (intervals (UseWebSocket008.env st)) /\
     (UseWebSocket008.props st = None ->
      forall i iv, intervals (UseWebSocket008.env st) !! i = Some iv -> active iv = false)) /\
  (forall st, reachable P st ->
     (forall i iv, intervals (UseWebSocket.env st) !! i = Some iv ->
                   period iv = 25000%Z) /\
     at_most_one_active (intervals (UseWebSocket.env st)) /\
     (UseWebSocket.props st = None ->
      forall i iv, intervals (UseWebSocket.env st) !! i = Some iv -> active iv = false)).
Proof.
  split.
  - intros st Hr. pose proof (reachable008_KeepAlive P st Hr) as HK.
    split; [intros i iv Hl; apply (HK i iv Hl)|].
    split; [eapply KeepAlive_one, HK|].
    intros Hp i iv Hl.
    pose proof (reachable008_Lifecycle P st Hr) as HL.
    unfold Lifecycle008 in HL. rewrite Hp in HL. destruct HL as [_ Hn].
    destruct (HK i iv Hl) as [_ Ha].
    destruct (active iv); [|reflexivity]. specialize (Ha eq_refl). congruence.
  - intros st Hr. pose proof (reachable_KeepAlive P st Hr) as HK.
    split; [intros i iv Hl; apply (HK i iv Hl)|].
    split; [eapply KeepAlive_one, HK|].
    intros Hp i iv Hl.
    pose proof (reachable_unmounted P st Hr Hp) as Hn.
    destruct (HK i iv Hl) as [_ Ha].
    destruct (active iv); [|reflexivity]. specialize (Ha eq_refl). congruence.
Qed.

Lemma X3_one_keep_alive_interval_witness :
  let st := UseWebSocket008.run Demo.platform
              [UseWebSocket008.TimeoutFires 0; UseWebSocket008.Opened 0;
               UseWebSocket008.Closed 0 1006 false; UseWebSocket008.TimeoutFires 1;
               UseWebSocket008.Opened 1]
              (UseWebSocket008.mount (Demo.signed_in "tok")) in
  reachable008 Demo.platform st /\
  map active (intervals (UseWebSocket008.env st)) = [false; true] /\
  at_most_one_active (intervals (UseWebSocket008.env st)).
Proof.
  intros st.
  assert (Hr : reachable008 Demo.platform st) by (eexists _, _; reflexivity).
  split; [exact Hr|]. split; [reflexivity|].
  apply (proj1 (X3_one_keep_alive_interval Demo.platform) st Hr).
Defined.

(** ** X4 *)

(** X4.  When the browser reports a connecting socket that has its open
    handler as open: part_008, in every state it reaches, resets the attempt
    counter to 0, clears [isConnectingRef], pushes one success notification
    "Live events connected" and starts one keep-alive interval of 25000 ms,
    which is then the only active one; [frontend/src/hooks/useWebSocket.ts],
    in every state, pushes the same notification and changes nothing else
    (its keep-alive interval belongs to the second effect). *)
Theorem X4_open_resets_backoff (P : Platform) :
  (forall st ws w,
     reachable008 P st ->
     sockets (UseWebSocket008.env st) !! ws = Some w ->
     readyState w = CONNECTING -> is_Some (onopen w) ->
     let st' := UseWebSocket008.step P (UseWebSocket008.Opened ws) st in
     let e := UseWebSocket008.env st in
     UseWebSocket008.reconnectAttemptsRef st' = 0 /\
     UseWebSocket008.isConnectingRef st' = false /\
     UseWebSocket008.wsRef st' = UseWebSocket008.wsRef st /\
     sockets (UseWebSocket008.env st') = alter (set_readyState OPEN) ws (sockets e) /\
     timeouts (UseWebSocket008.env st') = timeouts e /\
     store (UseWebSocket008.env st')
     = addNotification (randomUUID P (calls e)) (toISOString P (calls e))
         {| p_type := Success; p_message := str "Live events connected" |} (store e) /\
     UseWebSocket008.pingIntervalRef st' = Some (length (intervals e)) /\
     intervals (UseWebSocket008.env st') !! length (intervals e)
     = Some {| period := 25000; active := true |} /\
     (forall i iv, intervals (UseWebSocket008.env st') !! i = Some iv ->
                   active iv = true -> i = length (intervals e))) /\
  (forall st ws w,
     sockets (UseWebSocket.env st) !! ws = Some w ->
     readyState w = CONNECTING -> is_Some (onopen w) ->
     UseWebSocket.step P (UseWebSocket.Opened ws) st
     = UseWebSocket.set_env
         (greeted P (set_sockets (alter (set_readyState OPEN) ws) (UseWebSocket.env st)))
         st).
Proof.
  split.
  - intros st ws w Hr Hw Hc [h Hh] st' e.
    assert (Hm : UseWebSocket008.isMountedRef st = true)
      by (apply (reachable008_live P st ws w Hr Hw); unfold live; now rewrite Hc).
    pose proof (reachable008_KeepAlive P st Hr) as HK.
    assert (Hst' : st' = welcomed P
                           (UseWebSocket008.set_env
                              (set_sockets (alter (set_readyState OPEN) ws) e) st)).
    { unfold st', e. cbv beta iota delta [UseWebSocket008.step].
      rewrite Hw. unfold readyState_is. rewrite Hc, Hh.
      rewrite exec_seq by reflexivity. unfold exec at 1.
      rewrite onopen008_mounted; [reflexivity|exact Hm]. }
    clearbody st'. subst st' e. cbn.
    repeat split.
    + assert (Hlen : length match UseWebSocket008.pingIntervalRef st with
                            | Some j => alter (set_active false) j
                                          (intervals (UseWebSocket008.env st))
                            | None => intervals (UseWebSocket008.env st)
                            end = length (intervals (UseWebSocket008.env st)))
        by (destruct (UseWebSocket008.pingIntervalRef st); [apply length_alter|reflexivity]).
      rewrite <- Hlen at 1. now rewrite list_lookup_middle.
    + intros i iv Hl Ha.
      pose proof (KeepAlive_restarted _ _ HK i iv Hl) as [_ Hi].
      specialize (Hi Ha). now injection Hi as <-.
  - intros st ws w Hw Hc [h Hh].
    cbv beta iota delta [UseWebSocket.step].
    rewrite Hw. unfold readyState_is. rewrite Hc, Hh. reflexivity.
Qed.

Lemma X4_open_resets_backoff_witness :
  let st := UseWebSocket008.run Demo.platform
              [UseWebSocket008.TimeoutFires 0; UseWebSocket008.Closed 0 1006 false;
               UseWebSocket008.TimeoutFires 1]
              (UseWebSocket008.mount (Demo.signed_in "tok")) in
  let st' := UseWebSocket008.step Demo.platform (UseWebSocket008.Opened 1) st in
  reachable008 Demo.platform st /\
  UseWebSocket008.reconnectAttemptsRef st = 1 /\
  UseWebSocket008.reconnectAttemptsRef st' = 0.
Proof.
  intros st st'.
  assert (Hr : reachable008 Demo.platform st) by (eexists _, _; reflexivity).
  split; [exact Hr|]. split; [reflexivity|].
  apply (proj1 (X4_open_resets_backoff Demo.platform) st 1
           (fresh_socket (UseWebSocket008.wsUrl Demo.platform (Demo.signed_in "tok"))
                         (Demo.signed_in "tok")) Hr eq_refl eq_refl).
  now eexists.
Defined.

(** ** X5 *)

(** X5.  Pausing the feed (a render with [enabled] false after a signed-in,
    enabled one) does not disconnect part_008: the clean-up React runs is
    the one that only clears the 100 ms timer, so the sockets, [wsRef], the
    keep-alive interval and the store are as before, the hook stays
    mounted, and a frame that arrives on the open socket is still handled.
    In [frontend/src/hooks/useWebSocket.ts] the same render runs both
    clean-ups: the socket held in [wsRef] is closed, the keep-alive interval
    is cleared, no new socket is created, and no interval stays active. *)
Theorem X5_pausing_the_feed (P : Platform) :
  (forall st p p',
     reachable008 P st ->
     UseWebSocket008.props st = Some p ->
     signed_in_and_enabled p = true -> enabled p' = false ->
     let st' := UseWebSocket008.step P (UseWebSocket008.Rerender p') st in
     UseWebSocket008.props st' = Some p' /\
     UseWebSocket008.isMountedRef st' = true /\
     UseWebSocket008.wsRef st' = UseWebSocket008.wsRef st /\
     UseWebSocket008.pingIntervalRef st' = UseWebSocket008.pingIntervalRef st /\
     sockets (UseWebSocket008.env st') = sockets (UseWebSocket008.env st) /\
     intervals (UseWebSocket008.env st') = intervals (UseWebSocket008.env st) /\
     store (UseWebSocket008.env st') = store (UseWebSocket008.env st) /\
     calls (UseWebSocket008.env st') = calls (UseWebSocket008.env st) /\
     length (timeouts (UseWebSocket008.env st')) = length (timeouts (UseWebSocket008.env st)) /\
     forall ws w frame,
       sockets (UseWebSocket008.env st) !! ws = Some w ->
       readyState w = OPEN -> is_Some (onmessage w) ->
       UseWebSocket008.step P (UseWebSocket008.Message ws frame) st'
       = UseWebSocket008.set_env
           (snd (perform P ws (normalize P (calls (UseWebSocket008.env st)) frame)
                   (UseWebSocket008.env st'))) st') /\
  (forall st p p',
     UseWebSocket.props st = Some p -> enabled p = true -> enabled p' = false ->
     let st' := UseWebSocket.step P (UseWebSocket.Rerender p') st in
     st' = ping_stopped (plain_cleaned (UseWebSocket.set_props (Some p') st)) /\
     length (sockets (UseWebSocket.env st')) = length (sockets (UseWebSocket.env st)) /\
     (forall ws w,
        UseWebSocket.wsRef st = Some ws -> sockets (UseWebSocket.env st) !! ws = Some w ->
        sockets (UseWebSocket.env st') !! ws = Some (ws_close_socket w) /\
        live (ws_close_socket w) = false) /\
     UseWebSocket.pingInterval st' = None /\
     (reachable P st ->
      forall i iv, intervals (UseWebSocket.env st') !! i = Some iv -> active iv = false)).
Proof.
  split.
  - intros st p p' Hr Hp Hok He' st'.
    assert (He : enabled p = true).
    { unfold signed_in_and_enabled in Hok. now destruct (enabled p). }
    assert (Hne : UseWebSocket008.same_props p p' = false).
    { unfold UseWebSocket008.same_props. rewrite He, He'. cbn. apply andb_false_r. }
    assert (Hok' : signed_in_and_enabled p' = false).
    { unfold signed_in_and_enabled. now rewrite He'. }
    pose proof (reachable008_Lifecycle P st Hr) as HL.
    unfold Lifecycle008 in HL. rewrite Hp, Hok in HL. destruct HL as [Hm [t Hmc]].
    assert (Hst' : st' = UseWebSocket008.set_mainCleanup (Some UseWebSocket008.FullCleanup)
                           (UseWebSocket008.set_isMountedRef true
                              (timer_off t (UseWebSocket008.set_props (Some p') st)))).
    { unfold st'. rewrite step008_rerender, Hp, Hne, main_cleanup008_result.
      cbn [UseWebSocket008.mainCleanup UseWebSocket008.set_props]. rewrite Hmc.
      unfold effect_run. now rewrite Hok'. }
    pose proof (reachable008_step P (UseWebSocket008.Rerender p') st Hr) as Hr'.
    fold st' in Hr'. clearbody st'.
    assert (Hsk : sockets (UseWebSocket008.env st') = sockets (UseWebSocket008.env st))
      by (rewrite Hst'; reflexivity).
    assert (Hcl : calls (UseWebSocket008.env st') = calls (UseWebSocket008.env st))
      by (rewrite Hst'; reflexivity).
    split; [rewrite Hst'; reflexivity|]. split; [rewrite Hst'; reflexivity|].
    split; [rewrite Hst'; reflexivity|]. split; [rewrite Hst'; reflexivity|].
    split; [exact Hsk|]. split; [rewrite Hst'; reflexivity|].
    split; [rewrite Hst'; reflexivity|]. split; [exact Hcl|].
    split; [rewrite Hst'; cbn; apply length_alter|].
    intros ws w frame Hw Ho Hh. rewrite <- Hsk in Hw. rewrite <- Hcl.
    now apply (step008_message P st' ws w frame Hr' Hw Ho Hh).
  - intros st p p' Hp He He' st'.
    assert (Hst' : st' = ping_stopped (plain_cleaned (UseWebSocket.set_props (Some p') st))).
    { unfold st'. cbv beta iota delta [UseWebSocket.step]. rewrite Hp, rerender_plain.
      rewrite He, He'. cbn [Bool.eqb negb orb]. rewrite orb_true_r. cbv zeta.
      unfold UseWebSocket.effect_connect. rewrite He'.
      unfold exec. now rewrite effect_ping_skips. }
    clearbody st'. subst st'.
    split; [reflexivity|]. split.
    { cbn. destruct (UseWebSocket.wsRef st); [apply length_alter|reflexivity]. }
    split.
    { intros ws w Hcur Hw. cbn. rewrite Hcur, list_lookup_alter_eq, Hw.
      split; [reflexivity|]. unfold ws_close_socket.
      destruct (live w) eqn:Hl; [reflexivity|exact Hl]. }
    split; [reflexivity|].
    intros Hr i iv Hl. cbn in Hl.
    pose proof (reachable_KeepAlive P st Hr) as HK.
    apply (KeepAlive_off _ _ HK i iv Hl).
Qed.

Lemma X5_pausing_the_feed_witness :
  let st := UseWebSocket008.run Demo.platform
              [UseWebSocket008.TimeoutFires 0; UseWebSocket008.Opened 0]
              (UseWebSocket008.mount (Demo.signed_in "tok")) in
  let paused := {| token := Some "tok"; isAuthenticated := true; enabled := false |} in
  let st' := UseWebSocket008.step Demo.platform (UseWebSocket008.Rerender paused) st in
  reachable008 Demo.platform st /\
  map readyState (sockets (UseWebSocket008.env st)) = [OPEN] /\
  sockets (UseWebSocket008.env st') = sockets (UseWebSocket008.env st).
Proof.
  intros st paused st'.
  assert (Hr : reachable008 Demo.platform st) by (eexists _, _; reflexivity).
  split; [exact Hr|]. split; [reflexivity|].
  apply (proj1 (X5_pausing_the_feed Demo.platform) st (Demo.signed_in "tok") paused Hr
           eq_refl eq_refl eq_refl).
Defined.

(** ** X6 *)

(** X6.  Neither hook ever sends anything but the text [ping]: in every
    state a hook reaches, every frame it handed to any socket is [ping]. *)
Theorem X6_only_pings_are_sent (P : Platform) :
  (forall st ws w frame,
     reachable008 P st -> sockets (UseWebSocket008.env st) !! ws = Some w ->
     In frame (sent w) -> frame = "ping") /\
  (forall st ws w frame,
     reachable P st -> sockets (UseWebSocket.env st) !! ws = Some w ->
     In frame (sent w) -> frame = "ping").
Proof.
  split.
  - intros st ws w frame Hr Hw Hin.
    pose proof (reachable008_only_pings P st ws w Hr Hw) as H.
    unfold only_pings in H. rewrite List.Forall_forall in H. now apply H.
  - intros st ws w frame Hr Hw Hin.
    pose proof (reachable_only_pings P st ws w Hr Hw) as H.
    unfold only_pings in H. rewrite List.Forall_forall in H. now apply H.
Qed.

Lemma X6_only_pings_are_sent_witness :
  let p := Demo.signed_in "tok" in
  let st := UseWebSocket008.run Demo.platform
              [UseWebSocket008.TimeoutFires 0; UseWebSocket008.Opened 0;
               UseWebSocket008.Message 0 heartbeat_frame; UseWebSocket008.IntervalFires 0]
              (UseWebSocket008.mount p) in
  let w := {| url := UseWebSocket008.wsUrl Demo.platform p; readyState := OPEN;
              onopen := Some p; onmessage := Some p; onclose := Some p;
              onerror := Some p; sent := ["ping"; "ping"] |} in
  reachable008 Demo.platform st /\
  sockets (UseWebSocket008.env st) !! 0 = Some w /\
  In "ping" (sent w) /\
  "ping" = "ping".
Proof.
  intros p st w.
  assert (Hr : reachable008 Demo.platform st) by (eexists _, _; reflexivity).
  assert (Hw : sockets (UseWebSocket008.env st) !! 0 = Some w) by reflexivity.
  assert (Hin : In "ping" (sent w)) by (left; reflexivity).
  split; [exact Hr|]. split; [exact Hw|]. split; [exact Hin|].
  exact (proj1 (X6_only_pings_are_sent Demo.platform) st 0 w "ping" Hr Hw Hin).
Defined.

(** ** X7 *)

(** X7.  The delays of the timers.  In every state part_008 reaches the
    attempt counter is at most 5 and every timer it ever set has a delay of
    100 ms (the connect after the main effect) or of 2000, 4000, 8000, 16000
    or 30000 ms (the back-off of a counted attempt): the initial delay of
    1000 ms is never used.  In every state
    [frontend/src/hooks/useWebSocket.ts] reaches every timer has the delay
    of 5000 ms. *)
Theorem X7_timer_delays (P : Platform) :
  (forall st, reachable008 P st ->
     UseWebSocket008.reconnectAttemptsRef st <= 5 /\
     forall t tm, timeouts (UseWebSocket008.env st) !! t = Some tm ->
                  In (delay tm) [100; 2000; 4000; 8000; 16000; 30000]%Z) /\
  (forall st t tm,
     reachable P st -> timeouts (UseWebSocket.env st) !! t = Some tm ->
     delay tm = 5000%Z).
Proof.
  split.
  - intros st Hr. destruct (reachable008_Attempts P st Hr) as (Hle & _ & Ht).
    split; [exact Hle|exact Ht].
  - intros st t tm Hr Hl. now apply (reachable_delays P st t tm).
Qed.

Lemma X7_timer_delays_witness :
  reachable008 Demo.platform four_failures /\
  UseWebSocket008.reconnectAttemptsRef four_failures <= 5 /\
  map delay (timeouts (UseWebSocket008.env four_failures)) = [100; 2000; 4000; 8000; 16000]%Z.
Proof.
  assert (Hr : reachable008 Demo.platform four_failures) by (eexists _, _; reflexivity).
  split; [exact Hr|].
  split; [apply (proj1 (X7_timer_delays Demo.platform) four_failures Hr)|].
  vm_compute. reflexivity.
Defined.

(** ** X8 *)

(** X8.  What a hook does to the store.  Whatever the event, a hook leaves
    the selected time range, the sidebar flag and the live-events flag as
    they are, only appends to the notifications, and keeps an event buffer
    of at most 100 entries within 100: for part_008 from every state it
    reaches, for [frontend/src/hooks/useWebSocket.ts] from every state. *)
Theorem X8_hook_store_footprint (P : Platform) :
  (forall st ev,
     reachable008 P st ->
     store_grew (store (UseWebSocket008.env st))
                (store (UseWebSocket008.env (UseWebSocket008.step P ev st)))) /\
  (forall st ev,
     store_grew (store (UseWebSocket.env st))
                (store (UseWebSocket.env (UseWebSocket.step P ev st)))).
Proof.
  split.
  - intros st ev Hr. apply step008_store_grew. now apply (reachable008_Good P).
  - intros st ev. apply step_plain_store_grew.
Qed.

Lemma X8_hook_store_footprint_witness :
  let st := UseWebSocket008.run Demo.platform
              [UseWebSocket008.TimeoutFires 0; UseWebSocket008.Opened 0]
              (UseWebSocket008.mount (Demo.signed_in "tok")) in
  let st' := UseWebSocket008.step Demo.platform
               (UseWebSocket008.Message 0 (risk_alert_frame "high")) st in
  reachable008 Demo.platform st /\
  length (notifications (store (UseWebSocket008.env st))) = 1 /\
  length (notifications (store (UseWebSocket008.env st'))) = 2 /\
  store_grew (store (UseWebSocket008.env st)) (store (UseWebSocket008.env st')).
Proof.
  intros st st'.
  assert (Hr : reachable008 Demo.platform st) by (eexists _, _; reflexivity).
  split; [exact Hr|]. split; [reflexivity|]. split; [reflexivity|].
  apply (proj1 (X8_hook_store_footprint Demo.platform) st _ Hr).
Defined.

(** ** X9 *)

(** X9.  A socket is only ever created for a render that may use it.  In
    every state part_008 reaches, every socket was created with the URL of
    lines 89-91 for a render that is enabled and authenticated and has a
    non-empty token; in every state
    [frontend/src/hooks/useWebSocket.ts] reaches, with the URL of lines
    20-21 for a render that is enabled and has a non-empty token. *)
Theorem X9_sockets_only_when_signed_in (P : Platform) :
  (forall st ws w,
     reachable008 P st -> sockets (UseWebSocket008.env st) !! ws = Some w ->
     exists p, enabled p = true /\ isAuthenticated p = true /\ token_truthy p = true /\
               url w = UseWebSocket008.wsUrl P p) /\
  (forall st ws w,
     reachable P st -> sockets (UseWebSocket.env st) !! ws = Some w ->
     exists p, enabled p = true /\ token_truthy p = true /\
               url w = UseWebSocket.wsUrl P p).
Proof.
  split.
  - intros st ws w Hr Hw.
    destruct (reachable008_opened_for P st ws w Hr Hw) as (p & Hok & Hu).
    exists p. unfold signed_in_and_enabled in Hok.
    apply andb_true_iff in Hok as [Hok Ht]. apply andb_true_iff in Hok as [He Ha].
    auto.
  - intros st ws w Hr Hw.
    destruct (reachable_opened_for P st ws w Hr Hw) as (p & Ht & He & Hu).
    exists p. auto.
Qed.

Lemma X9_sockets_only_when_signed_in_witness :
  let p := Demo.signed_in "tok" in
  let st := UseWebSocket.run Demo.platform
              [UseWebSocket.Closed 0 1006 false; UseWebSocket.TimeoutFires 0]
              (UseWebSocket.mount Demo.platform p) in
  let w := fresh_socket "ws://localhost:3000/api/admin/dashboard/ws/events?token=tok" p in
  reachable Demo.platform st /\
  sockets (UseWebSocket.env st) !! 1 = Some w /\
  exists p', enabled p' = true /\ token_truthy p' = true /\
             url w = UseWebSocket.wsUrl Demo.platform p'.
Proof.
  intros p st w.
  assert (Hr : reachable Demo.platform st) by (eexists _, _; reflexivity).
  assert (Hw : sockets (UseWebSocket.env st) !! 1 = Some w) by (vm_compute; reflexivity).
  split; [exact Hr|]. split; [exact Hw|].
  exact (proj2 (X9_sockets_only_when_signed_in Demo.platform) st 1 w Hr Hw).
Defined.

(** * Further properties: the socket URL and the dashboard slice *)

Lemma skip_slashes_eq c r :
  UseWebSocket008.skip_slashes (String c r)
  = if Ascii.eqb c "/" then UseWebSocket008.skip_slashes r else String c r.
Proof.
  destruct c as [[] [] [] [] [] [] [] []]; reflexivity.
Qed.

Lemma replace_slashes_eq c rest :
  UseWebSocket008.replace_slashes (String c rest)
  = match rest with
    | String a (String b r) =>
        if Ascii.eqb a "/" && Ascii.eqb b "/" then
          if Ascii.eqb c ":" then String c (UseWebSocket008.replace_slashes rest)
          else String c (String "/" (String "/" (UseWebSocket008.skip_slashes r)))
        else String c (UseWebSocket008.replace_slashes rest)
    | _ => String c (UseWebSocket008.replace_slashes rest)
    end.
Proof.
  destruct rest as [|a [|b r]]; try reflexivity.
  - destruct a as [[] [] [] [] [] [] [] []]; reflexivity.
  - destruct a as [[] [] [] [] [] [] [] []]; try reflexivity.
    destruct b as [[] [] [] [] [] [] [] []]; reflexivity.
Qed.

Lemma skip_slashes_length r :
  String.length (UseWebSocket008.skip_slashes r) <= String.length r.
Proof.
  induction r as [|c r IH]; [reflexivity|].
  rewrite skip_slashes_eq. destruct (Ascii.eqb c "/"); cbn; lia.
Qed.

Lemma replace_slashes_length s :
  String.length (UseWebSocket008.replace_slashes s) <= String.length s.
Proof.
  induction s as [|c rest IH]; [reflexivity|].
  rewrite replace_slashes_eq.
  destruct rest as [|a [|b r]]; try (cbn in *; lia).
  destruct (Ascii.eqb a "/" && Ascii.eqb b "/"); [|cbn in *; lia].
  destruct (Ascii.eqb c ":"); [cbn in *; lia|].
  pose proof (skip_slashes_length r). cbn. lia.
Qed.

Lemma skip_slashes_id r :
  match r with String c _ => Ascii.eqb c "/" | EmptyString => false end = false ->
  UseWebSocket008.skip_slashes r = r.
Proof.
  destruct r as [|c r]; [reflexivity|]. rewrite skip_slashes_eq. now intros ->.
Qed.

Lemma replace_slashes_id s :
  has_triple_slash s = false -> UseWebSocket008.replace_slashes s = s.
Proof.
  induction s as [|c rest IH]; [reflexivity|].
  intros H. rewrite replace_slashes_eq.
  assert (Hrest : has_triple_slash rest = false).
  { destruct rest as [|a [|b r]]; try reflexivity.
    cbn [has_triple_slash] in H. now apply orb_false_iff in H as [_ H]. }
  destruct rest as [|a [|b r]]; try (now rewrite IH).
  destruct (Ascii.eqb a "/" && Ascii.eqb b "/") eqn:Hab; [|now rewrite IH].
  destruct (Ascii.eqb c ":"); [now rewrite IH|].
  apply andb_true_iff in Hab as [Ha Hb].
  apply Ascii.eqb_eq in Ha, Hb. subst a b.
  rewrite skip_slashes_id; [reflexivity|].
  destruct r as [|d r]; [reflexivity|].
  cbn [has_triple_slash] in Hrest. apply orb_false_iff in Hrest as [Hd _].
  cbn in Hd. exact Hd.
Qed.

(** ** X10 *)

(** X10.  [wsUrl] of part_008 does not remove a double slash.  The
    replacement of line 91 rewrites the first run of two or more slashes
    that follows a character other than a colon to two slashes: a text
    without three slashes in a row is returned as it is, and no text gets
    longer.  So with a base URL from [VITE_API_WS_URL], the socket URL is
    the plain concatenation of base, path and token whenever that has no
    three slashes in a row; a base that ends in a slash keeps its double
    slash before [api]. *)
Theorem X10_double_slashes_are_kept (P : Platform) (p : Props) (base : string) :
  VITE_API_WS_URL P = Some base -> string_truthy base = true ->
  (forall s, has_triple_slash s = false -> UseWebSocket008.replace_slashes s = s) /\
  (forall s, String.length (UseWebSocket008.replace_slashes s) <= String.length s) /\
  (let raw := (base ++ "/api/admin/dashboard/ws/events?token=" ++ token_text p)%string in
   has_triple_slash raw = false -> UseWebSocket008.wsUrl P p = raw).
Proof.
  intros Hbase Hne.
  split; [exact replace_slashes_id|]. split; [exact replace_slashes_length|].
  intros raw Hraw. unfold UseWebSocket008.wsUrl, UseWebSocket008.WS_BASE_URL.
  rewrite Hbase. destruct base as [|c b]; [discriminate|].
  now apply replace_slashes_id.
Qed.

Lemma X10_double_slashes_are_kept_witness :
  let P := {| Browser.JSON_parse := Demo.JSON_parse;
              randomUUID := randomUUID Demo.platform;
              toISOString := toISOString Demo.platform;
              url_ok := url_ok Demo.platform;
              location_protocol := "https:";
              location_host := "dash.example";
              VITE_API_WS_URL := Some "wss://api.example/" |} in
  VITE_API_WS_URL P = Some "wss://api.example/" /\
  string_truthy "wss://api.example/" = true /\
  has_triple_slash "wss://api.example//api/admin/dashboard/ws/events?token=tok" = false /\
  UseWebSocket008.wsUrl P (Demo.signed_in "tok")
  = "wss://api.example//api/admin/dashboard/ws/events?token=tok".
Proof.
  intros P.
  split; [reflexivity|]. split; [reflexivity|]. split; [reflexivity|].
  apply (proj2 (proj2 (X10_double_slashes_are_kept P (Demo.signed_in "tok")
                         "wss://api.example/" eq_refl eq_refl))).
  reflexivity.
Defined.

(** ** X11 *)

(** X11.  [removeNotification] removes every notification with the given
    identifier and nothing else: the others stay, in their order; removing
    twice is removing once; an identifier no notification has leaves the
    state unchanged; and removing the identifier [addNotification] has just
    used undoes that [addNotification], provided no older notification had
    the same identifier. *)
Theorem X11_removeNotification (nid : string) (st : DashboardState) :
  let st' := removeNotification nid st in
  (forall n, In n (notifications st') <-> In n (notifications st) /\ n_id n <> nid) /\
  sublist (notifications st') (notifications st) /\
  removeNotification nid st' = st' /\
  ((forall n, In n (notifications st) -> n_id n <> nid) -> st' = st) /\
  (forall now payload,
     (forall n, In n (notifications st) -> n_id n <> nid) ->
     removeNotification nid (addNotification nid now payload st) = st).
Proof.
  assert (Hfilter_id : forall l : list Notification,
            (forall n, In n l -> n_id n <> nid) ->
            List.filter (fun n => negb (String.eqb (n_id n) nid)) l = l).
  { induction l as [|n l IH]; [reflexivity|]. intros H. cbn.
    destruct (String.eqb_spec (n_id n) nid) as [He|Hne].
    - destruct (H n (or_introl eq_refl) He).
    - cbn. f_equal. apply IH. intros m Hm. apply H. now right. }
  cbv zeta. split; [|split; [|split; [|split]]].
  - intros n. cbn. rewrite filter_In, negb_true_iff.
    destruct (String.eqb_spec (n_id n) nid); intuition congruence.
  - cbn. induction (notifications st) as [|n l IH]; [constructor|]. cbn.
    destruct (negb (String.eqb (n_id n) nid)); now constructor.
  - unfold removeNotification. cbn. f_equal.
    apply Hfilter_id. intros n Hn. apply filter_In in Hn as [_ Hn].
    apply negb_true_iff in Hn. now apply String.eqb_neq in Hn.
  - intros H. destruct st as [r s l ev ns]. unfold removeNotification. cbn in *.
    f_equal. now apply Hfilter_id.
  - intros now payload H. destruct st as [r s l ev ns].
    unfold removeNotification, addNotification. cbn in *. f_equal.
    rewrite List.filter_app, Hfilter_id by exact H. cbn.
    rewrite String.eqb_refl. cbn. apply app_nil_r.
Qed.

Lemma X11_removeNotification_witness :
  let st := addNotification "a" "t1" {| p_type := Info; p_message := str "one" |}
              initialState in
  (forall n, In n (notifications st) -> n_id n <> "b") /\
  removeNotification "b"
    (addNotification "b" "t2" {| p_type := Warning; p_message := str "two" |} st) = st.
Proof.
  intros st.
  assert (H : forall n, In n (notifications st) -> n_id n <> "b").
  { intros n [<-|[]]. discriminate. }
  split; [exact H|].
  apply (proj2 (proj2 (proj2 (proj2 (X11_removeNotification "b" st))))). exact H.
Defined.

(** ** X12 *)

(** X12.  The three reducers of the user interface.  [toggleSidebar] and
    [toggleLiveEvents] flip their flag, so that toggling twice gives the
    state back; [setTimeRange] stores its payload and forgets the former
    range; and each of the three leaves every other field, the event buffer
    and the notifications among them, as it was. *)
Theorem X12_ui_reducers (st : DashboardState) (r r' : TimeRange) :
  (toggleSidebar (toggleSidebar st) = st /\
   toggleLiveEvents (toggleLiveEvents st) = st /\
   setTimeRange r (setTimeRange r' st) = setTimeRange r st /\
   (selectedTimeRange st = r -> setTimeRange r st = st)) /\
  (sidebarCollapsed (toggleSidebar st) = negb (sidebarCollapsed st) /\
   liveEventsEnabled (toggleLiveEvents st) = negb (liveEventsEnabled st) /\
   selectedTimeRange (setTimeRange r st) = r) /\
  (forall f, In f [toggleSidebar; toggleLiveEvents; setTimeRange r] ->
     recentEvents (f st) = recentEvents st /\
     notifications (f st) = notifications st) /\
  (selectedTimeRange (toggleSidebar st) = selectedTimeRange st /\
   liveEventsEnabled (toggleSidebar st) = liveEventsEnabled st /\
   selectedTimeRange (toggleLiveEvents st) = selectedTimeRange st /\
   sidebarCollapsed (toggleLiveEvents st) = sidebarCollapsed st /\
   sidebarCollapsed (setTimeRange r st) = sidebarCollapsed st /\
   liveEventsEnabled (setTimeRange r st) = liveEventsEnabled st).
Proof.
  split; [|split; [|split]].
  - destruct st as [tr sb lv ev ns].
    unfold toggleSidebar, toggleLiveEvents, setTimeRange. cbn.
    rewrite !negb_involutive. repeat split. now intros ->.
  - repeat split.
  - intros f [<-|[<-|[<-|[]]]]; split; reflexivity.
  - repeat split.
Qed.

Lemma X12_ui_reducers_witness :
  selectedTimeRange initialState = Range24h /\
  setTimeRange Range24h initialState = initialState.
Proof.
  split; [reflexivity|].
  apply (proj1 (X12_ui_reducers initialState Range24h Range1h)). reflexivity.
Defined.

(** * Further properties: the authentication slice *)

Section AuthFacts.

Variable P : Platform.
Variable JSON_stringify : JSON -> string.
Variable quota : string -> string -> AuthSlice.Storage -> bool.

Lemma getItem_removeItem k k' s :
  AuthSlice.getItem k (AuthSlice.removeItem k' s)
  = if String.eqb k k' then None else AuthSlice.getItem k s.
Proof.
  unfold AuthSlice.removeItem.
  induction s as [|[k0 v] s IH]; cbn.
  - now destruct (String.eqb k k').
  - destruct (String.eqb_spec k0 k') as [->|Hne]; cbn.
    + rewrite IH. now destruct (String.eqb_spec k k').
    + rewrite IH. destruct (String.eqb_spec k k0) as [->|Hk]; [|reflexivity].
      now destruct (String.eqb_spec k0 k').
Qed.

Lemma getItem_setItem k k' v s s' :
  AuthSlice.setItem quota k' v s = Some s' ->
  AuthSlice.getItem k s' = if String.eqb k k' then Some v else AuthSlice.getItem k s.
Proof.
  unfold AuthSlice.setItem. destruct (quota k' v s); [|discriminate].
  intros [= <-]. cbn. destruct (String.eqb_spec k k') as [->|Hne]; [reflexivity|].
  rewrite getItem_removeItem. now apply String.eqb_neq in Hne as ->.
Qed.

Lemma removeItem_twice k s :
  AuthSlice.removeItem k (AuthSlice.removeItem k s) = AuthSlice.removeItem k s.
Proof.
  unfold AuthSlice.removeItem. induction s as [|[k0 v] s IH]; [reflexivity|]. cbn.
  destruct (String.eqb k0 k) eqn:E; cbn; [exact IH|]. rewrite E. cbn. now f_equal.
Qed.

Lemma removeItem_comm k k' s :
  AuthSlice.removeItem k (AuthSlice.removeItem k' s)
  = AuthSlice.removeItem k' (AuthSlice.removeItem k s).
Proof.
  unfold AuthSlice.removeItem. induction s as [|[k0 v] s IH]; [reflexivity|]. cbn.
  destruct (String.eqb k0 k) eqn:E, (String.eqb k0 k') eqn:E'; cbn;
    rewrite ?E, ?E'; cbn; rewrite ?IH; reflexivity.
Qed.

Lemma logout_storage_twice s :
  let clear s := AuthSlice.removeItem "user"
                   (AuthSlice.removeItem "refreshToken" (AuthSlice.removeItem "token" s)) in
  clear (clear s) = clear s.
Proof.
  cbv zeta. unfold AuthSlice.removeItem.
  induction s as [|[k0 v] s IH]; [reflexivity|]. cbn.
  destruct (String.eqb k0 "token") eqn:E1; cbn; [exact IH|].
  destruct (String.eqb k0 "refreshToken") eqn:E2; cbn; [exact IH|].
  destruct (String.eqb k0 "user") eqn:E3; cbn; [exact IH|].
  rewrite E1. cbn. rewrite E2. cbn. rewrite E3. cbn. now f_equal.
Qed.

(** The written items after a [setCredentials] that returned. *)
Lemma setCredentials_storage c state s state' s' :
  AuthSlice.setCredentials JSON_stringify quota c state s = (Some state', s') ->
  state' = {| AuthSlice.token := Some (AuthSlice.c_token c);
              AuthSlice.refreshToken := Some (AuthSlice.c_refreshToken c);
              AuthSlice.user := Some (AuthSlice.c_user c);
              AuthSlice.isAuthenticated := true;
              AuthSlice.isLoading := AuthSlice.isLoading state |} /\
  forall k, AuthSlice.getItem k s'
            = if String.eqb k "user" then Some (JSON_stringify (AuthSlice.c_user c))
              else if String.eqb k "refreshToken" then Some (AuthSlice.c_refreshToken c)
              else if String.eqb k "token" then Some (AuthSlice.c_token c)
              else AuthSlice.getItem k s.
Proof.
  unfold AuthSlice.setCredentials.
  destruct (AuthSlice.setItem quota "token" _ s) as [s1|] eqn:H1; [|discriminate].
  destruct (AuthSlice.setItem quota "refreshToken" _ s1) as [s2|] eqn:H2; [|discriminate].
  destruct (AuthSlice.setItem quota "user" _ s2) as [s3|] eqn:H3; [|discriminate].
  intros [= <- <-]. split; [reflexivity|]. intros k.
  rewrite (getItem_setItem _ _ _ _ _ H3). destruct (String.eqb k "user"); [reflexivity|].
  rewrite (getItem_setItem _ _ _ _ _ H2). destruct (String.eqb k "refreshToken"); [reflexivity|].
  now rewrite (getItem_setItem _ _ _ _ _ H1).
Qed.

(** The items after a [setCredentials] that threw. *)
Lemma setCredentials_refused c state s s' :
  AuthSlice.setCredentials JSON_stringify quota c state s = (None, s') ->
  AuthSlice.getItem "user" s' = AuthSlice.getItem "user" s /\
  (forall k, auth_key k = false -> AuthSlice.getItem k s' = AuthSlice.getItem k s) /\
  (quota "token" (AuthSlice.c_token c) s = true ->
   AuthSlice.getItem "token" s' = Some (AuthSlice.c_token c)) /\
  (quota "token" (AuthSlice.c_token c) s = false -> s' = s).
Proof.
  unfold AuthSlice.setCredentials.
  destruct (AuthSlice.setItem quota "token" _ s) as [s1|] eqn:H1.
  2:{ intros [= <-]. repeat split; try reflexivity.
      unfold AuthSlice.setItem in H1. intros Hq. now rewrite Hq in H1. }
  assert (Hq : quota "token" (AuthSlice.c_token c) s = true).
  { unfold AuthSlice.setItem in H1. now destruct (quota "token" _ s). }
  destruct (AuthSlice.setItem quota "refreshToken" _ s1) as [s2|] eqn:H2.
  2:{ intros [= <-]. split; [|split; [|split]].
      - now rewrite (getItem_setItem _ _ _ _ _ H1).
      - intros k Hk. rewrite (getItem_setItem _ _ _ _ _ H1).
        unfold auth_key in Hk. now destruct (String.eqb k "token").
      - intros _. now rewrite (getItem_setItem _ _ _ _ _ H1).
      - intros Hq'. congruence. }
  destruct (AuthSlice.setItem quota "user" _ s2) as [s3|] eqn:H3; [discriminate|].
  intros [= <-]. split; [|split; [|split]].
  - rewrite (getItem_setItem _ _ _ _ _ H2). cbn.
    now rewrite (getItem_setItem _ _ _ _ _ H1).
  - intros k Hk. rewrite (getItem_setItem _ _ _ _ _ H2), (getItem_setItem _ _ _ _ _ H1).
    unfold auth_key in Hk.
    destruct (String.eqb k "token"), (String.eqb k "refreshToken"); try discriminate.
    reflexivity.
  - intros _. rewrite (getItem_setItem _ _ _ _ _ H2). cbn.
    now rewrite (getItem_setItem _ _ _ _ _ H1).
  - intros Hq'. congruence.
Qed.

Lemma initialState_consistent s a :
  AuthSlice.initialState P s = inr a -> auth_consistent a.
Proof.
  unfold AuthSlice.initialState.
  destruct (if AuthSlice.stored_truthy "user" s then _ else _) as [e|u]; [discriminate|].
  intros [= <-]. unfold auth_consistent, AuthSlice.stored_truthy. cbn.
  destruct (AuthSlice.getItem "token" s); split; try tauto; try discriminate.
  intros _. now eexists.
Qed.

Lemma dispatch_consistent act st :
  auth_consistent (AuthSlice.auth st) ->
  auth_consistent (AuthSlice.auth (AuthSlice.dispatch JSON_stringify quota act st)).
Proof.
  intros H. unfold AuthSlice.dispatch.
  destruct act as [c| |b]; cbn.
  - destruct (AuthSlice.setCredentials _ _ c _ _) as [[a'|] s'] eqn:E; cbn; [|exact H].
    apply setCredentials_storage in E as [-> _].
    split; cbn; [reflexivity|]. intros _. now eexists.
  - split; cbn; discriminate.
  - exact H.
Qed.

Lemma run_consistent actions st :
  auth_consistent (AuthSlice.auth st) ->
  auth_consistent (AuthSlice.auth (AuthSlice.run JSON_stringify quota actions st)).
Proof.
  revert st. induction actions as [|a l IH]; intros st H; [exact H|].
  cbn. apply IH. now apply dispatch_consistent.
Qed.

Lemma auth_reachable_consistent st :
  auth_reachable P JSON_stringify quota st -> auth_consistent (AuthSlice.auth st).
Proof.
  intros (s & st0 & actions & Hl & ->). apply run_consistent.
  unfold AuthSlice.load in Hl.
  destruct (AuthSlice.initialState P s) as [e|a] eqn:E; [discriminate|].
  injection Hl as <-. cbn. now apply (initialState_consistent s).
Qed.

End AuthFacts.

(** ** X13 *)

(** X13.  [logout] forgets the session, whatever the state and the storage
    were: the state is the signed-out one (only [isLoading] is kept), the
    three items of the slice are gone from the storage and every other item
    is as before; a page loaded from that storage starts signed out, also
    when the stored user was not JSON; a second [logout] changes nothing;
    and with the properties [DashboardLayout] then hands on, [connect] of
    either hook returns without doing anything, in whatever state the hook
    is. *)
Theorem X13_logout_forgets_session
    (P : Platform) (JSON_stringify : JSON -> string)
    (quota : string -> string -> AuthSlice.Storage -> bool) (st : AuthSlice.Store) :
  let st' := AuthSlice.dispatch JSON_stringify quota AuthSlice.Logout st in
  AuthSlice.auth st' = signed_out (AuthSlice.isLoading (AuthSlice.auth st)) /\
  (forall k, AuthSlice.getItem k (AuthSlice.localStorage st')
             = if auth_key k then None
               else AuthSlice.getItem k (AuthSlice.localStorage st)) /\
  AuthSlice.load P (AuthSlice.localStorage st')
  = inr {| AuthSlice.auth := signed_out false;
           AuthSlice.localStorage := AuthSlice.localStorage st' |} /\
  AuthSlice.dispatch JSON_stringify quota AuthSlice.Logout st' = st' /\
  (forall d hst,
     UseWebSocket.connect P (hook_props (AuthSlice.auth st') d) hst = (inr tt, hst)) /\
  (forall d hst,
     UseWebSocket008.connect P (hook_props (AuthSlice.auth st') d) hst = (inr tt, hst)).
Proof.
  cbv zeta.
  assert (Hk : forall k,
            AuthSlice.getItem k
              (AuthSlice.localStorage
                 (AuthSlice.dispatch JSON_stringify quota AuthSlice.Logout st))
            = if auth_key k then None
              else AuthSlice.getItem k (AuthSlice.localStorage st)).
  { intros k. cbn. rewrite !getItem_removeItem. unfold auth_key.
    destruct (String.eqb k "user"), (String.eqb k "refreshToken"),
      (String.eqb k "token"); reflexivity. }
  split; [reflexivity|]. split; [exact Hk|]. split; [|split; [|split]].
  - unfold AuthSlice.load, AuthSlice.initialState, AuthSlice.stored_truthy.
    rewrite !Hk. reflexivity.
  - unfold AuthSlice.dispatch. cbn. f_equal. apply logout_storage_twice.
  - intros d hst. reflexivity.
  - intros d hst. unfold UseWebSocket008.connect, bind, gets. cbn.
    now destruct (UseWebSocket008.isMountedRef hst).
Qed.

(** ** X14 *)

(** X14.  A [setCredentials] whose three writes the browser accepts, and a
    reload after it.  The state carries the payload with [isAuthenticated]
    true and [isLoading] kept; the three items hold the payload and every
    other item is as before.  A page loaded from that storage has the same
    two tokens and the user that [JSON.parse] reads back from the stored
    text, but it is authenticated only when the token is not empty: a session
    with an empty token is authenticated until the page is reloaded.  When
    the stored text of the user is not JSON, the page does not load. *)
Theorem X14_credentials_survive_reload
    (P : Platform) (JSON_stringify : JSON -> string)
    (quota : string -> string -> AuthSlice.Storage -> bool)
    (c : AuthSlice.Credentials) (st : AuthSlice.Store)
    (state' : AuthSlice.AuthState) (s' : AuthSlice.Storage) :
  AuthSlice.setCredentials JSON_stringify quota c
    (AuthSlice.auth st) (AuthSlice.localStorage st) = (Some state', s') ->
  let text := JSON_stringify (AuthSlice.c_user c) in
  AuthSlice.dispatch JSON_stringify quota (AuthSlice.SetCredentials c) st
  = {| AuthSlice.auth := state'; AuthSlice.localStorage := s' |} /\
  state' = {| AuthSlice.token := Some (AuthSlice.c_token c);
              AuthSlice.refreshToken := Some (AuthSlice.c_refreshToken c);
              AuthSlice.user := Some (AuthSlice.c_user c);
              AuthSlice.isAuthenticated := true;
              AuthSlice.isLoading := AuthSlice.isLoading (AuthSlice.auth st) |} /\
  (AuthSlice.getItem "token" s' = Some (AuthSlice.c_token c) /\
   AuthSlice.getItem "refreshToken" s' = Some (AuthSlice.c_refreshToken c) /\
   AuthSlice.getItem "user" s' = Some text /\
   forall k, auth_key k = false ->
             AuthSlice.getItem k s' = AuthSlice.getItem k (AuthSlice.localStorage st)) /\
  (forall j, string_truthy text = true -> JSON_parse P text = Some j ->
     AuthSlice.load P s'
     = inr {| AuthSlice.auth :=
                {| AuthSlice.token := Some (AuthSlice.c_token c);
                   AuthSlice.refreshToken := Some (AuthSlice.c_refreshToken c);
                   AuthSlice.user := Some j;
                   AuthSlice.isAuthenticated := string_truthy (AuthSlice.c_token c);
                   AuthSlice.isLoading := false |};
              AuthSlice.localStorage := s' |}) /\
  (string_truthy text = true -> JSON_parse P text = None ->
   AuthSlice.load P s' = inl SyntaxError).
Proof.
  intros H text.
  destruct (setCredentials_storage JSON_stringify quota _ _ _ _ _ H) as [Hst Hk].
  split; [|split; [exact Hst|split; [|split]]].
  - unfold AuthSlice.dispatch. cbn. now rewrite H.
  - split; [|split; [|split]]; try (rewrite Hk; reflexivity).
    intros k Hkey. rewrite Hk. unfold auth_key in Hkey.
    now destruct (String.eqb k "user"), (String.eqb k "refreshToken"),
      (String.eqb k "token").
  - intros j Ht Hp.
    unfold AuthSlice.load, AuthSlice.initialState, AuthSlice.stored_truthy.
    rewrite !Hk. cbn. fold text. rewrite Ht, Hp. reflexivity.
  - intros Ht Hp.
    unfold AuthSlice.load, AuthSlice.initialState, AuthSlice.stored_truthy.
    rewrite !Hk. cbn. fold text. rewrite Ht, Hp. reflexivity.
Qed.

Lemma X14_credentials_survive_reload_witness :
  let stringify := fun _ : JSON => Demo.text "{'role':'admin'}" in
  let quota := fun (_ _ : string) (_ : AuthSlice.Storage) => true in
  let c := {| AuthSlice.c_token := EmptyString;
              AuthSlice.c_refreshToken := "r";
              AuthSlice.c_user := JObject [("role", JString "admin")] |} in
  let st := {| AuthSlice.auth := signed_out false;
               AuthSlice.localStorage := [("theme", "dark")] |} in
  let st' := AuthSlice.dispatch stringify quota (AuthSlice.SetCredentials c) st in
  AuthSlice.setCredentials stringify quota c (AuthSlice.auth st) (AuthSlice.localStorage st)
  = (Some (AuthSlice.auth st'), AuthSlice.localStorage st') /\
  AuthSlice.isAuthenticated (AuthSlice.auth st') = true /\
  AuthSlice.load Demo.platform (AuthSlice.localStorage st')
  = inr {| AuthSlice.auth :=
             {| AuthSlice.token := Some EmptyString;
                AuthSlice.refreshToken := Some "r";
                AuthSlice.user := Some (JObject [("role", JString "admin")]);
                AuthSlice.isAuthenticated := false;
                AuthSlice.isLoading := false |};
           AuthSlice.localStorage := AuthSlice.localStorage st' |}.
Proof.
  intros stringify quota c st st'.
  split; [reflexivity|]. split; [reflexivity|].
  apply (proj1 (proj2 (proj2 (proj2
           (X14_credentials_survive_reload Demo.platform stringify quota c st
              (AuthSlice.auth st') (AuthSlice.localStorage st') eq_refl))))
           (JObject [("role", JString "admin")])).
  - reflexivity.
  - vm_compute. reflexivity.
Defined.

(** ** X15 *)

(** X15.  A [setCredentials] during which the browser refuses a write.  The
    state of the slice stays as it was, the stored user and every item
    other than the two tokens too; but the writes made before the refusal
    stay: when the token was written, the storage holds the new token
    beside the old user, and a page loaded from it has the new token, is
    authenticated when that token is not empty, and has the user of the
    earlier session.  When the token itself was refused, the storage is
    unchanged. *)
Theorem X15_refused_write
    (P : Platform) (JSON_stringify : JSON -> string)
    (quota : string -> string -> AuthSlice.Storage -> bool)
    (c : AuthSlice.Credentials) (st : AuthSlice.Store) (s' : AuthSlice.Storage) :
  AuthSlice.setCredentials JSON_stringify quota c
    (AuthSlice.auth st) (AuthSlice.localStorage st) = (None, s') ->
  let s := AuthSlice.localStorage st in
  AuthSlice.dispatch JSON_stringify quota (AuthSlice.SetCredentials c) st
  = {| AuthSlice.auth := AuthSlice.auth st; AuthSlice.localStorage := s' |} /\
  AuthSlice.getItem "user" s' = AuthSlice.getItem "user" s /\
  (forall k, auth_key k = false -> AuthSlice.getItem k s' = AuthSlice.getItem k s) /\
  (quota "token" (AuthSlice.c_token c) s = false -> s' = s) /\
  (quota "token" (AuthSlice.c_token c) s = true ->
   AuthSlice.getItem "token" s' = Some (AuthSlice.c_token c) /\
   forall a, AuthSlice.initialState P s = inr a ->
     AuthSlice.initialState P s'
     = inr {| AuthSlice.token := Some (AuthSlice.c_token c);
              AuthSlice.refreshToken := AuthSlice.getItem "refreshToken" s';
              AuthSlice.user := AuthSlice.user a;
              AuthSlice.isAuthenticated := string_truthy (AuthSlice.c_token c);
              AuthSlice.isLoading := false |}).
Proof.
  intros H s.
  destruct (setCredentials_refused JSON_stringify quota _ _ _ _ H)
    as (Hu & Hk & Hyes & Hno).
  split; [|split; [exact Hu|split; [exact Hk|split; [exact Hno|]]]].
  - unfold AuthSlice.dispatch. cbn. now rewrite H.
  - intros Hq. specialize (Hyes Hq). split; [exact Hyes|].
    intros a. unfold AuthSlice.initialState, AuthSlice.stored_truthy.
    rewrite Hu, Hyes. fold s.
    destruct (match AuthSlice.getItem "user" s with
              | Some v => string_truthy v | None => false end).
    + destruct (AuthSlice.getItem "user" s) as [text|].
      * destruct (JSON_parse P text); [|discriminate]. now intros [= <-].
      * now intros [= <-].
    + now intros [= <-].
Qed.

Lemma X15_refused_write_witness :
  let stringify := fun _ : JSON => Demo.text "{'role':'admin'}" in
  let quota := fun (k _ : string) (_ : AuthSlice.Storage) => negb (String.eqb k "user") in
  let c := {| AuthSlice.c_token := "new";
              AuthSlice.c_refreshToken := "r2";
              AuthSlice.c_user := JObject [("role", JString "admin")] |} in
  let s := [("token", "old"); ("refreshToken", "r1"); ("user", Demo.text "{'id':'u1'}")] in
  let s' := [("refreshToken", "r2"); ("token", "new"); ("user", Demo.text "{'id':'u1'}")] in
  let a := {| AuthSlice.token := Some "old";
              AuthSlice.refreshToken := Some "r1";
              AuthSlice.user := Some (JObject [("id", JString "u1")]);
              AuthSlice.isAuthenticated := true;
              AuthSlice.isLoading := false |} in
  let st := {| AuthSlice.auth := a; AuthSlice.localStorage := s |} in
  AuthSlice.initialState Demo.platform s = inr a /\
  AuthSlice.setCredentials stringify quota c a s = (None, s') /\
  AuthSlice.auth (AuthSlice.dispatch stringify quota (AuthSlice.SetCredentials c) st) = a /\
  AuthSlice.initialState Demo.platform s'
  = inr {| AuthSlice.token := Some "new";
           AuthSlice.refreshToken := Some "r2";
           AuthSlice.user := Some (JObject [("id", JString "u1")]);
           AuthSlice.isAuthenticated := true;
           AuthSlice.isLoading := false |}.
Proof.
  intros stringify quota c s s' a st.
  assert (Ha : AuthSlice.initialState Demo.platform s = inr a) by (vm_compute; reflexivity).
  assert (H : AuthSlice.setCredentials stringify quota c a s = (None, s')) by reflexivity.
  split; [exact Ha|]. split; [exact H|]. split; [reflexivity|].
  exact (proj2 (proj2 (proj2 (proj2 (proj2
           (X15_refused_write Demo.platform stringify quota c st s' H)))) eq_refl) a Ha).
Defined.

(** ** X16 *)

(** X16.  In every state of the authentication slice that a page reaches
    (loaded from any storage, then any actions, refused writes included), a
    token that is not empty belongs to an authenticated state, and an
    authenticated state has a token.  So with the properties
    [DashboardLayout] hands on, the test of part_008 on [isAuthenticated]
    never decides anything: its guard in [connect] and the condition of its
    main effect are those of [frontend/src/hooks/useWebSocket.ts].  The
    converse fails: after an accepted [setCredentials] with an empty token
    the state is authenticated and neither hook may connect. *)
Theorem X16_token_implies_authenticated
    (P : Platform) (JSON_stringify : JSON -> string)
    (quota : string -> string -> AuthSlice.Storage -> bool)
    (st : AuthSlice.Store) (d : DashboardState) :
  auth_reachable P JSON_stringify quota st ->
  let p := hook_props (AuthSlice.auth st) d in
  (token_truthy p = true -> isAuthenticated p = true) /\
  (isAuthenticated p = true -> is_Some (token p)) /\
  negb (token_truthy p) || negb (isAuthenticated p) || negb (enabled p)
  = negb (token_truthy p) || negb (enabled p) /\
  enabled p && isAuthenticated p && token_truthy p = enabled p && token_truthy p /\
  (forall c,
     AuthSlice.c_token c = EmptyString ->
     let st' := AuthSlice.dispatch JSON_stringify quota (AuthSlice.SetCredentials c) st in
     fst (AuthSlice.setCredentials JSON_stringify quota c
            (AuthSlice.auth st) (AuthSlice.localStorage st)) <> None ->
     auth_reachable P JSON_stringify quota st' /\
     isAuthenticated (hook_props (AuthSlice.auth st') d) = true /\
     token_truthy (hook_props (AuthSlice.auth st') d) = false).
Proof.
  intros Hr p.
  destruct (auth_reachable_consistent P JSON_stringify quota st Hr) as [H1 H2].
  assert (Hti : token_truthy p = true -> isAuthenticated p = true) by exact H1.
  split; [exact Hti|]. split; [exact H2|]. split; [|split].
  - destruct (token_truthy p); [|reflexivity]. now rewrite Hti.
  - destruct (token_truthy p); [|now rewrite !andb_false_r].
    rewrite Hti by reflexivity. now rewrite andb_true_r.
  - intros c Hc st' Hok. split; [|split].
    + destruct Hr as (s & st0 & actions & Hl & ->).
      exists s, st0, (actions ++ [AuthSlice.SetCredentials c]). split; [exact Hl|].
      unfold st', AuthSlice.run. now rewrite fold_left_app.
    + unfold st', AuthSlice.dispatch. cbn.
      destruct (AuthSlice.setCredentials _ _ c _ _) as [[a'|] s'] eqn:E; [|now destruct Hok].
      apply setCredentials_storage in E as [-> _]. reflexivity.
    + unfold st', AuthSlice.dispatch. cbn.
      destruct (AuthSlice.setCredentials _ _ c _ _) as [[a'|] s'] eqn:E; [|now destruct Hok].
      apply setCredentials_storage in E as [-> _]. unfold token_truthy. cbn. now rewrite Hc.
Qed.

Lemma X16_token_implies_authenticated_witness :
  let stringify := fun _ : JSON => Demo.text "{'role':'admin'}" in
  let quota := fun (_ _ : string) (_ : AuthSlice.Storage) => true in
  let c := {| AuthSlice.c_token := "tok";
              AuthSlice.c_refreshToken := "r";
              AuthSlice.c_user := JObject [("role", JString "admin")] |} in
  let st := AuthSlice.run stringify quota [AuthSlice.SetCredentials c]
              {| AuthSlice.auth := signed_out false; AuthSlice.localStorage := [] |} in
  let p := hook_props (AuthSlice.auth st) initialState in
  auth_reachable Demo.platform stringify quota st /\
  token_truthy p = true /\
  isAuthenticated p = true.
Proof.
  intros stringify quota c st p.
  assert (Hr : auth_reachable Demo.platform stringify quota st).
  { exists [], {| AuthSlice.auth := signed_out false; AuthSlice.localStorage := [] |},
      [AuthSlice.SetCredentials c].
    split; reflexivity. }
  split; [exact Hr|]. split; [reflexivity|].
  apply (proj1 (X16_token_implies_authenticated Demo.platform stringify quota st initialState Hr)).
  reflexivity.
Defined.

(** * Further properties: the text helpers *)







Lemma split_free sep (s : string) :
  free_of sep s = true -> Helpers.split sep s = [s].
Proof.
  induction s as [|c s IH]; cbn; [reflexivity|].
  destruct (Ascii.eqb c sep); cbn; [discriminate|].
  intros H. now rewrite IH.
Qed.

Lemma split_cons sep (s : string) :
  exists piece pieces, Helpers.split sep s = piece :: pieces.
Proof.
  induction s as [|c s (p & ps & IH)]; cbn; [now eexists _, _|].
  destruct (Ascii.eqb c sep); [now eexists _, _|].
  rewrite IH. now eexists _, _.
Qed.

(** The first piece is the text before the first separator. *)
Lemma split_append sep (s t : string) :
  free_of sep s = true ->
  Helpers.split sep (s ++ String sep t) = s :: Helpers.split sep t.
Proof.
  induction s as [|c s IH]; cbn.
  - now rewrite Ascii.eqb_refl.
  - destruct (Ascii.eqb c sep); cbn; [discriminate|].
    intros H. now rewrite IH.
Qed.

Lemma split_length sep (s : string) :
  length (Helpers.split sep s) = S (count_char sep s).
Proof.
  induction s as [|c s IH]; cbn; [reflexivity|].
  destruct (Ascii.eqb c sep); cbn; [now rewrite IH|].
  destruct (split_cons sep s) as (p & ps & E). rewrite E in *. cbn in *. exact IH.
Qed.

Lemma truthy_nonempty (s : string) : string_truthy s = true <-> s <> EmptyString.
Proof. destruct s; cbn; split; congruence. Qed.

Section TextHelpers.

Local Open Scope string_scope.

(** ** X17 *)



(** ** X18 *)



(** ** X19 *)

(** X19.  [maskIP].  [null] and the empty text give [N/A].  A text with
    exactly three dots becomes its first two parts followed by [.***.**],
    whatever the parts are: the last two parts do not show, and nothing
    checks that the parts are numbers.  Every other text that is not empty,
    an address without dots or with another number of dots among them, is
    returned as it is. *)
Theorem X19_maskIP :
  Helpers.maskIP None = "N/A" /\
  Helpers.maskIP (Some EmptyString) = "N/A" /\
  (forall a b c d,
     free_of "." a = true -> free_of "." b = true ->
     free_of "." c = true -> free_of "." d = true ->
     Helpers.maskIP (Some (a ++ "." ++ b ++ "." ++ c ++ "." ++ d))
     = a ++ "." ++ b ++ ".***.**") /\
  (forall text,
     text <> EmptyString -> count_char "." text <> 3 ->
     Helpers.maskIP (Some text) = text).
Proof.
  split; [reflexivity|]. split; [reflexivity|]. split.
  - intros a b c d Ha Hb Hc Hd. unfold Helpers.maskIP.
    assert (Hne : string_truthy (a ++ "." ++ b ++ "." ++ c ++ "." ++ d) = true)
      by (now destruct a).
    rewrite Hne. cbn [negb].
    change (a ++ "." ++ b ++ "." ++ c ++ "." ++ d)
      with (a ++ String "." (b ++ String "." (c ++ String "." d))).
    now rewrite !split_append, split_free by assumption.
  - intros text Hne Hcount. unfold Helpers.maskIP.
    apply truthy_nonempty in Hne. rewrite Hne. cbn [negb].
    pose proof (split_length "." text) as Hl.
    destruct (Helpers.split "." text) as [|p1 [|p2 [|p3 [|p4 [|p5 ps]]]]]; try reflexivity.
    cbn in Hl. lia.
Qed.

Lemma X19_maskIP_witness :
  free_of "." "192" = true /\
  Helpers.maskIP (Some "192.168.1.20") = "192.168.***.**" /\
  count_char "." "2001:db8::1" <> 3 /\
  Helpers.maskIP (Some "2001:db8::1") = "2001:db8::1".
Proof.
  split; [reflexivity|]. split; [|split].
  - exact (proj1 (proj2 (proj2 X19_maskIP)) "192" "168" "1" "20"
             eq_refl eq_refl eq_refl eq_refl).
  - cbn. lia.
  - apply (proj2 (proj2 (proj2 X19_maskIP))); [discriminate|cbn; lia].
Defined.

End TextHelpers.

(** * Further properties: the activity feed *)

Lemma filter_length_le {A} (f : A -> bool) (l : list A) :
  length (List.filter f l) <= length l.
Proof. induction l as [|a l IH]; cbn; [lia|]. destruct (f a); cbn; lia. Qed.

Lemma filter_sublist {A} (f : A -> bool) (l : list A) : sublist (List.filter f l) l.
Proof.
  induction l as [|a l IH]; cbn; [constructor|]. destruct (f a); now constructor.
Qed.

Lemma filter_all {A} (f : A -> bool) (l : list A) :
  (forall a, f a = true) -> List.filter f l = l.
Proof.
  intros H. induction l as [|a l IH]; cbn; [reflexivity|]. now rewrite H, IH.
Qed.

Lemma known_self (l : list DashboardEvent) (e : DashboardEvent) :
  In e l -> ActivityFeed.strict_equal (id e) (id e) = true -> ActivityFeed.known l e = true.
Proof.
  intros Hin He. unfold ActivityFeed.known. apply existsb_exists. now exists e.
Qed.

(** ** X20 *)

(** X20.  The list of the activity feed, for live events whose identifier
    equals itself, as every text does.  The live events of
    the store come first, in their order and all of them, followed by the
    historical events that share their identifier with no live event; the
    two selections keep that order, and with both set to [all] nothing is
    left out.  A row is marked as new exactly when it is one of the live
    events: the marked rows are the first ones, as many as live events pass
    the selections.  Once the store holds no live event, as after
    [clearEvents], the list is the historical one. *)
Theorem X20_activity_feed
    (recentEvents : list DashboardEvent)
    (historicalEvents : option (list DashboardEvent)) (severityFilter typeFilter : string) :
  (forall e, In e recentEvents -> ActivityFeed.strict_equal (id e) (id e) = true) ->
  let all := ActivityFeed.allEvents recentEvents historicalEvents in
  let shown := ActivityFeed.filteredEvents severityFilter typeFilter all in
  let live := ActivityFeed.filteredEvents severityFilter typeFilter recentEvents in
  (exists older,
     all = recentEvents ++ older /\
     shown = live ++ ActivityFeed.filteredEvents severityFilter typeFilter older /\
     sublist older (default [] historicalEvents) /\
     forall e, In e older <->
               In e (default [] historicalEvents) /\
               forall re, In re recentEvents ->
                          ActivityFeed.strict_equal (id re) (id e) = false) /\
  (forall i ev, shown !! i = Some ev ->
     ActivityFeed.isNew recentEvents i ev = Nat.ltb i (length live)) /\
  ActivityFeed.filteredEvents "all" "all" all = all /\
  (forall e text, id e = str text -> ActivityFeed.strict_equal (id e) (id e) = true) /\
  (forall st : DashboardState,
     ActivityFeed.allEvents (DashboardSlice.recentEvents (clearEvents st)) historicalEvents
     = default [] historicalEvents).
Proof.
  intros Hrefl all shown live.
  set (older := match historicalEvents with
                | Some events =>
                    List.filter (fun e => negb (ActivityFeed.known recentEvents e)) events
                | None => []
                end).
  assert (Hall : all = recentEvents ++ older) by reflexivity.
  assert (Hshown : shown
                   = live ++ ActivityFeed.filteredEvents severityFilter typeFilter older).
  { unfold shown, ActivityFeed.filteredEvents. rewrite Hall. apply List.filter_app. }
  assert (Holder : forall e, In e older <->
            In e (default [] historicalEvents) /\
            forall re, In re recentEvents ->
                       ActivityFeed.strict_equal (id re) (id e) = false).
  { intros e. unfold older. destruct historicalEvents as [events|]; cbn.
    - rewrite filter_In, negb_true_iff. unfold ActivityFeed.known. split.
      + intros [Hin Hex]. split; [exact Hin|]. intros re Hre.
        destruct (ActivityFeed.strict_equal (id re) (id e)) eqn:E; [|reflexivity].
        assert (existsb (fun re => ActivityFeed.strict_equal (id re) (id e)) recentEvents
                = true) by (apply existsb_exists; now exists re).
        congruence.
      + intros [Hin Hno]. split; [exact Hin|].
        destruct (existsb _ recentEvents) eqn:E; [|reflexivity].
        apply existsb_exists in E as (re & Hre & Heq). rewrite (Hno re Hre) in Heq.
        discriminate.
    - tauto. }
  split; [|split; [|split; [|split]]].
  - exists older. split; [exact Hall|]. split; [exact Hshown|]. split; [|exact Holder].
    unfold older. destruct historicalEvents as [events|]; cbn; [|constructor].
    apply filter_sublist.
  - intros i ev Hi. rewrite Hshown in Hi. unfold ActivityFeed.isNew.
    destruct (Nat.ltb_spec i (length live)) as [Hlt|Hge].
    + rewrite lookup_app_l in Hi by exact Hlt.
      assert (Hin : In ev recentEvents).
      { apply list_elem_of_lookup_2, list_elem_of_In in Hi.
        unfold live, ActivityFeed.filteredEvents in Hi. now apply filter_In in Hi. }
      rewrite (known_self _ _ Hin (Hrefl ev Hin)), andb_true_r.
      apply Nat.ltb_lt. pose proof (filter_length_le
        (ActivityFeed.passes severityFilter typeFilter) recentEvents).
      unfold live, ActivityFeed.filteredEvents in Hlt. lia.
    + rewrite lookup_app_r in Hi by exact Hge.
      apply list_elem_of_lookup_2, list_elem_of_In in Hi.
      unfold ActivityFeed.filteredEvents in Hi. apply filter_In in Hi as [Hin _].
      apply Holder in Hin as [_ Hno].
      assert (Hk : ActivityFeed.known recentEvents ev = false).
      { unfold ActivityFeed.known. destruct (existsb _ recentEvents) eqn:E; [|reflexivity].
        apply existsb_exists in E as (re & Hre & Heq). rewrite (Hno re Hre) in Heq.
        discriminate. }
      rewrite Hk. apply andb_false_r.
  - unfold ActivityFeed.filteredEvents. now apply filter_all.
  - intros e text ->. cbn. apply String.eqb_refl.
  - intros st. unfold ActivityFeed.allEvents. cbn.
    destruct historicalEvents as [events|]; [|reflexivity]. cbn.
    now apply filter_all.
Qed.

Lemma X20_activity_feed_witness :
  let ev := fun (i s : string) =>
    {| id := str i; type := str "login"; action := str "login"; severity := str s;
       actor_id := str "u"; target := null; message := str "m";
       timestamp := null; metadata := null |} in
  let live := [ev "b" "high"; ev "a" "info"] in
  let historical := Some [ev "a" "info"; ev "c" "high"] in
  (forall e, In e live -> ActivityFeed.strict_equal (id e) (id e) = true) /\
  ActivityFeed.filteredEvents "high" "all" (ActivityFeed.allEvents live historical)
  = [ev "b" "high"; ev "c" "high"] /\
  ActivityFeed.isNew live 1 (ev "c" "high") = false.
Proof.
  intros ev live historical.
  assert (H : forall e, In e live -> ActivityFeed.strict_equal (id e) (id e) = true).
  { intros e [<-|[<-|[]]]; reflexivity. }
  split; [exact H|]. split; [reflexivity|].
  exact (proj1 (proj2 (X20_activity_feed live historical "high" "all" H))
           1 (ev "c" "high") eq_refl).
Defined.

(** * Further properties: part_008 after it gave up, and a new token *)

Section Exhausted.

Variable P : Platform.

Lemma only_warned_refl e : only_warned e e.
Proof.
  repeat split. exists []. split; [now rewrite app_nil_r|constructor].
Qed.

Lemma only_warned_trans a b c : only_warned a b -> only_warned b c -> only_warned a c.
Proof.
  intros (A1 & A2 & A3 & wa & A4 & A5) (B1 & B2 & B3 & wb & B4 & B5).
  split; [congruence|]. split; [congruence|]. split; [congruence|].
  exists (wa ++ wb). split; [rewrite B4, A4; now rewrite app_assoc|].
  now apply Forall_app.
Qed.

Lemma exhausted_not_live st ws w :
  exhausted st -> sockets (UseWebSocket008.env st) !! ws = Some w -> live w = false.
Proof.
  intros (_ & _ & Hidle) Hl. destruct (live w) eqn:Hlive; [|reflexivity].
  pose proof (live_busy w Hlive) as Hb. rewrite (Hidle ws w Hl) in Hb. discriminate.
Qed.

Lemma kept_connection_refl st : kept_connection st st.
Proof. repeat split. Qed.

Lemma kept_connection_trans a b c :
  kept_connection a b -> kept_connection b c -> kept_connection a c.
Proof.
  intros (A1 & A2 & A3 & A4) (B1 & B2 & B3 & B4). repeat split; congruence.
Qed.

Lemma kept_exhausted a b :
  kept_connection a b -> exhausted a ->
  exhausted b /\ only_warned (UseWebSocket008.env a) (UseWebSocket008.env b).
Proof.
  intros (H1 & H2 & H3 & H4) (Ha & Hw & Hidle). split.
  - split; [now rewrite H1|]. split; [now rewrite H2|]. now rewrite H3.
  - split; [now rewrite H3|]. split; [now rewrite H3|]. split; [now rewrite H4|].
    exists []. split; [now rewrite app_nil_r, H4|constructor].
Qed.

Lemma kept_timer_off t st : kept_connection st (timer_off t st).
Proof. repeat split. Qed.

Lemma kept_effect_run p st : kept_connection st (effect_run p st).
Proof. unfold effect_run. destruct (signed_in_and_enabled p); repeat split. Qed.

Lemma kept_cleaned st :
  UseWebSocket008.wsRef st = None -> kept_connection st (cleaned st).
Proof. intros Hw. unfold kept_connection, cleaned. cbn. rewrite Hw. repeat split. Qed.

Lemma kept_main_cleanup st :
  UseWebSocket008.wsRef st = None ->
  kept_connection st (exec UseWebSocket008.main_cleanup st).
Proof.
  intros Hw. rewrite main_cleanup008_result.
  destruct (UseWebSocket008.mainCleanup st) as [[t|]|].
  - apply kept_timer_off.
  - apply (kept_connection_trans _ (UseWebSocket008.set_isMountedRef false st));
      [repeat split|]. now apply kept_cleaned.
  - apply kept_connection_refl.
Qed.

Lemma gave_up_warned st :
  exhausted st ->
  exhausted (UseWebSocket008.set_env (gave_up P (UseWebSocket008.env st)) st) /\
  only_warned (UseWebSocket008.env st) (gave_up P (UseWebSocket008.env st)).
Proof.
  intros (Ha & Hw & Hidle). split; [repeat split; assumption|].
  repeat split. eexists. split; [reflexivity|].
  constructor; [|constructor]. split; reflexivity.
Qed.

Lemma exhausted_connect p st :
  exhausted st ->
  exhausted (exec (UseWebSocket008.connect P p) st) /\
  only_warned (UseWebSocket008.env st)
              (UseWebSocket008.env (exec (UseWebSocket008.connect P p) st)).
Proof.
  intros HE. unfold exec.
  destruct (connect008_cases P p st) as [H | [H | [[Hg H] | [Hg H]]]].
  - rewrite H. split; [exact HE|apply only_warned_refl].
  - rewrite H. now apply gave_up_warned.
  - destruct Hg as (_ & _ & _ & _ & _ & _ & _ & Hlt). destruct HE as (Hge & _). lia.
  - destruct Hg as (_ & _ & _ & _ & _ & _ & _ & Hlt). destruct HE as (Hge & _). lia.
Qed.

Lemma idle_unhandled st ws w :
  exhausted st -> sockets (UseWebSocket008.env st) !! ws = Some w ->
  readyState_is CLOSED w = false -> onclose w = None.
Proof.
  intros (_ & _ & Hidle) Hl Hc. pose proof (Hidle ws w Hl) as Hb.
  unfold busy in Hb. rewrite Hc in Hb. cbn in Hb.
  apply orb_false_iff in Hb as [_ Hb]. apply bool_decide_eq_false in Hb.
  destruct (onclose w); [|reflexivity]. destruct Hb. now eexists.
Qed.

Lemma exhausted_step ev st :
  exhausted st ->
  exhausted (UseWebSocket008.step P ev st) /\
  only_warned (UseWebSocket008.env st)
              (UseWebSocket008.env (UseWebSocket008.step P ev st)).
Proof.
  intros HE. pose proof HE as (Ha & Hw & Hidle).
  pose proof (exhausted_not_live st) as Hnot.
  destruct ev as [p'| |t|i|ws|ws frame|ws|ws code wasClean].
  - rewrite step008_rerender.
    destruct (UseWebSocket008.props st) as [p|]; [|split; [exact HE|apply only_warned_refl]].
    destruct (UseWebSocket008.same_props p p'); [split; [exact HE|apply only_warned_refl]|].
    apply kept_exhausted; [|exact HE].
    eapply kept_connection_trans; [|apply kept_effect_run].
    apply (kept_connection_trans _ (UseWebSocket008.set_props (Some p') st));
      [repeat split|]. now apply kept_main_cleanup.
  - rewrite step008_unmount.
    destruct (UseWebSocket008.props st) as [p|]; [|split; [exact HE|apply only_warned_refl]].
    apply kept_exhausted; [|exact HE].
    assert (H1 : kept_connection st
                   (exec UseWebSocket008.main_cleanup (UseWebSocket008.set_props None st))).
    { apply (kept_connection_trans _ (UseWebSocket008.set_props None st));
        [repeat split|]. now apply kept_main_cleanup. }
    eapply kept_connection_trans; [exact H1|].
    set (st1 := exec UseWebSocket008.main_cleanup (UseWebSocket008.set_props None st)) in *.
    assert (Hw1 : UseWebSocket008.wsRef st1 = None)
      by (destruct H1 as (_ & H1 & _); now rewrite H1).
    clearbody st1.
    apply (kept_connection_trans _ (UseWebSocket008.set_isMountedRef false st1));
      [repeat split|]. now apply kept_cleaned.
  - cbv beta iota delta [UseWebSocket008.step].
    destruct (timeouts (UseWebSocket008.env st) !! t) as [tm|];
      [|split; [exact HE|apply only_warned_refl]].
    destruct (pending tm); [|split; [exact HE|apply only_warned_refl]].
    rewrite exec_seq by reflexivity.
    change (exec (UseWebSocket008.lift (modify (set_timeouts (alter (set_pending false) t)))) st)
      with (timer_off t st).
    destruct (kept_exhausted _ _ (kept_timer_off t st) HE) as [HE1 HW1].
    set (st1 := timer_off t st) in *. clearbody st1.
    destruct (UseWebSocket008.isMountedRef st1) eqn:Hm.
    + assert (Hx : exec (UseWebSocket008.timer_callback P (callback tm)) st1
                   = exec (UseWebSocket008.connect P (callback tm)) st1).
      { unfold exec, UseWebSocket008.timer_callback, bind, gets. now rewrite Hm. }
      rewrite Hx. destruct (exhausted_connect (callback tm) _ HE1) as [HE2 HW2].
      split; [exact HE2|]. eapply only_warned_trans; eassumption.
    + rewrite timer008_unmounted by exact Hm. split; assumption.
  - cbv beta iota delta [UseWebSocket008.step].
    destruct (intervals (UseWebSocket008.env st) !! i) as [iv|];
      [|split; [exact HE|apply only_warned_refl]].
    destruct (active iv); [|split; [exact HE|apply only_warned_refl]].
    unfold exec, UseWebSocket008.ping_callback, bind, gets,
      UseWebSocket008.current_readyState. rewrite Hw. cbn.
    split; [exact HE|apply only_warned_refl].
  - cbv beta iota delta [UseWebSocket008.step].
    destruct (sockets (UseWebSocket008.env st) !! ws) as [w|] eqn:Hl;
      [|split; [exact HE|apply only_warned_refl]].
    pose proof (Hnot ws w HE Hl) as Hlive. unfold live in Hlive. unfold readyState_is.
    destruct (readyState w); try discriminate;
      (split; [exact HE|apply only_warned_refl]).
  - cbv beta iota delta [UseWebSocket008.step].
    destruct (sockets (UseWebSocket008.env st) !! ws) as [w|] eqn:Hl;
      [|split; [exact HE|apply only_warned_refl]].
    pose proof (Hnot ws w HE Hl) as Hlive. unfold live in Hlive. unfold readyState_is.
    destruct (readyState w); try discriminate;
      (split; [exact HE|apply only_warned_refl]).
  - cbv beta iota delta [UseWebSocket008.step].
    destruct (sockets (UseWebSocket008.env st) !! ws) as [w|] eqn:Hl;
      [|split; [exact HE|apply only_warned_refl]].
    destruct (onerror w); [|split; [exact HE|apply only_warned_refl]].
    apply kept_exhausted; [|exact HE]. repeat split.
  - cbv beta iota delta [UseWebSocket008.step].
    destruct (sockets (UseWebSocket008.env st) !! ws) as [w|] eqn:Hl;
      [|split; [exact HE|apply only_warned_refl]].
    destruct (readyState_is CLOSED w) eqn:Hc;
      [split; [exact HE|apply only_warned_refl]|].
    rewrite (idle_unhandled st ws w HE Hl Hc).
    rewrite exec_seq by reflexivity.
    change (exec (ret tt) ?s) with s.
    split.
    + split; [exact Ha|]. split; [exact Hw|]. cbn.
      apply Idle_alter; [exact Hidle|]. intros w' _. apply busy_closed.
    + cbn. split; [now apply map_alter_same|]. split; [now apply map_alter_same|].
      split; [reflexivity|]. exists []. split; [now rewrite app_nil_r|constructor].
Qed.

Lemma exhausted_run evs st :
  exhausted st ->
  exhausted (UseWebSocket008.run P evs st) /\
  only_warned (UseWebSocket008.env st)
              (UseWebSocket008.env (UseWebSocket008.run P evs st)).
Proof.
  unfold UseWebSocket008.run. revert st.
  induction evs as [|ev evs IH]; intros st HE; cbn;
    [split; [exact HE|apply only_warned_refl]|].
  destruct (exhausted_step ev st HE) as [H1 H2].
  destruct (IH _ H1) as [H3 H4].
  split; [exact H3|]. eapply only_warned_trans; eassumption.
Qed.

Lemma reachable008_exhausted st :
  reachable008 P st ->
  UseWebSocket008.reconnectAttemptsRef st = UseWebSocket008.MAX_RECONNECT_ATTEMPTS ->
  exhausted st.
Proof.
  intros Hr Ha.
  destruct (reachable008_Attempts P st Hr) as (_ & Hlt & _).
  destruct (reachable008_Good P _ Hr) as (HI & _).
  assert (Hw : UseWebSocket008.wsRef st = None).
  { destruct (UseWebSocket008.wsRef st) eqn:E; [|reflexivity].
    assert (Hn : Some n <> None) by discriminate. specialize (Hlt Hn). lia. }
  split; [lia|]. split; [exact Hw|].
  apply Owned_None_Idle. unfold Inv008 in HI. now rewrite Hw in HI.
Qed.

End Exhausted.

(** ** X21 *)

(** X21.  Giving up is for good.  Once part_008 has counted its fifth
    attempt, whatever follows (timers, socket events, renders with any
    props, the live events switched off and on again, another token) the
    counter stays at 5, [wsRef] stays empty, no socket is created or opened
    and no frame is sent; the store gets no event, and the only
    notifications are further copies of the warning of lines 72-75, one
    for each [connect] that finds the counter at the ceiling.  Only a new
    mount of the component starts over. *)
Theorem X21_giving_up_is_permanent
    (P : Platform) (st : UseWebSocket008.State) (evs : list UseWebSocket008.Event) :
  reachable008 P st ->
  UseWebSocket008.reconnectAttemptsRef st = 5 ->
  let st' := UseWebSocket008.run P evs st in
  UseWebSocket008.reconnectAttemptsRef st' = 5 /\
  UseWebSocket008.wsRef st' = None /\
  (forall ws w, sockets (UseWebSocket008.env st') !! ws = Some w -> live w = false) /\
  only_warned (UseWebSocket008.env st) (UseWebSocket008.env st').
Proof.
  intros Hr Ha st'.
  pose proof (reachable008_exhausted P st Hr Ha) as HE.
  destruct (exhausted_run P evs st HE) as [HE' HW].
  pose proof (reachable008_run P evs st Hr) as Hr'.
  destruct (reachable008_Attempts P _ Hr') as (Hle & _).
  fold st' in HE', HW, Hle.
  split; [|split; [|split]].
  - destruct HE' as (Hge & _).
    unfold UseWebSocket008.MAX_RECONNECT_ATTEMPTS in *. lia.
  - apply HE'.
  - intros ws w Hl. exact (exhausted_not_live st' ws w HE' Hl).
  - exact HW.
Qed.

Lemma X21_giving_up_is_permanent_witness :
  let st := UseWebSocket008.run Demo.platform
              [UseWebSocket008.TimeoutFires 0;
               UseWebSocket008.Closed 0 1006 false; UseWebSocket008.TimeoutFires 1;
               UseWebSocket008.Closed 1 1006 false; UseWebSocket008.TimeoutFires 2;
               UseWebSocket008.Closed 2 1006 false; UseWebSocket008.TimeoutFires 3;
               UseWebSocket008.Closed 3 1006 false; UseWebSocket008.TimeoutFires 4;
               UseWebSocket008.Closed 4 1006 false]
              (UseWebSocket008.mount (Demo.signed_in "tok")) in
  let paused := {| token := Some "tok"; isAuthenticated := true; enabled := false |} in
  let evs := [UseWebSocket008.TimeoutFires 5;
              UseWebSocket008.Rerender paused;
              UseWebSocket008.Rerender (Demo.signed_in "tok2");
              UseWebSocket008.TimeoutFires 6] in
  let st' := UseWebSocket008.run Demo.platform evs st in
  reachable008 Demo.platform st /\
  UseWebSocket008.reconnectAttemptsRef st = 5 /\
  length (notifications (store (UseWebSocket008.env st'))) = 2 /\
  UseWebSocket008.reconnectAttemptsRef st' = 5.
Proof.
  intros st paused evs st'.
  assert (Hr : reachable008 Demo.platform st) by (eexists _, _; reflexivity).
  assert (Ha : UseWebSocket008.reconnectAttemptsRef st = 5) by (vm_compute; reflexivity).
  split; [exact Hr|]. split; [exact Ha|]. split; [vm_compute; reflexivity|].
  exact (proj1 (X21_giving_up_is_permanent Demo.platform st evs Hr Ha)).
Defined.

(** ** X22 *)

(** X22.  A render with another token.  In part_008, when the render
    before was signed in and enabled, the new one is too, and the socket
    held in [wsRef] is connecting or open: the render only sets the timer of
    100 ms, and when that timer fires [connect] returns at its guards, so
    the sockets, [wsRef], the attempt counter and the store are as before
    the render: the socket opened with the old token stays in use.  In
    [frontend/src/hooks/useWebSocket.ts] the same render (enabled before and
    after, other token, a URL the browser accepts) closes the socket held
    in [wsRef] and creates a new connecting socket with the URL of the new
    token, which [wsRef] then holds. *)
Theorem X22_render_with_new_token (P : Platform) :
  (forall st p p' ws w,
     reachable008 P st ->
     UseWebSocket008.props st = Some p ->
     signed_in_and_enabled p = true -> signed_in_and_enabled p' = true ->
     UseWebSocket008.same_props p p' = false ->
     UseWebSocket008.wsRef st = Some ws ->
     sockets (UseWebSocket008.env st) !! ws = Some w -> live w = true ->
     let t := length (timeouts (UseWebSocket008.env st)) in
     let st1 := UseWebSocket008.step P (UseWebSocket008.Rerender p') st in
     let st2 := UseWebSocket008.step P (UseWebSocket008.TimeoutFires t) st1 in
     timeouts (UseWebSocket008.env st1) !! t
     = Some {| delay := 100; callback := p'; pending := true |} /\
     kept_connection st st1 /\ kept_connection st st2 /\
     (forall i tm, timeouts (UseWebSocket008.env st2) !! i = Some tm ->
                   pending tm = true -> i < t)) /\
  (forall st p p',
     UseWebSocket.props st = Some p ->
     enabled p = true -> enabled p' = true ->
     option_string_eqb (token p) (token p') = false ->
     token_truthy p' = true -> url_ok P (UseWebSocket.wsUrl P p') = true ->
     let n := length (sockets (UseWebSocket.env st)) in
     let st' := UseWebSocket.step P (UseWebSocket.Rerender p') st in
     UseWebSocket.wsRef st' = Some n /\
     sockets (UseWebSocket.env st') !! n
     = Some (fresh_socket (UseWebSocket.wsUrl P p') p') /\
     length (sockets (UseWebSocket.env st')) = S n /\
     (forall ws w,
        UseWebSocket.wsRef st = Some ws ->
        sockets (UseWebSocket.env st) !! ws = Some w ->
        sockets (UseWebSocket.env st') !! ws = Some (ws_close_socket w) /\
        live (ws_close_socket w) = false)).
Proof.
  split.
  - intros st p p' ws w Hr Hp Hok Hok' Hne Hcur Hw Hlive t st1 st2.
    pose proof (reachable008_Lifecycle P st Hr) as HL.
    unfold Lifecycle008 in HL. rewrite Hp, Hok in HL. destruct HL as [Hm [t0 Hmc]].
    assert (E1 : st1 = effect_run p' (timer_off t0 (UseWebSocket008.set_props (Some p') st))).
    { unfold st1. rewrite step008_rerender, Hp, Hne, main_cleanup008_result.
      cbn. now rewrite Hmc. }
    assert (Ht : timeouts (UseWebSocket008.env st1)
                 = alter (set_pending false) t0 (timeouts (UseWebSocket008.env st))
                   ++ [ {| delay := 100; callback := p'; pending := true |} ]).
    { rewrite E1. unfold effect_run. rewrite Hok'. reflexivity. }
    assert (Hlook : timeouts (UseWebSocket008.env st1) !! t
                    = Some {| delay := 100; callback := p'; pending := true |}).
    { rewrite Ht. unfold t. rewrite <- (length_alter (set_pending false) _ t0).
      apply list_lookup_middle. reflexivity. }
    assert (K1 : kept_connection st st1).
    { rewrite E1. eapply kept_connection_trans; [|apply kept_effect_run]. repeat split. }
    assert (Hm1 : UseWebSocket008.isMountedRef st1 = true).
    { rewrite E1. unfold effect_run. now destruct (signed_in_and_enabled p'). }
    assert (E2 : st2 = timer_off t st1).
    { unfold st2. cbv beta iota delta [UseWebSocket008.step]. rewrite Hlook. cbn [pending].
      rewrite exec_seq by reflexivity.
      change (exec (UseWebSocket008.lift (modify (set_timeouts (alter (set_pending false) t)))) st1)
        with (timer_off t st1).
      unfold exec, UseWebSocket008.timer_callback, bind, gets.
      change (UseWebSocket008.isMountedRef (timer_off t st1))
        with (UseWebSocket008.isMountedRef st1).
      rewrite Hm1. cbn [callback].
      rewrite connect008_noop; [reflexivity|].
      unfold UseWebSocket008.current_readyState.
      change (UseWebSocket008.wsRef (timer_off t st1)) with (UseWebSocket008.wsRef st1).
      change (sockets (UseWebSocket008.env (timer_off t st1)))
        with (sockets (UseWebSocket008.env st1)).
      destruct K1 as (_ & K2 & K3 & _). rewrite K2, K3, Hcur, Hw. cbn.
      unfold live in Hlive. destruct (readyState w); try discriminate; auto. }
    split; [exact Hlook|]. split; [exact K1|]. split.
    + rewrite E2. eapply kept_connection_trans; [exact K1|apply kept_timer_off].
    + intros i tm Hi Hpen. rewrite E2 in Hi.
      change (timeouts (UseWebSocket008.env (timer_off t st1)))
        with (alter (set_pending false) t (timeouts (UseWebSocket008.env st1))) in Hi.
      destruct (decide (i = t)) as [->|Hne'].
      * rewrite list_lookup_alter_eq, Hlook in Hi. cbn in Hi. injection Hi as <-.
        discriminate.
      * rewrite list_lookup_alter_ne in Hi by congruence.
        apply lookup_lt_Some in Hi. rewrite Ht, length_app, length_alter in Hi.
        cbn in Hi. fold t in Hi. lia.
  - intros st p p' Hp He He' Htok Ht Hu n st'.
    assert (E : st' = plain_connected P p'
                        (plain_cleaned (UseWebSocket.set_props (Some p') st))).
    { unfold st'. cbv beta iota delta [UseWebSocket.step]. rewrite Hp.
      rewrite rerender_plain. cbv zeta. rewrite Htok, He, He'. cbn [Bool.eqb negb orb].
      unfold exec, UseWebSocket.effect_connect. rewrite He'.
      now rewrite (connect_plain_creates P p' _ Ht He' Hu). }
    assert (Hs : sockets (UseWebSocket.env st')
                 = match UseWebSocket.wsRef st with
                   | Some ws => alter ws_close_socket ws (sockets (UseWebSocket.env st))
                   | None => sockets (UseWebSocket.env st)
                   end ++ [fresh_socket (UseWebSocket.wsUrl P p') p']).
    { rewrite E. unfold plain_connected, plain_cleaned. cbn.
      destruct (UseWebSocket.wsRef st) as [ws|]; [|reflexivity].
      f_equal. rewrite list_alter_alter_eq. apply list_alter_ext; [|reflexivity].
      intros w _. cbn. unfold ws_close_socket at 1.
      assert (Hl : live (ws_close_socket w) = false).
      { unfold ws_close_socket. destruct (live w) eqn:Hl; [reflexivity|exact Hl]. }
      now rewrite Hl. }
    assert (Hlen : length (match UseWebSocket.wsRef st with
                           | Some ws => alter ws_close_socket ws (sockets (UseWebSocket.env st))
                           | None => sockets (UseWebSocket.env st)
                           end) = n).
    { destruct (UseWebSocket.wsRef st); [apply length_alter|reflexivity]. }
    split; [|split; [|split]].
    + rewrite E. unfold plain_connected, plain_cleaned. cbn.
      destruct (UseWebSocket.wsRef st); cbn; now rewrite ?length_alter.
    + rewrite Hs, <- Hlen. apply list_lookup_middle. reflexivity.
    + rewrite Hs, length_app, Hlen. cbn. lia.
    + intros ws w Hcur Hw. split.
      * rewrite Hs, Hcur. rewrite lookup_app_l
          by (rewrite length_alter; now apply lookup_lt_Some in Hw).
        now rewrite list_lookup_alter_eq, Hw.
      * unfold ws_close_socket. destruct (live w) eqn:Hl; [reflexivity|exact Hl].
Qed.

Lemma X22_render_with_new_token_witness :
  let st := UseWebSocket008.run Demo.platform
              [UseWebSocket008.TimeoutFires 0; UseWebSocket008.Opened 0]
              (UseWebSocket008.mount (Demo.signed_in "tok")) in
  let w := {| url := UseWebSocket008.wsUrl Demo.platform (Demo.signed_in "tok");
              readyState := OPEN;
              onopen := Some (Demo.signed_in "tok");
              onmessage := Some (Demo.signed_in "tok");
              onclose := Some (Demo.signed_in "tok");
              onerror := Some (Demo.signed_in "tok");
              sent := [] |} in
  let st1 := UseWebSocket008.step Demo.platform
               (UseWebSocket008.Rerender (Demo.signed_in "tok2")) st in
  let st2 := UseWebSocket008.step Demo.platform
               (UseWebSocket008.TimeoutFires (length (timeouts (UseWebSocket008.env st))))
               st1 in
  reachable008 Demo.platform st /\
  sockets (UseWebSocket008.env st) !! 0 = Some w /\
  kept_connection st st2.
Proof.
  intros st w st1 st2.
  assert (Hr : reachable008 Demo.platform st) by (eexists _, _; reflexivity).
  assert (Hw : sockets (UseWebSocket008.env st) !! 0 = Some w) by (vm_compute; reflexivity).
  split; [exact Hr|]. split; [exact Hw|].
  exact (proj1 (proj2 (proj2
           (proj1 (X22_render_with_new_token Demo.platform)
              st (Demo.signed_in "tok") (Demo.signed_in "tok2") 0 w
              Hr eq_refl eq_refl eq_refl eq_refl eq_refl Hw eq_refl)))).
Defined.

(** ** X23 *)

(** X23.  Switching the live events on again in part_008, with the socket
    of before still connecting or open (a render that is not enabled does
    not close it).  The render that is enabled and signed in again runs the
    clean-up of the render before, which is the full one: the socket held
    in [wsRef] loses its handlers and is closed, [wsRef] is emptied and no
    socket is live, and the timer of 100 ms is set.  When that timer fires
    and the browser accepts the URL, [connect] creates a new connecting
    socket, which [wsRef] then holds; the attempt counter is as before. *)
Theorem X23_resuming_the_feed
    (P : Platform) (st : UseWebSocket008.State) (p p' : Props) (ws : nat) (w : WebSocket) :
  reachable008 P st ->
  UseWebSocket008.props st = Some p ->
  enabled p = false -> signed_in_and_enabled p' = true ->
  UseWebSocket008.wsRef st = Some ws ->
  sockets (UseWebSocket008.env st) !! ws = Some w -> live w = true ->
  url_ok P (UseWebSocket008.wsUrl P p') = true ->
  let n := length (sockets (UseWebSocket008.env st)) in
  let t := length (timeouts (UseWebSocket008.env st)) in
  let st1 := UseWebSocket008.step P (UseWebSocket008.Rerender p') st in
  let st2 := UseWebSocket008.step P (UseWebSocket008.TimeoutFires t) st1 in
  (UseWebSocket008.wsRef st1 = None /\
   sockets (UseWebSocket008.env st1)
   = alter (fun w => ws_close_socket (silenced w)) ws (sockets (UseWebSocket008.env st)) /\
   (forall ws' w', sockets (UseWebSocket008.env st1) !! ws' = Some w' -> live w' = false) /\
   timeouts (UseWebSocket008.env st1) !! t
   = Some {| delay := 100; callback := p'; pending := true |}) /\
  (UseWebSocket008.wsRef st2 = Some n /\
   sockets (UseWebSocket008.env st2)
   = sockets (UseWebSocket008.env st1) ++ [fresh_socket (UseWebSocket008.wsUrl P p') p'] /\
   UseWebSocket008.reconnectAttemptsRef st2 = UseWebSocket008.reconnectAttemptsRef st /\
   store (UseWebSocket008.env st2) = store (UseWebSocket008.env st)).
Proof.
  intros Hr Hp Hoff Hok' Hcur Hw Hlive Hu n t st1 st2.
  assert (Hok : signed_in_and_enabled p = false).
  { unfold signed_in_and_enabled. now rewrite Hoff. }
  assert (He' : enabled p' = true).
  { unfold signed_in_and_enabled in Hok'. now destruct (enabled p'). }
  assert (Hne : UseWebSocket008.same_props p p' = false).
  { unfold UseWebSocket008.same_props. rewrite Hoff, He'. apply andb_false_r. }
  pose proof (reachable008_Lifecycle P st Hr) as HL.
  unfold Lifecycle008 in HL. rewrite Hp, Hok in HL. destruct HL as [Hm Hmc].
  destruct (reachable008_Attempts P st Hr) as (_ & Hlt & _).
  assert (Hsome : UseWebSocket008.wsRef st <> None) by (rewrite Hcur; discriminate).
  specialize (Hlt Hsome).
  destruct (reachable008_Good P _ Hr) as (HI & _). unfold Inv008 in HI.
  set (st0 := cleaned (UseWebSocket008.set_isMountedRef false
                         (UseWebSocket008.set_props (Some p') st))).
  assert (E1 : st1 = effect_run p' st0).
  { unfold st1. rewrite step008_rerender, Hp, Hne, main_cleanup008_result.
    cbn. now rewrite Hmc. }
  assert (Hs1 : sockets (UseWebSocket008.env st1)
                = alter (fun w => ws_close_socket (silenced w)) ws
                    (sockets (UseWebSocket008.env st))).
  { rewrite E1. unfold effect_run. rewrite Hok'. unfold st0, cleaned. cbn.
    now rewrite Hcur. }
  assert (Hw1 : UseWebSocket008.wsRef st1 = None).
  { rewrite E1. unfold effect_run. now rewrite Hok'. }
  assert (Ht1 : exists l, timeouts (UseWebSocket008.env st1)
                          = l ++ [ {| delay := 100; callback := p'; pending := true |} ] /\
                          length l = t).
  { rewrite E1. unfold effect_run. rewrite Hok'. unfold st0, cleaned. cbn.
    eexists. split; [reflexivity|].
    destruct (UseWebSocket008.reconnectTimeoutRef st); [apply length_alter|reflexivity]. }
  destruct Ht1 as (l & Ht1 & Hl).
  assert (Hlook : timeouts (UseWebSocket008.env st1) !! t
                  = Some {| delay := 100; callback := p'; pending := true |}).
  { rewrite Ht1, <- Hl. apply list_lookup_middle. reflexivity. }
  assert (Hnot : forall ws' w', sockets (UseWebSocket008.env st1) !! ws' = Some w' ->
                                live w' = false).
  { intros ws' w' Hl'. rewrite Hs1 in Hl'.
    destruct (decide (ws = ws')) as [<-|Hd].
    - rewrite list_lookup_alter_eq, Hw in Hl'. cbn in Hl'. injection Hl' as <-.
      unfold ws_close_socket. destruct (live (silenced w)) eqn:E; [reflexivity|exact E].
    - rewrite list_lookup_alter_ne in Hl' by exact Hd.
      destruct (live w') eqn:E; [|reflexivity].
      pose proof (HI ws' w' Hl' (live_busy w' E)) as Hc. congruence. }
  split; [split; [exact Hw1|split; [exact Hs1|split; [exact Hnot|exact Hlook]]]|].
  assert (Hg : may_connect p' (timer_off t st1)).
  { rewrite E1. unfold effect_run. rewrite Hok'.
    unfold signed_in_and_enabled in Hok'.
    apply andb_true_iff in Hok' as [Hok' Htok]. apply andb_true_iff in Hok' as [_ Hauth].
    repeat split; try assumption; try reflexivity; try discriminate. }
  assert (E2 : st2 = connected P p' (timer_off t st1)).
  { unfold st2. cbv beta iota delta [UseWebSocket008.step]. rewrite Hlook. cbn [pending].
    rewrite exec_seq by reflexivity.
    change (exec (UseWebSocket008.lift (modify (set_timeouts (alter (set_pending false) t)))) st1)
      with (timer_off t st1).
    unfold exec, UseWebSocket008.timer_callback, bind, gets.
    rewrite (proj1 Hg). cbn [callback].
    now rewrite (connect008_creates P p' _ Hg Hu). }
  assert (Hd : detach (UseWebSocket008.wsRef (timer_off t st1))
                 (sockets (UseWebSocket008.env (timer_off t st1)))
               = sockets (UseWebSocket008.env st1)).
  { change (UseWebSocket008.wsRef (timer_off t st1)) with (UseWebSocket008.wsRef st1).
    rewrite Hw1. reflexivity. }
  split; [|split; [|split]].
  - rewrite E2. unfold connected. cbn [UseWebSocket008.wsRef]. rewrite Hd, Hs1.
    now rewrite length_alter.
  - rewrite E2. unfold connected. cbn [UseWebSocket008.env sockets set_sockets].
    now rewrite Hd.
  - rewrite E2, E1. unfold effect_run. now rewrite Hok'.
  - rewrite E2, E1. unfold effect_run. now rewrite Hok'.
Qed.

Lemma X23_resuming_the_feed_witness :
  let paused := {| token := Some "tok"; isAuthenticated := true; enabled := false |} in
  let st := UseWebSocket008.run Demo.platform
              [UseWebSocket008.TimeoutFires 0; UseWebSocket008.Opened 0;
               UseWebSocket008.Rerender paused]
              (UseWebSocket008.mount (Demo.signed_in "tok")) in
  let w := {| url := UseWebSocket008.wsUrl Demo.platform (Demo.signed_in "tok");
              readyState := OPEN;
              onopen := Some (Demo.signed_in "tok");
              onmessage := Some (Demo.signed_in "tok");
              onclose := Some (Demo.signed_in "tok");
              onerror := Some (Demo.signed_in "tok");
              sent := [] |} in
  let st1 := UseWebSocket008.step Demo.platform
               (UseWebSocket008.Rerender (Demo.signed_in "tok")) st in
  reachable008 Demo.platform st /\
  sockets (UseWebSocket008.env st) !! 0 = Some w /\
  UseWebSocket008.wsRef st1 = None.
Proof.
  intros paused st w st1.
  assert (Hr : reachable008 Demo.platform st) by (eexists _, _; reflexivity).
  assert (Hw : sockets (UseWebSocket008.env st) !! 0 = Some w) by (vm_compute; reflexivity).
  split; [exact Hr|]. split; [exact Hw|].
  exact (proj1 (proj1 (X23_resuming_the_feed Demo.platform st paused (Demo.signed_in "tok")
                         0 w Hr eq_refl eq_refl eq_refl eq_refl Hw eq_refl eq_refl))).
Defined.

(** * Further properties: the identifiers of the notifications *)

Section UuidFacts.

Variable P : Platform.

Lemma uuid_ids_weaken l n m : n <= m -> uuid_ids P l n -> uuid_ids P l m.
Proof.
  intros Hle (ks & Hm & Hnd & Hlt). exists ks. split; [exact Hm|]. split; [exact Hnd|].
  eapply Forall_impl; [exact Hlt|]. cbn. intros k Hk. lia.
Qed.

Lemma uuid_ids_push l n ty msg ts :
  uuid_ids P l n ->
  uuid_ids P (l ++ [ {| n_id := randomUUID P n; n_type := ty;
                        n_message := msg; n_timestamp := ts |} ]) (S n).
Proof.
  intros (ks & Hm & Hnd & Hlt). exists (ks ++ [n]). split; [|split].
  - rewrite !map_app, Hm. reflexivity.
  - apply NoDup_app. split; [exact Hnd|]. split; [|apply NoDup_singleton].
    intros k Hk Hin. apply list_elem_of_singleton in Hin as ->.
    rewrite Forall_forall in Hlt. specialize (Hlt n Hk). lia.
  - apply Forall_app. split.
    + eapply Forall_impl; [exact Hlt|]. cbn. intros k Hk. lia.
    + constructor; [lia|constructor].
Qed.

Lemma Uuids_notify payload e :
  Uuids P e ->
  Uuids P (tick (set_store (addNotification (randomUUID P (calls e)) (toISOString P (calls e))
                              payload) e)).
Proof. intros H. unfold Uuids. cbn. now apply uuid_ids_push. Qed.

Lemma Uuids_kept e e' :
  notifications (store e') = notifications (store e) -> calls e <= calls e' ->
  Uuids P e -> Uuids P e'.
Proof. unfold Uuids. intros -> Hle H. now apply (uuid_ids_weaken _ (calls e)). Qed.

Lemma perform_Uuids ws c e : Uuids P e -> Uuids P (snd (perform P ws c e)).
Proof.
  intros H. destruct c as [| |ev g|]; try exact H.
  - unfold perform, try_catch, ws_send.
    destruct (sockets e !! ws) as [w|]; [|exact H].
    destruct (readyState w); exact H.
  - unfold perform, bind, notify_severity, dispatch_addEvent, dispatch_addNotification, modify.
    destruct g; cbn;
      match goal with |- context [if ?c then _ else _] => destruct c end; cbn.
    + apply (Uuids_notify _ (set_store (addEvent ev) (tick e))).
      apply (Uuids_kept e); [reflexivity|cbn; lia|exact H].
    + apply (Uuids_kept e); [reflexivity|cbn; lia|exact H].
    + apply (Uuids_notify _ (set_store (addEvent ev) e)).
      apply (Uuids_kept e); [reflexivity|cbn; lia|exact H].
    + apply (Uuids_kept e); [reflexivity|cbn; lia|exact H].
Qed.

Lemma Act008_Uuids a b :
  Act008 P a b -> Uuids P (UseWebSocket008.env a) -> Uuids P (UseWebSocket008.env b).
Proof.
  intros [Hact|Hact] H.
  - destruct Hact as [st t|st|st p Hg Hu|st p Hg|st ws w Hc Hw Ho|st ws w Hw Hc|st Hm
                     |st ws|st ws c|st|st ws|st p Hc Hm He|st Hm]; try exact H.
    + now apply Uuids_notify.
    + unfold construction_failed. cbn.
      destruct (UseWebSocket008.wsRef st); exact H.
    + now apply Uuids_notify.
    + now apply perform_Uuids.
    + unfold retry_scheduled, settled_after_close. cbn.
      destruct (UseWebSocket008.pingIntervalRef st); exact H.
    + unfold settled_after_close. cbn.
      destruct (UseWebSocket008.pingIntervalRef st); exact H.
  - destruct Hact as [st o|st|st|st p]; try exact H.
    unfold effect_run. destruct (signed_in_and_enabled p); exact H.
Qed.

Lemma ActPlain_Uuids a b :
  ActPlain P a b -> Uuids P (UseWebSocket.env a) -> Uuids P (UseWebSocket.env b).
Proof.
  intros [Hact|Hact] H.
  - destruct Hact as [st t|st p Ht He Hu|st|st ws w Hc Hw Ho|st ws|st
                     |st ws c|st ws|st|st p]; try exact H.
    + unfold plain_construction_failed.
      destruct (UseWebSocket.wsRef st); exact H.
    + now apply Uuids_notify.
    + now apply perform_Uuids.
  - destruct Hact as [st o|st|st|st Hn]; exact H.
Qed.

Lemma Uuids_initial : Uuids P initialEnv.
Proof. exists []. split; [reflexivity|]. split; constructor. Qed.

Lemma reachable008_Uuids st : reachable008 P st -> Uuids P (UseWebSocket008.env st).
Proof.
  apply (reachable008_ind P (fun st => Uuids P (UseWebSocket008.env st))).
  - apply Uuids_initial.
  - apply Act008_Uuids.
Qed.

Lemma reachable_Uuids st : reachable P st -> Uuids P (UseWebSocket.env st).
Proof.
  apply (reachable_ind P (fun st => Uuids P (UseWebSocket.env st))).
  - apply Uuids_initial.
  - apply ActPlain_Uuids.
Qed.

Lemma Uuids_NoDup e :
  (forall a b, randomUUID P a = randomUUID P b -> a = b) ->
  Uuids P e -> NoDup (map n_id (notifications (store e))).
Proof.
  intros Hinj (ks & Hm & Hnd & _). rewrite Hm.
  clear Hm. induction Hnd as [|k ks Hk Hnd IH]; cbn; constructor; [|exact IH].
  intros Hin. apply Hk. apply list_elem_of_In in Hin. apply in_map_iff in Hin as (k' & He & Hin).
  apply Hinj in He as ->. now apply list_elem_of_In.
Qed.

End UuidFacts.

Lemma remove_one (n : Notification) (l1 l2 : list Notification) :
  NoDup (map n_id (l1 ++ n :: l2)) ->
  List.filter (fun m => negb (String.eqb (n_id m) (n_id n))) (l1 ++ n :: l2) = l1 ++ l2.
Proof.
  intros Hnd. rewrite map_app in Hnd. cbn in Hnd.
  apply NoDup_app in Hnd as (H1 & Hdis & H2). apply NoDup_cons in H2 as [Hn2 H2].
  assert (Hkeep : forall l : list Notification,
            n_id n ∉ map n_id l ->
            List.filter (fun m => negb (String.eqb (n_id m) (n_id n))) l = l).
  { induction l as [|m l IH]; [reflexivity|]. cbn. intros Hnot.
    apply not_elem_of_cons in Hnot as [Hne Hnot].
    destruct (String.eqb_spec (n_id m) (n_id n)) as [E|E]; [congruence|].
    cbn. f_equal. now apply IH. }
  rewrite List.filter_app. cbn. rewrite String.eqb_refl. cbn.
  rewrite (Hkeep l1), (Hkeep l2); [reflexivity|exact Hn2|].
  intros Hin. apply (Hdis _ Hin). left.
Qed.

Lemma tally_injective a b : Demo.tally a = Demo.tally b -> a = b.
Proof.
  revert b. induction a as [|a IH]; intros [|b]; cbn; try discriminate; [reflexivity|].
  intros [= H]. f_equal. now apply IH.
Qed.

(** ** X24 *)

(** X24.  The identifiers of the notifications.  When
    [crypto.randomUUID()] never returns the same identifier twice, then in
    every state either hook reaches no two notifications of the store have
    the same identifier, whatever identifiers the events of the server
    carry; so [removeNotification] with the identifier of a notification
    removes that notification and no other. *)
Theorem X24_notification_ids_are_distinct (P : Platform) :
  (forall a b, randomUUID P a = randomUUID P b -> a = b) ->
  (forall st, reachable008 P st ->
     NoDup (map n_id (notifications (store (UseWebSocket008.env st))))) /\
  (forall st, reachable P st ->
     NoDup (map n_id (notifications (store (UseWebSocket.env st))))) /\
  (forall st n l1 l2,
     reachable008 P st ->
     notifications (store (UseWebSocket008.env st)) = l1 ++ n :: l2 ->
     notifications (removeNotification (n_id n) (store (UseWebSocket008.env st)))
     = l1 ++ l2) /\
  (forall st n l1 l2,
     reachable P st ->
     notifications (store (UseWebSocket.env st)) = l1 ++ n :: l2 ->
     notifications (removeNotification (n_id n) (store (UseWebSocket.env st)))
     = l1 ++ l2).
Proof.
  intros Hinj.
  assert (H8 : forall st, reachable008 P st ->
            NoDup (map n_id (notifications (store (UseWebSocket008.env st))))).
  { intros st Hr. apply (Uuids_NoDup P _ Hinj). now apply reachable008_Uuids. }
  assert (H1 : forall st, reachable P st ->
            NoDup (map n_id (notifications (store (UseWebSocket.env st))))).
  { intros st Hr. apply (Uuids_NoDup P _ Hinj). now apply reachable_Uuids. }
  split; [exact H8|]. split; [exact H1|]. split.
  - intros st n l1 l2 Hr Hl. specialize (H8 st Hr). cbn. rewrite Hl in *.
    now apply remove_one.
  - intros st n l1 l2 Hr Hl. specialize (H1 st Hr). cbn. rewrite Hl in *.
    now apply remove_one.
Qed.

Lemma X24_notification_ids_are_distinct_witness :
  let st := UseWebSocket008.run Demo.platform
              [UseWebSocket008.TimeoutFires 0; UseWebSocket008.Opened 0;
               UseWebSocket008.Message 0 (risk_alert_frame "critical")]
              (UseWebSocket008.mount (Demo.signed_in "tok")) in
  (forall a b, randomUUID Demo.platform a = randomUUID Demo.platform b -> a = b) /\
  reachable008 Demo.platform st /\
  length (notifications (store (UseWebSocket008.env st))) = 2 /\
  NoDup (map n_id (notifications (store (UseWebSocket008.env st)))).
Proof.
  intros st.
  assert (Hinj : forall a b,
            randomUUID Demo.platform a = randomUUID Demo.platform b -> a = b).
  { intros a b H. cbn in H. injection H as H. now apply tally_injective. }
  assert (Hr : reachable008 Demo.platform st) by (eexists _, _; reflexivity).
  split; [exact Hinj|]. split; [exact Hr|]. split; [vm_compute; reflexivity|].
  exact (proj1 (X24_notification_ids_are_distinct Demo.platform Hinj) st Hr).
Defined.
